(** * coursebuild.it: segmented video processing, analyze hand-off, ratings

    A shallow embedding of
    - the edge function [init-segmented-processing] (its [serve] callback,
      [extractVideoId] and the segment planning it performs),
    - the API route [pages/api/course/analyze-video-smart.ts],
    - the API route [pages/api/courses/[id]/rating.ts],
    followed by the properties proved about them.

    Conventions.  Durations, indices and counts are JavaScript numbers that
    hold integers (seconds, positions); they are embedded as [Z].  The
    non-finite results of a division by zero are kept apart in [Js.num].
    Strings are [string]s of 8-bit code units.  Tables of the hosted
    database are lists of rows, in insertion order. *)

From Stdlib Require Import ZArith Lia Bool String Ascii List QArith Qround.
From stdpp Require Import base list pretty.
Import ListNotations.

Local Open Scope Z_scope.

(** ** JavaScript values the handlers compute with *)

Module Js.

(** The result of a numeric operation whose operands are integers. *)
Inductive num : Type :=
| Finite (z : Z)
| PosInfinity
| NegInfinity
| NaN.

(** [Math.ceil(a / b)] for integers [a] and [b <> 0]. *)
Definition ceil_quot (a b : Z) : Z := - ((- a) / b).

(** [Math.ceil(a / b)] for integers [a] and [b]. *)
Definition ceil_div (a b : Z) : num :=
  if b =? 0 then
    if 0 <? a then PosInfinity
    else if a <? 0 then NegInfinity
    else NaN
  else Finite (ceil_quot a b).

(** Truthiness of a [number | null]. *)
Definition truthy (v : option Z) : bool :=
  match v with
  | Some d => negb (d =? 0)
  | None => false
  end.

(** [v || dflt] on a [number | null]. *)
Definition or_else (v : option Z) (dflt : Z) : Z :=
  match v with
  | Some d => if d =? 0 then dflt else d
  | None => dflt
  end.

(** [v > s] where [v] is a [number | null] ([null] converts to 0). *)
Definition gt (v : option Z) (s : Z) : bool :=
  match v with
  | Some d => s <? d
  | None => s <? 0
  end.

(** Truthiness of a string. *)
Definition truthy_string (s : string) : bool :=
  match s with
  | EmptyString => false
  | String _ _ => true
  end.

(** The number of times the body of [for (let i = 0; i < n; i++)] runs;
    [None] when the loop never ends. *)
Definition iterations (n : num) : option nat :=
  match n with
  | Finite z => Some (Z.to_nat z)
  | PosInfinity => None
  | NegInfinity => Some O
  | NaN => Some O
  end.

End Js.

(** ** Segment planning of [init-segmented-processing] *)

Module Planning.

(** An element of [rawSegments]. *)
Record RawSegment : Type := mkRaw { startTime : Z; endTime : Z }.

(** [let totalDuration = videoDuration || 1800]. *)
Definition totalDuration (videoDuration : option Z) : Z :=
  Js.or_else videoDuration 1800.

(** The value of [shouldSegment] after the [if (videoDuration)] statement. *)
Definition shouldSegment (videoDuration : option Z) (segment_duration : Z) : bool :=
  if Js.truthy videoDuration
  then Js.gt videoDuration segment_duration
  else true.

(** [const totalSegments = Math.ceil(totalDuration / segment_duration)]. *)
Definition totalSegments (totalDuration segment_duration : Z) : Js.num :=
  Js.ceil_div totalDuration segment_duration.

(** The loop that fills [rawSegments]: [n] iterations are left, the loop
    variable is [i]. *)
Fixpoint rawSegmentsLoop (n : nat) (i : Z) (segment_duration totalDuration : Z)
    (rawSegments : list RawSegment) : list RawSegment :=
  match n with
  | O => rawSegments
  | S n' =>
      let startTime := i * segment_duration in
      let endTime := Z.min ((i + 1) * segment_duration) totalDuration in
      rawSegmentsLoop n' (i + 1) segment_duration totalDuration
        (rawSegments ++ [mkRaw startTime endTime])
  end.

(** [rawSegments] when the loop is left; [None] when it is never left. *)
Definition rawSegments (totalDuration segment_duration : Z) : option (list RawSegment) :=
  match Js.iterations (totalSegments totalDuration segment_duration) with
  | Some n => Some (rawSegmentsLoop n 0 segment_duration totalDuration [])
  | None => None
  end.

(** [rawSegments.pop()], for the array that is left. *)
Definition pop (l : list RawSegment) : list RawSegment := removelast l.

(** The statement "Check if the last segment is less than 20 seconds". *)
Definition mergeShortLast (totalDuration : Z) (rawSegments : list RawSegment)
    : list RawSegment :=
  if (1 <? length rawSegments)%nat then
    match rawSegments !! (length rawSegments - 1)%nat with
    | Some lastSegment =>
        let lastSegmentDuration := endTime lastSegment - startTime lastSegment in
        if lastSegmentDuration <? 20 then
          let popped := pop rawSegments in
          alter (fun s => mkRaw (startTime s) totalDuration)
                (length popped - 1)%nat popped
        else rawSegments
    | None => rawSegments
    end
  else rawSegments.

(** [segmentDurationMinutes] and [expectedQuestions] of one raw segment. *)
Definition segmentDurationMinutes (r : RawSegment) : Z :=
  Js.ceil_quot (endTime r - startTime r) 60.

Definition expectedQuestions (max_questions_per_segment : Z) (r : RawSegment) : Z :=
  Z.min (segmentDurationMinutes r) max_questions_per_segment.

End Planning.

(** ** The regular expressions of the two URL checks *)

Module Regex.

Local Open Scope string_scope.
Local Open Scope list_scope.
Local Open Scope Z_scope.

(** The fragment of JavaScript regular expressions the sources use. *)
Inductive re : Type :=
| Lit (s : string)                          (* a literal run of characters *)
| Alt (a b : re)                            (* a|b, left alternative first *)
| Seq (a b : re)                            (* ab *)
| Many (atLeast : nat) (cls : ascii -> bool) (* greedy cls* (0) or cls+ (1) *)
| Group (r : re).                           (* the capturing group *)

Fixpoint drop (n : nat) (s : string) : string :=
  match n, s with
  | O, _ => s
  | S n', String _ s' => drop n' s'
  | S _, EmptyString => EmptyString
  end.

Fixpoint take (n : nat) (s : string) : string :=
  match n, s with
  | S n', String c s' => String c (take n' s')
  | _, _ => EmptyString
  end.

(** The length of the longest prefix of [s] made of [cls] characters. *)
Fixpoint span (cls : ascii -> bool) (s : string) : nat :=
  match s with
  | String c s' => if cls c then S (span cls s') else O
  | EmptyString => O
  end.

Section Matcher.
Context {R : Type}.

(** Greedy repetition with backtracking: the longest run first, then
    shorter ones, down to [atLeast] characters. *)
Fixpoint giveBack (extra atLeast : nat) (s : string)
    (k : string -> option R) : option R :=
  match k (drop (atLeast + extra) s) with
  | Some r => Some r
  | None =>
      match extra with
      | O => None
      | S extra' => giveBack extra' atLeast s k
      end
  end.

(** [run r s cap k]: match [r] at the start of [s], then continue with
    [k] on the rest of the input and the text captured so far. *)
Fixpoint run (r : re) (s : string) (cap : option string)
    (k : string -> option string -> option R) : option R :=
  match r with
  | Lit l =>
      if String.prefix l s then k (drop (String.length l) s) cap else None
  | Alt a b =>
      match run a s cap k with
      | Some x => Some x
      | None => run b s cap k
      end
  | Seq a b => run a s cap (fun s' cap' => run b s' cap' k)
  | Many atLeast cls =>
      let n := span cls s in
      if (n <? atLeast)%nat then None
      else giveBack (n - atLeast) atLeast s (fun s' => k s' cap)
  | Group g =>
      run g s cap
        (fun s' _ => k s' (Some (take (String.length s - String.length s') s)))
  end.
End Matcher.

(** [s.match(r)] for a regular expression without flags: the leftmost
    position where [r] matches; the result is the text of group 1. *)
Fixpoint search (r : re) (s : string) : option (option string) :=
  match run r s None (fun _ cap => Some cap) with
  | Some cap => Some cap
  | None =>
      match s with
      | String _ s' => search r s'
      | EmptyString => None
      end
  end.

Definition newline : ascii := ascii_of_nat 10.
Definition carriageReturn : ascii := ascii_of_nat 13.

(** [[^&\n?#]] *)
Definition idChar (c : ascii) : bool :=
  negb (Ascii.eqb c "&" || Ascii.eqb c newline || Ascii.eqb c "?" || Ascii.eqb c "#").

(** [.] : any character but a line terminator. *)
Definition dot (c : ascii) : bool :=
  negb (Ascii.eqb c newline || Ascii.eqb c carriageReturn).

(** [/(?:youtube\.com\/watch\?v=|youtu\.be\/|youtube\.com\/embed\/)([^&\n?#]+)/] *)
Definition videoIdPattern : re :=
  Seq (Alt (Lit "youtube.com/watch?v=")
           (Alt (Lit "youtu.be/") (Lit "youtube.com/embed/")))
      (Group (Many 1 idChar)).

(** [/youtube\.com\/watch\?.*v=([^&\n?#]+)/] *)
Definition watchQueryPattern : re :=
  Seq (Lit "youtube.com/watch?")
      (Seq (Many 0 dot) (Seq (Lit "v=") (Group (Many 1 idChar)))).

End Regex.

(** [extractVideoId] of the edge function. *)
Definition extractVideoId (url : string) : option string :=
  match Regex.search Regex.videoIdPattern url with
  | Some (Some id) => Some id
  | _ => None
  end.

(** [isValidYouTubeUrl] of the analyze route: the loop over [patterns]. *)
Fixpoint anyMatches (patterns : list Regex.re) (url : string) : bool :=
  match patterns with
  | [] => false
  | pattern :: rest =>
      match Regex.search pattern url with
      | Some _ => true
      | None => anyMatches rest url
      end
  end.

Definition isValidYouTubeUrl (url : string) : bool :=
  anyMatches [Regex.videoIdPattern; Regex.watchQueryPattern] url.

(** ** The hosted database and the effects of a handler *)

Module Db.

Local Open Scope string_scope.
Local Open Scope list_scope.
Local Open Scope Z_scope.

(** JSON documents: request and response bodies, [metadata] columns. *)
#[local] Unset Elimination Schemes.
Inductive Json : Type :=
| JNull
| JBool (b : bool)
| JNum (q : Q)
| JStr (s : string)
| JArr (items : list Json)
| JObj (fields : list (string * Json)).
#[local] Set Elimination Schemes.

Definition JInt (z : Z) : Json := JNum (inject_Z z).

(** [JSON.stringify] writes a non-finite number as [null]. *)
Definition JOfNum (n : Js.num) : Json :=
  match n with
  | Js.Finite z => JInt z
  | _ => JNull
  end.

Definition JOpt (o : option string) : Json :=
  match o with
  | Some s => JStr s
  | None => JNull
  end.

(** [obj.key] on a JSON object. *)
Fixpoint field (key : string) (fields : list (string * Json)) : option Json :=
  match fields with
  | [] => None
  | (k, v) :: rest => if String.eqb k key then Some v else field key rest
  end.

Definition get (key : string) (j : Json) : option Json :=
  match j with
  | JObj fields => field key fields
  | _ => None
  end.

(** Rows of [courses]. *)
Module Course.
Record t : Type := mk {
  id : string;
  title : string;
  description : string;
  youtube_url : string;
  published : bool;
  created_by : option string;
  created_at : Z;
  is_segmented : option bool;
  total_segments : option Z;
  segment_duration : option Z;
  total_duration : option Z
}.
End Course.

(** Rows of [course_segments]. *)
Module Segment.
Record t : Type := mk {
  course_id : string;
  segment_index : Z;
  start_time : Z;
  end_time : Z;
  title : string;
  status : string
}.
End Segment.

(** Rows of [quiz_generation_progress]. *)
Module Progress.
Record t : Type := mk {
  course_id : string;
  session_id : string;
  stage : string;
  stage_progress : Q;
  overall_progress : Q;
  current_step : string;
  metadata : Json
}.

(** The columns named by [onConflict: 'course_id,session_id']. *)
Definition key (r : t) : string * string := (course_id r, session_id r).

Definition sameKey (a b : t) : bool :=
  String.eqb (course_id a) (course_id b) && String.eqb (session_id a) (session_id b).
End Progress.

(** Rows of [questions]. *)
Module Question.
Record t : Type := mk { id : string; course_id : string }.
End Question.

(** Rows of [user_course_ratings]. *)
Module Rating.
Record t : Type := mk {
  user_id : string;
  course_id : string;
  rating : Z;
  rating_context : string;
  time_spent_minutes : Z;
  questions_answered : Z;
  completion_percentage : Z
}.

(** The columns named by [onConflict: 'user_id,course_id']. *)
Definition key (r : t) : string * string := (user_id r, course_id r).

Definition sameKey (a b : t) : bool :=
  String.eqb (user_id a) (user_id b) && String.eqb (course_id a) (course_id b).
End Rating.

(** Requests sent to other services and writes sent to the database, in
    the order in which a handler sends them. *)
Inductive Call : Type :=
| CallOrchestrator (course_id : string)
| CallInit (attempt : nat) (body : Json)
| CallUserCourseCreations (user_id course_id : string)
| CallSubscribe (channel : string)
| InsertCourse (row : Course.t)
| InsertSegments (rows : list Segment.t)
| InsertProgress (row : Progress.t)
| UpsertProgress (row : Progress.t)
| UpsertRating (row : Rating.t).

(** The state the handlers act on.  The schema of the database is not
    part of the sources: whether [quiz_generation_progress] and
    [user_course_ratings] declare the unique index their conflict target
    names is a parameter of the state. *)
Record World : Type := mkWorld {
  courses : list Course.t;
  course_segments : list Segment.t;
  quiz_generation_progress : list Progress.t;
  progress_unique_index : bool;
  questions : list Question.t;
  user_course_ratings : list Rating.t;
  ratings_unique_index : bool;
  calls : list Call
}.

Definition setCourses (f : list Course.t -> list Course.t) (w : World) : World :=
  mkWorld (f (courses w)) (course_segments w) (quiz_generation_progress w)
    (progress_unique_index w) (questions w) (user_course_ratings w)
    (ratings_unique_index w) (calls w).

Definition setSegments (f : list Segment.t -> list Segment.t) (w : World) : World :=
  mkWorld (courses w) (f (course_segments w)) (quiz_generation_progress w)
    (progress_unique_index w) (questions w) (user_course_ratings w)
    (ratings_unique_index w) (calls w).

Definition setProgress (f : list Progress.t -> list Progress.t) (w : World) : World :=
  mkWorld (courses w) (course_segments w) (f (quiz_generation_progress w))
    (progress_unique_index w) (questions w) (user_course_ratings w)
    (ratings_unique_index w) (calls w).

Definition setRatings (f : list Rating.t -> list Rating.t) (w : World) : World :=
  mkWorld (courses w) (course_segments w) (quiz_generation_progress w)
    (progress_unique_index w) (questions w) (f (user_course_ratings w))
    (ratings_unique_index w) (calls w).

Definition addCall (c : Call) (w : World) : World :=
  mkWorld (courses w) (course_segments w) (quiz_generation_progress w)
    (progress_unique_index w) (questions w) (user_course_ratings w)
    (ratings_unique_index w) (calls w ++ [c]).

(** [INSERT ... ON CONFLICT (key) DO UPDATE]: the row with the key of [r]
    is overwritten, a row with a new key is added. *)
Definition replaceOrAdd {A : Type} (sameKey : A -> A -> bool) (r : A) (rows : list A)
    : list A :=
  if existsb (sameKey r) rows
  then map (fun x => if sameKey r x then r else x) rows
  else rows ++ [r].

(** The outcome of a write: [true] when the database reports an error. *)
Definition upsertRows {A : Type} (unique_index : bool) (sameKey : A -> A -> bool)
    (r : A) (rows : list A) : list A * bool :=
  if unique_index then (replaceOrAdd sameKey r rows, false)
  else (rows, true).

(** A plain [INSERT]: refused when a unique index holds the key already. *)
Definition insertRows {A : Type} (unique_index : bool) (sameKey : A -> A -> bool)
    (r : A) (rows : list A) : list A * bool :=
  if unique_index && existsb (sameKey r) rows then (rows, true)
  else (rows ++ [r], false).

End Db.

(** ** Handlers as programs over the world *)

Module Handler.

Import Db.

Record Response : Type := mkResponse { status : Z; body : Json }.

Record Error : Type := mkError { name : string; message : string }.

(** What a statement of a handler does: it goes on with a value, makes
    the handler return a response, throws, or never ends. *)
Inductive Res (A : Type) : Type :=
| Val (a : A)
| Return (r : Response)
| Throw (e : Error)
| Loops.
Arguments Val {A} a.
Arguments Return {A} r.
Arguments Throw {A} e.
Arguments Loops {A}.

Definition Prog (A : Type) : Type := World -> Res A * World.

Definition ret {A : Type} (a : A) : Prog A := fun w => (Val a, w).

Definition bind {A B : Type} (m : Prog A) (f : A -> Prog B) : Prog B :=
  fun w =>
    match m w with
    | (Val a, w') => f a w'
    | (Return r, w') => (Return r, w')
    | (Throw e, w') => (Throw e, w')
    | (Loops, w') => (Loops, w')
    end.

Definition respond {A : Type} (status : Z) (body : Json) : Prog A :=
  fun w => (Return (mkResponse status body), w).

Definition throw {A : Type} (e : Error) : Prog A := fun w => (Throw e, w).

(** [throw new Error(message)] *)
Definition throwError {A : Type} (message : string) : Prog A :=
  throw (mkError "Error" message).

Definition loops {A : Type} : Prog A := fun w => (Loops, w).

(** [try { m } catch (error) { handler error }] *)
Definition tryCatch {A : Type} (m : Prog A) (handler : Error -> Prog A) : Prog A :=
  fun w =>
    match m w with
    | (Throw e, w') => handler e w'
    | other => other
    end.

Definition modify (f : World -> World) : Prog unit := fun w => (Val tt, f w).

Definition read {A : Type} (f : World -> A) : Prog A := fun w => (Val (f w), w).

Definition when (b : bool) (m : Prog unit) : Prog unit := if b then m else ret tt.

(** The response of a finished handler; [None] when it never answers. *)
Definition answer (r : Res Response * World) : option Response :=
  match fst r with
  | Val resp => Some resp
  | Return resp => Some resp
  | Throw _ => None
  | Loops => None
  end.

End Handler.

Declare Scope prog_scope.
Delimit Scope prog_scope with prog.
Notation "x <- m ;; k" := (Handler.bind m (fun x => k))
  (at level 100, m at next level, right associativity) : prog_scope.
Notation "m ;;; k" := (Handler.bind m (fun _ => k))
  (at level 100, right associativity) : prog_scope.

(** ** The edge function [init-segmented-processing] *)

Module InitSegmentedProcessing.

Import Db Handler.
Local Open Scope string_scope.
Local Open Scope list_scope.
Local Open Scope Z_scope.
Local Open Scope prog_scope.

(** The parsed body of the request ([InitSegmentedProcessingRequest]) and
    its method. *)
Record Request : Type := mkRequest {
  method : string;
  course_id : string;
  youtube_url : string;
  max_questions_per_segment : option Z;
  segment_duration : option Z;
  session_id : option string
}.

(** What [fetch] of the orchestrator yields. *)
Inductive Fetched : Type :=
| FetchOk (json : Json)
| FetchNotOk (text : string)
| FetchFails (e : Error).

(** What the function learns from outside: the YouTube API (through
    [getVideoDuration]), the errors the database reports, the
    orchestrator, and [formatSecondsForDisplay], whose module is not part
    of the sources. *)
Record Env : Type := mkEnv {
  getVideoDuration : string -> option Z;
  formatSecondsForDisplay : Z -> string;
  courseUpdateError : option string;
  segmentsError : option string;
  updateSegmentCountError : option string;
  orchestrator : Fetched
}.

(** A destructuring default: [x = dflt] applies to a missing field. *)
Definition withDefault (o : option Z) (dflt : Z) : Z :=
  match o with
  | Some z => z
  | None => dflt
  end.

Definition sessionGiven (session_id : option string) : bool :=
  match session_id with
  | Some s => Js.truthy_string s
  | None => false
  end.

Definition sessionText (session_id : option string) : string :=
  match session_id with
  | Some s => s
  | None => ""
  end.

(** [supabase.from('courses').update({...}).eq('id', course_id)] *)
Definition segmentationInfo (course_id : string) (is_segmented : bool)
    (total_segments : Js.num) (segment_duration total_duration : Z)
    (c : Course.t) : Course.t :=
  if String.eqb (Course.id c) course_id then
    Course.mk (Course.id c) (Course.title c) (Course.description c)
      (Course.youtube_url c) (Course.published c) (Course.created_by c)
      (Course.created_at c) (Some is_segmented)
      (match total_segments with Js.Finite z => Some z | _ => None end)
      (Some segment_duration) (Some total_duration)
  else c.

Definition segmentCount (course_id : string) (total_segments : Z)
    (c : Course.t) : Course.t :=
  if String.eqb (Course.id c) course_id then
    Course.mk (Course.id c) (Course.title c) (Course.description c)
      (Course.youtube_url c) (Course.published c) (Course.created_by c)
      (Course.created_at c) (Course.is_segmented c) (Some total_segments)
      (Course.segment_duration c) (Course.total_duration c)
  else c.

Definition updateCourse (error : option string) (f : Course.t -> Course.t)
    : Prog (option string) :=
  match error with
  | Some msg => ret (Some msg)
  | None => modify (setCourses (map f)) ;;; ret None
  end.

(** [supabase.from('course_segments').insert(segments).select()] *)
Definition insertSegments (error : option string) (segments : list Segment.t)
    : Prog (list Segment.t + string) :=
  modify (addCall (InsertSegments segments)) ;;;
  match error with
  | Some msg => ret (inr msg)
  | None => modify (setSegments (fun rows => rows ++ segments)) ;;; ret (inl segments)
  end.

(** [supabase.from('quiz_generation_progress').insert({...})]; the result
    is not looked at. *)
Definition insertProgress (row : Progress.t) : Prog unit :=
  modify (addCall (InsertProgress row)) ;;;
  modify (fun w =>
    setProgress
      (fun rows => fst (insertRows (progress_unique_index w) Progress.sameKey row rows))
      w).

(** [fetch(orchestratorUrl, ...)] *)
Definition fetchOrchestrator (env : Env) (course_id : string) : Prog Fetched :=
  modify (addCall (CallOrchestrator course_id)) ;;;
  match orchestrator env with
  | FetchFails e => throw e
  | other => ret other
  end.

(** The hand-off shared by both branches: trigger the orchestrator and
    throw when its answer is not OK. *)
Definition triggerOrchestrator (env : Env) (course_id : string) : Prog unit :=
  orchestratorResponse <- fetchOrchestrator env course_id ;;
  match orchestratorResponse with
  | FetchNotOk errorText =>
      throwError ("Failed to trigger orchestrator: " +:+ errorText)
  | _ => ret tt
  end.

(** The loop "Create segment objects": [rest] are the raw segments from
    index [i] on. *)
Fixpoint segmentObjectsLoop (env : Env) (course_id : string)
    (max_questions_per_segment : Z) (rest : list Planning.RawSegment) (i : Z)
    (segments : list Segment.t) (totalExpectedQuestions : Z)
    : list Segment.t * Z :=
  match rest with
  | [] => (segments, totalExpectedQuestions)
  | r :: rest' =>
      let startTime := Planning.startTime r in
      let endTime := Planning.endTime r in
      let expectedQuestions := Planning.expectedQuestions max_questions_per_segment r in
      segmentObjectsLoop env course_id max_questions_per_segment rest' (i + 1)
        (segments ++
           [Segment.mk course_id i startTime endTime
              ("Part " +:+ pretty (i + 1) +:+ ": " +:+
               formatSecondsForDisplay env startTime +:+ " - " +:+
               formatSecondsForDisplay env endTime)
              "pending"])
        (totalExpectedQuestions + expectedQuestions)
  end.

Definition segmentJson (s : Segment.t) : Json :=
  JObj [("index", JInt (Segment.segment_index s));
        ("start_time", JInt (Segment.start_time s));
        ("end_time", JInt (Segment.end_time s));
        ("title", JStr (Segment.title s));
        ("status", JStr (Segment.status s))].

(** The branch [if (!shouldSegment)]. *)
Definition singleSegment (env : Env) (req : Request) (totalDuration : Z)
    : Prog Response :=
  let segments :=
    [Segment.mk (course_id req) 0 0 totalDuration
       ("Full Video: " +:+ formatSecondsForDisplay env 0 +:+ " - " +:+
        formatSecondsForDisplay env totalDuration)
       "pending"] in
  inserted <- insertSegments (segmentsError env) segments ;;
  match inserted with
  | inr msg => throwError ("Failed to create segment: " +:+ msg)
  | inl createdSegments =>
      when (sessionGiven (session_id req))
        (insertProgress
           (Progress.mk (course_id req) (sessionText (session_id req))
              "planning" 0 0 "Starting single segment processing"
              (JObj [("total_segments", JInt 1);
                     ("segment_duration", JInt totalDuration);
                     ("video_duration", JInt totalDuration)]))) ;;;
      triggerOrchestrator env (course_id req) ;;;
      respond 200
        (JObj [("success", JBool true);
               ("segmented", JBool false);
               ("total_segments", JInt 1);
               ("segment_duration", JInt totalDuration);
               ("video_duration", JInt totalDuration);
               ("message",
                JStr "Video will be processed as a single segment with live question generation");
               ("segments",
                JArr [JObj [("index", JInt 0);
                            ("start_time", JInt 0);
                            ("end_time", JInt totalDuration);
                            ("title",
                             match createdSegments with
                             | s :: _ => JStr (Segment.title s)
                             | [] => JNull
                             end);
                            ("status", JStr "pending")]])])
  end.

(** The final segments and [totalExpectedQuestions] of the branch that
    segments; [None] when the loop over [totalSegments] never ends. *)
Definition plannedSegments (env : Env) (course_id : string)
    (max_questions_per_segment segment_duration totalDuration : Z)
    : option (list Segment.t * Z) :=
  match Planning.rawSegments totalDuration segment_duration with
  | None => None
  | Some rawSegments =>
      let rawSegments := Planning.mergeShortLast totalDuration rawSegments in
      Some (segmentObjectsLoop env course_id max_questions_per_segment
              rawSegments 0 [] 0)
  end.

(** The statements after the branch [if (!shouldSegment)]. *)
Definition manySegments (env : Env) (req : Request)
    (max_questions_per_segment segment_duration totalDuration : Z)
    : Prog Response :=
  match plannedSegments env (course_id req) max_questions_per_segment
          segment_duration totalDuration with
  | None => loops
  | Some (segments, totalExpectedQuestions) =>
      inserted <- insertSegments (segmentsError env) segments ;;
      match inserted with
      | inr msg => throwError ("Failed to create segments: " +:+ msg)
      | inl createdSegments =>
          let count := Z.of_nat (length createdSegments) in
          updateCourse (updateSegmentCountError env)
            (segmentCount (course_id req) count) ;;;
          when (sessionGiven (session_id req))
            (insertProgress
               (Progress.mk (course_id req) (sessionText (session_id req))
                  "planning" 0 0 "Starting segmented processing"
                  (JObj [("total_segments", JInt count);
                         ("segment_duration", JInt segment_duration);
                         ("video_duration", JInt totalDuration)]))) ;;;
          triggerOrchestrator env (course_id req) ;;;
          respond 200
            (JObj [("success", JBool true);
                   ("segmented", JBool true);
                   ("total_segments", JInt count);
                   ("segment_duration", JInt segment_duration);
                   ("video_duration", JInt totalDuration);
                   ("message",
                    JStr ("Video segmented into " +:+ pretty count +:+
                          " parts. Processing started."));
                   ("segments", JArr (map segmentJson createdSegments))])
      end
  end.

(** The body of the [try] block. *)
Definition process (env : Env) (req : Request) : Prog Response :=
  let max_questions_per_segment := withDefault (max_questions_per_segment req) 5 in
  let segment_duration := withDefault (segment_duration req) 300 in
  match extractVideoId (youtube_url req) with
  | None => throwError "Invalid YouTube URL"
  | Some videoId =>
      let videoDuration := getVideoDuration env videoId in
      let totalDuration := Planning.totalDuration videoDuration in
      let shouldSegment := Planning.shouldSegment videoDuration segment_duration in
      courseUpdateError <-
        updateCourse (courseUpdateError env)
          (segmentationInfo (course_id req) shouldSegment
             (if shouldSegment
              then Js.ceil_div totalDuration segment_duration
              else Js.Finite 1)
             segment_duration (Z.max 1 totalDuration)) ;;
      match courseUpdateError with
      | Some msg => throwError ("Failed to update course: " +:+ msg)
      | None =>
          if negb shouldSegment
          then singleSegment env req totalDuration
          else manySegments env req max_questions_per_segment segment_duration
                 totalDuration
      end
  end.

(** The callback given to [serve]. *)
Definition serve (env : Env) (req : Request) : Prog Response :=
  if String.eqb (method req) "OPTIONS" then respond 200 (JStr "ok")
  else
    tryCatch (process env req)
      (fun error =>
         respond 500
           (JObj [("error", JStr (message error)); ("success", JBool false)])).

End InitSegmentedProcessing.

(** ** The API route [analyze-video-smart] *)

Module AnalyzeVideoSmart.

Import Db Handler.
Local Open Scope string_scope.
Local Open Scope list_scope.
Local Open Scope Z_scope.
Local Open Scope prog_scope.

(** [req.method], the [authorization] header and the fields of [req.body]. *)
Record Request : Type := mkRequest {
  method : string;
  authorization : option string;
  course_id : option string;
  youtube_url : option string;
  session_id : option string;
  max_questions : option Z;
  enable_quality_verification : option bool;
  segment_duration : option Z;
  useCache : option bool;
  useEnhanced : option bool
}.

(** What [fetch(initUrl, ...)] and [initResponse.json()] yield.  A request
    aborted by the 30 second timer throws an error named [AbortError]. *)
Inductive InitFetched : Type :=
| InitOk (initResult : Json)
| InitNotOk (errorText : string)
| InitThrows (e : Error).

Definition timedOut : InitFetched :=
  InitThrows (mkError "AbortError" "The operation was aborted").

(** The result of [fetchYouTubeMetadata]. *)
Record Metadata : Type := mkMetadata { md_title : string; author_name : string }.

(** What the route learns from outside.  [utilsExtractVideoId],
    [fetchYouTubeMetadata] and [generateFallbackTitle] belong to
    [@/utils/youtube], which is not part of the sources.  [initFetch n] is
    what the [n]-th request to the edge function would yield.  [toText] is
    the conversion a template literal applies to a value. *)
Record Env : Type := mkEnv {
  getUser : string -> option string;
  utilsExtractVideoId : string -> option string;
  fetchYouTubeMetadata : string -> option Metadata;
  generateFallbackTitle : string -> string;
  cacheError : bool;
  questionsError : string -> bool;
  courseError : option string;
  newCourseId : string;
  now : Z;
  nowISO : string;
  initFetch : nat -> InitFetched;
  courseFetchError : bool;
  toText : option Json -> string
}.

Definition quote : string := String (ascii_of_nat 34) "".

(** Truthiness of an optional string and of a JSON value. *)
Definition given (o : option string) : bool :=
  match o with
  | Some s => Js.truthy_string s
  | None => false
  end.

Definition text (o : option string) : string :=
  match o with
  | Some s => s
  | None => ""
  end.

Definition truthyJson (o : option Json) : bool :=
  match o with
  | None => false
  | Some JNull => false
  | Some (JBool b) => b
  | Some (JNum q) => negb (Qeq_bool q 0)
  | Some (JStr s) => Js.truthy_string s
  | Some (JArr _) => true
  | Some (JObj _) => true
  end.

Definition orNull (o : option Json) : Json :=
  match o with
  | Some j => j
  | None => JNull
  end.

Definition optBool (o : option bool) (dflt : bool) : bool :=
  match o with
  | Some b => b
  | None => dflt
  end.

Definition optZ (o : option Z) (dflt : Z) : Z :=
  match o with
  | Some z => z
  | None => dflt
  end.

(** [sanitizeYouTubeUrl] *)
Definition sanitizeYouTubeUrl (env : Env) (url : string) : string :=
  match utilsExtractVideoId env url with
  | Some videoId =>
      if Js.truthy_string videoId
      then "https://www.youtube.com/watch?v=" +:+ videoId
      else url
  | None => url
  end.

(** [authHeader.split(' ')[1]] *)
Fixpoint untilSpace (s : string) : string :=
  match s with
  | String c s' => if Ascii.eqb c " " then "" else String c (untilSpace s')
  | EmptyString => ""
  end.

Fixpoint afterSpace (s : string) : string :=
  match s with
  | String c s' => if Ascii.eqb c " " then s' else afterSpace s'
  | EmptyString => ""
  end.

(** The block "Extract user from authorization header". *)
Definition userOf (env : Env) (req : Request) : option string :=
  match authorization req with
  | Some authHeader =>
      if Js.truthy_string authHeader && String.prefix "Bearer " authHeader
      then getUser env (untilSpace (afterSpace authHeader))
      else None
  | None => None
  end.

(** [.order('created_at', { ascending: false })] *)
Fixpoint insertByDate (c : Course.t) (sorted : list Course.t) : list Course.t :=
  match sorted with
  | [] => [c]
  | d :: rest =>
      if Course.created_at d <? Course.created_at c
      then c :: d :: rest
      else d :: insertByDate c rest
  end.

Definition newestFirst (rows : list Course.t) : list Course.t :=
  fold_right insertByDate [] rows.

(** [supabase.from('courses').select(...).eq('youtube_url', url).order(...)] *)
Definition selectCourses (env : Env) (url : string) : Prog (option (list Course.t)) :=
  read (fun w =>
    if cacheError env then None
    else Some (newestFirst
                 (filter (fun c => String.eqb (Course.youtube_url c) url = true)
                    (courses w)))).

(** [supabase.from('questions').select('id').eq('course_id', id).limit(1)] *)
Definition selectQuestions (env : Env) (id : string) : Prog (option (list Question.t)) :=
  read (fun w =>
    if questionsError env id then None
    else Some (firstn 1
                 (filter (fun q => String.eqb (Question.course_id q) id = true)
                    (questions w)))).

(** The loop [for (const existingCourse of existingCourses)]: the first
    course that has a question, if any. *)
Fixpoint firstWithQuestions (env : Env) (existingCourses : list Course.t)
    : Prog (option Course.t) :=
  match existingCourses with
  | [] => ret None
  | existingCourse :: rest =>
      found <- selectQuestions env (Course.id existingCourse) ;;
      match found with
      | Some (_ :: _) => ret (Some existingCourse)
      | _ => firstWithQuestions env rest
      end
  end.

(** The block "Check cache FIRST if enabled". *)
Definition checkCache (env : Env) (req : Request) (youtube_url session_id : string)
    : Prog unit :=
  if optBool (useCache req) true && negb (given (course_id req)) then
    let sanitizedUrl := sanitizeYouTubeUrl env youtube_url in
    existing <- selectCourses env sanitizedUrl ;;
    match existing with
    | Some (c :: rest) =>
        hit <- firstWithQuestions env (c :: rest) ;;
        match hit with
        | Some existingCourse =>
            respond 200
              (JObj [("success", JBool true);
                     ("message", JStr "Course loaded from cache");
                     ("session_id", JStr session_id);
                     ("course_id", JStr (Course.id existingCourse));
                     ("cached", JBool true);
                     ("segmented", JBool false);
                     ("data",
                      JObj [("title", JStr (Course.title existingCourse));
                            ("description", JStr (Course.description existingCourse))])])
        | None => ret tt
        end
    | _ => ret tt
    end
  else ret tt.

(** The block "If course_id is not provided AND no cache was found, create
    a new course": the course id to go on with, the title and the
    description. *)
Definition createCourse (env : Env) (youtube_url : string) (userId : option string)
    : Prog (string * string * string) :=
  let sanitizedUrl := sanitizeYouTubeUrl env youtube_url in
  let videoMetadata := fetchYouTubeMetadata env sanitizedUrl in
  let videoTitle :=
    match videoMetadata with
    | Some m =>
        if Js.truthy_string (md_title m) then md_title m
        else generateFallbackTitle env sanitizedUrl
    | None => generateFallbackTitle env sanitizedUrl
    end in
  let videoDescription :=
    match videoMetadata with
    | Some m =>
        "Interactive course from " +:+ quote +:+ author_name m +:+ quote +:+
        " - Learn through AI-generated questions perfectly timed with the video content."
    | None =>
        "AI-powered interactive course from YouTube video with perfectly timed questions to enhance learning."
    end in
  let course :=
    Course.mk (newCourseId env) videoTitle videoDescription sanitizedUrl false
      (match userId with
       | Some u => if Js.truthy_string u then Some u else None
       | None => None
       end)
      (now env) None None None None in
  modify (addCall (InsertCourse course)) ;;;
  match courseError env with
  | Some msg =>
      respond 500
        (JObj [("error", JStr "Failed to create course record");
               ("message", JStr msg)])
  | None =>
      modify (setCourses (fun rows => rows ++ [course])) ;;;
      when (given userId)
        (modify (addCall (CallUserCourseCreations (text userId) (Course.id course)))) ;;;
      ret (Course.id course, videoTitle, videoDescription)
  end.

(** [supabase.from('quiz_generation_progress').upsert({...},
    { onConflict: 'course_id,session_id' })]; the result is not looked at. *)
Definition upsertProgress (row : Progress.t) : Prog unit :=
  modify (addCall (UpsertProgress row)) ;;;
  modify (fun w =>
    setProgress
      (fun rows => fst (upsertRows (progress_unique_index w) Progress.sameKey row rows))
      w).

Definition initBody (req : Request) (course_id youtube_url session_id : string) : Json :=
  JObj [("course_id", JStr course_id);
        ("youtube_url", JStr youtube_url);
        ("session_id", JStr session_id);
        ("max_questions_per_segment", JInt (optZ (max_questions req) 5));
        ("segment_duration", JInt (optZ (segment_duration req) 300));
        ("use_enhanced", JBool (optBool (useEnhanced req) false))].

(** The [try] block around the request to the edge function and its
    [catch]: the parsed answer when the request was fine. *)
Definition initialize (env : Env) (req : Request)
    (course_id youtube_url session_id : string) : Prog Json :=
  tryCatch
    (modify (addCall (CallInit 0 (initBody req course_id youtube_url session_id))) ;;;
     match initFetch env 0 with
     | InitThrows e => throw e
     | InitNotOk errorText =>
         upsertProgress
           (Progress.mk course_id session_id "failed" 0 (5 # 100)
              "Processing initialization failed"
              (JObj [("error_message", JStr errorText);
                     ("failed_at", JStr (nowISO env))])) ;;;
         respond 500
           (JObj [("success", JBool false);
                  ("error", JStr "Processing initialization failed");
                  ("details", JStr errorText)])
     | InitOk initResult => ret initResult
     end)
    (fun error =>
       if String.eqb (name error) "AbortError" then
         upsertProgress
           (Progress.mk course_id session_id "initialization" (1 # 2) (1 # 10)
              "Processing started in background - this may take a few minutes"
              (JObj [("youtube_url", JStr youtube_url);
                     ("max_questions", JInt (optZ (max_questions req) 5));
                     ("background_processing", JBool true);
                     ("started_at", JStr (nowISO env))])) ;;;
         respond 200
           (JObj [("success", JBool true);
                  ("message",
                   JStr "Video processing started in background. Progress will update automatically.");
                  ("session_id", JStr session_id);
                  ("course_id", JStr course_id);
                  ("background_processing", JBool true);
                  ("processing_hint",
                   JStr "The initial request timed out but processing continues. Please wait for real-time updates.")])
       else throw error).

(** The branch [if (initResult.segmented)]. *)
Definition segmentedAnswer (env : Env) (course_id session_id : string)
    (initResult : Json) : Prog Response :=
  upsertProgress
    (Progress.mk course_id session_id "planning" (1 # 10) (1 # 10)
       ("Processing segment 1 of " +:+ toText env (get "total_segments" initResult))
       (JObj [("is_segmented", JBool true);
              ("total_segments", orNull (get "total_segments" initResult));
              ("segment_duration", orNull (get "segment_duration" initResult));
              ("video_duration", orNull (get "video_duration" initResult));
              ("segments", orNull (get "segments" initResult))])) ;;;
  modify (addCall (CallSubscribe ("course_segments_" +:+ course_id))) ;;;
  respond 200
    (JObj [("success", JBool true);
           ("message",
            JStr ("Video segmented into " +:+
                  toText env (get "total_segments" initResult) +:+
                  " parts. Processing started."));
           ("session_id", JStr session_id);
           ("course_id", JStr course_id);
           ("segmented", JBool true);
           ("segments", orNull (get "segments" initResult));
           ("total_segments", orNull (get "total_segments" initResult));
           ("video_duration", orNull (get "video_duration" initResult))]).

(** [initResult.result?.pipeline_results?.planning?.video_summary] *)
Definition videoSummary (initResult : Json) : option Json :=
  match get "result" initResult with
  | Some result =>
      match get "pipeline_results" result with
      | Some pipeline_results =>
          match get "planning" pipeline_results with
          | Some planning => get "video_summary" planning
          | None => None
          end
      | None => None
      end
  | None => None
  end.

Definition describe (course_id description : string) (c : Course.t) : Course.t :=
  if String.eqb (Course.id c) course_id then
    Course.mk (Course.id c) (Course.title c) description
      (Course.youtube_url c) (Course.published c) (Course.created_by c)
      (Course.created_at c) (Course.is_segmented c) (Course.total_segments c)
      (Course.segment_duration c) (Course.total_duration c)
  else c.

(** [supabase.from('courses').select('*').eq('id', course_id).single()] *)
Definition fetchCourse (env : Env) (course_id : string) : Prog (option Course.t) :=
  read (fun w =>
    if courseFetchError env then None
    else
      match filter (fun c => String.eqb (Course.id c) course_id = true) (courses w) with
      | [c] => Some c
      | _ => None
      end).

Definition orText (s dflt : string) : string :=
  if Js.truthy_string s then s else dflt.

(** The branch "Video processed without segmentation". *)
Definition plainAnswer (env : Env) (course_id session_id videoTitle videoDescription : string)
    (initResult : Json) : Prog Response :=
  courseData <- fetchCourse env course_id ;;
  let description :=
    match courseData with
    | Some c => orText (Course.description c) videoDescription
    | None => videoDescription
    end in
  updatedDescription <-
    (if truthyJson (videoSummary initResult) then
       let summary :=
         match videoSummary initResult with
         | Some (JStr s) => s
         | other => toText env other
         end in
       modify (setCourses (map (describe course_id summary))) ;;; ret summary
     else ret description) ;;
  respond 200
    (JObj [("success", JBool true);
           ("message", JStr "Video processing completed");
           ("session_id", JStr session_id);
           ("course_id", JStr course_id);
           ("segmented", JBool false);
           ("cached", JBool false);
           ("data",
            JObj [("title",
                   JStr (match courseData with
                         | Some c => orText (Course.title c) videoTitle
                         | None => videoTitle
                         end));
                  ("description", JStr updatedDescription)]);
           ("result", orNull (get "result" initResult))]).

(** The statement [if (initResult.segmented) ... else ...]. *)
Definition finish (env : Env) (course_id session_id videoTitle videoDescription : string)
    (initResult : Json) : Prog Response :=
  if truthyJson (get "segmented" initResult)
  then segmentedAnswer env course_id session_id initResult
  else plainAnswer env course_id session_id videoTitle videoDescription initResult.

(** The statements from the look-up of the user to "Initialize progress
    tracking": the course id to go on with, the title and the description
    of the video. *)
Definition prepare (env : Env) (req : Request) (youtube_url session_id : string)
    : Prog (string * string * string) :=
  let userId := userOf env req in
  checkCache env req youtube_url session_id ;;;
  created <-
    (if negb (given (course_id req))
     then createCourse env youtube_url userId
     else ret (text (course_id req), "", "")) ;;
  let '(course_id, videoTitle, videoDescription) := created in
  upsertProgress
    (Progress.mk course_id session_id "initialization" 0 0
       "Analyzing video for optimal processing"
       (JObj [("youtube_url", JStr youtube_url);
              ("max_questions", JInt (optZ (max_questions req) 5));
              ("enable_quality_verification",
               JBool (optBool (enable_quality_verification req) false));
              ("use_enhanced", JBool (optBool (useEnhanced req) false));
              ("started_at", JStr (nowISO env))])) ;;;
  ret created.

(** The statements of the outer [try] block. *)
Definition process (env : Env) (req : Request) : Prog Response :=
  if negb (given (youtube_url req)) || negb (given (session_id req)) then
    respond 400
      (JObj [("error",
              JStr "Missing required fields: youtube_url and session_id are required")])
  else
    let youtube_url := text (youtube_url req) in
    let session_id := text (session_id req) in
    if negb (isValidYouTubeUrl youtube_url) then
      respond 400 (JObj [("error", JStr "Invalid YouTube URL format")])
    else
      created <- prepare env req youtube_url session_id ;;
      let '(course_id, videoTitle, videoDescription) := created in
      initResult <- initialize env req course_id youtube_url session_id ;;
      finish env course_id session_id videoTitle videoDescription initResult.

(** The [catch] of the outer [try] block (the stack trace it adds to the
    answer is left out). *)
Definition recover (env : Env) (req : Request) (error : Error) : Prog Response :=
  when (given (session_id req) && given (course_id req))
    (upsertProgress
       (Progress.mk (text (course_id req)) (text (session_id req)) "failed" 0 (5 # 100)
          "System error occurred"
          (JObj [("error_message", JStr (message error));
                 ("failed_at", JStr (nowISO env))]))) ;;;
  respond 500
    (JObj [("success", JBool false); ("error", JStr (message error))]).

Definition handler (env : Env) (req : Request) : Prog Response :=
  if negb (String.eqb (method req) "POST") then
    respond 405 (JObj [("error", JStr "Method not allowed")])
  else tryCatch (process env req) (recover env req).

End AnalyzeVideoSmart.

(** ** The API route [courses/[id]/rating] *)

Module CourseRating.

Import Db Handler.
Local Open Scope string_scope.
Local Open Scope list_scope.
Local Open Scope Z_scope.
Local Open Scope prog_scope.

(** [req.query.id]: missing, one value, or several. *)
Inductive QueryParam : Type :=
| QMissing
| QString (s : string)
| QArray (values : list string).

(** [engagementData] of the body. *)
Record Engagement : Type := mkEngagement {
  timeSpentMinutes : option Z;
  questionsAnswered : option Z;
  completionPercentage : option Z
}.

Record Request : Type := mkRequest {
  method : string;
  authorization : option string;
  id : QueryParam;
  rating : option Json;
  context : option string;
  engagementData : option Engagement
}.

(** What the route learns from outside.  [stringToNumber] and
    [objectToNumber] are the conversions of a string and of an array or
    object to a number ([None] is NaN); [stats] is the row of the view
    [course_rating_stats]; [storedColumns] are the columns the database
    returns for the stored rating. *)
Record Env : Type := mkEnv {
  getUser : string -> option string;
  stringToNumber : string -> option Q;
  objectToNumber : Json -> option Q;
  courseError : bool;
  insertError : bool;
  deleteError : bool;
  stats : string -> option Json;
  statsError : bool;
  storedColumns : Rating.t -> Json
}.

(** The conversion of a value compared with a number. *)
Definition toNumber (env : Env) (v : option Json) : option Q :=
  match v with
  | None => None
  | Some JNull => Some 0%Q
  | Some (JBool b) => Some (if b then 1%Q else 0%Q)
  | Some (JNum q) => Some q
  | Some (JStr s) => stringToNumber env s
  | Some other => objectToNumber env other
  end.

(** [v < n] and [v > n]; a comparison with NaN is false. *)
Definition lessThan (env : Env) (v : option Json) (n : Q) : bool :=
  match toNumber env v with
  | Some q => negb (Qle_bool n q)
  | None => false
  end.

Definition greaterThan (env : Env) (v : option Json) (n : Q) : bool :=
  match toNumber env v with
  | Some q => negb (Qle_bool q n)
  | None => false
  end.

(** [Number.isInteger(v)] *)
Definition isInteger (v : option Json) : bool :=
  match v with
  | Some (JNum q) => Qeq_bool q (inject_Z (Qfloor q))
  | _ => false
  end.

(** The condition of "Validate rating value":
    [!rating || rating < 1 || rating > 5 || !Number.isInteger(rating)]. *)
Definition invalidRating (env : Env) (rating : option Json) : bool :=
  negb (AnalyzeVideoSmart.truthyJson rating)
  || lessThan env rating 1
  || greaterThan env rating 5
  || negb (isInteger rating).

Definition ratingValue (rating : option Json) : Z :=
  match rating with
  | Some (JNum q) => Qfloor q
  | _ => 0
  end.

(** [authHeader.substring(7)] after the check of the [Bearer] prefix. *)
Definition userOf (env : Env) (req : Request) : option string :=
  match authorization req with
  | Some authHeader =>
      if Js.truthy_string authHeader && String.prefix "Bearer " authHeader
      then
        match getUser env (Regex.drop 7 authHeader) with
        | Some u => if Js.truthy_string u then Some u else None
        | None => None
        end
      else None
  | None => None
  end.

(** [x || 0] on an optional field of [engagementData]. *)
Definition orZero (e : option Engagement) (f : Engagement -> option Z) : Z :=
  match e with
  | Some d => match f d with Some z => z | None => 0 end
  | None => 0
  end.

(** [supabase.from('user_course_ratings').upsert(ratingData,
    { onConflict: 'user_id,course_id', ignoreDuplicates: false })]: [true]
    when the write is reported as failed. *)
Definition upsertRating (env : Env) (row : Rating.t) : Prog bool :=
  modify (addCall (UpsertRating row)) ;;;
  if insertError env then ret true
  else
    failed <- read (fun w => negb (ratings_unique_index w)) ;;
    modify (fun w =>
      setRatings
        (fun rows => fst (upsertRows (ratings_unique_index w) Rating.sameKey row rows))
        w) ;;;
    ret failed.

Definition courseExists (env : Env) (courseId : string) : Prog bool :=
  read (fun w =>
    negb (courseError env) &&
    match filter (fun c => String.eqb (Course.id c) courseId = true) (courses w) with
    | [_] => true
    | _ => false
    end).

Definition failure (error : string) : Json :=
  JObj [("success", JBool false); ("error", JStr error)].

(** The branch "Handle POST - Submit Rating". *)
Definition submit (env : Env) (req : Request) (courseId : string) : Prog Response :=
  if invalidRating env (rating req) then
    respond 400 (failure "Rating must be an integer between 1 and 5")
  else
    match userOf env req with
    | None => respond 401 (failure "Authentication required to rate courses")
    | Some userId =>
        found <- courseExists env courseId ;;
        if negb found then respond 404 (failure "Course not found")
        else
          let ratingData :=
            Rating.mk userId courseId (ratingValue (rating req))
              (match context req with Some c => c | None => "manual" end)
              (orZero (engagementData req) timeSpentMinutes)
              (orZero (engagementData req) questionsAnswered)
              (orZero (engagementData req) completionPercentage) in
          insertFailed <- upsertRating env ratingData ;;
          if insertFailed then respond 500 (failure "Failed to save rating")
          else
            respond 200
              (JObj [("success", JBool true);
                     ("rating", storedColumns env ratingData);
                     ("courseStats",
                      if statsError env then JNull
                      else AnalyzeVideoSmart.orNull (stats env courseId))])
    end.

(** The branch "Handle GET - Retrieve Rating Stats". *)
Definition retrieve (env : Env) (courseId : string) : Prog Response :=
  if statsError env then respond 500 (failure "Failed to fetch rating statistics")
  else
    match stats env courseId with
    | None =>
        respond 200
          (JObj [("success", JBool true);
                 ("stats", JObj [("average_rating", JInt 0); ("total_ratings", JInt 0)])])
    | Some row => respond 200 (JObj [("success", JBool true); ("stats", row)])
    end.

(** The branch "Handle DELETE - Remove Rating". *)
Definition remove (env : Env) (req : Request) (courseId : string) : Prog Response :=
  match authorization req with
  | Some authHeader =>
      if Js.truthy_string authHeader && String.prefix "Bearer " authHeader then
        match getUser env (Regex.drop 7 authHeader) with
        | Some user =>
            if deleteError env then respond 500 (failure "Failed to delete rating")
            else
              modify (setRatings
                        (filter (fun r =>
                           negb (String.eqb (Rating.user_id r) user
                                 && String.eqb (Rating.course_id r) courseId) = true))) ;;;
              respond 200 (JObj [("success", JBool true)])
        | None => respond 401 (failure "Invalid authentication")
        end
      else respond 401 (failure "Authentication required to delete rating")
  | None => respond 401 (failure "Authentication required to delete rating")
  end.

Definition handler (env : Env) (req : Request) : Prog Response :=
  match id req with
  | QString courseId =>
      if negb (Js.truthy_string courseId) then respond 400 (failure "Course ID is required")
      else if String.eqb (method req) "POST" then submit env req courseId
      else if String.eqb (method req) "GET" then retrieve env courseId
      else if String.eqb (method req) "DELETE" then remove env req courseId
      else respond 405 (failure "Method not allowed")
  | _ => respond 400 (failure "Course ID is required")
  end.

End CourseRating.

(** ** The duration the YouTube API reports *)

Module Duration.

Local Open Scope string_scope.
Local Open Scope list_scope.
Local Open Scope Z_scope.

(** [\d] *)
Definition isDigit (c : ascii) : bool :=
  (48 <=? nat_of_ascii c)%nat && (nat_of_ascii c <=? 57)%nat.

Definition digitValue (c : ascii) : Z := Z.of_nat (nat_of_ascii c) - 48.

(** [parseInt(text, 10)] on a run of digits, from the value [acc] of the
    digits read so far. *)
Fixpoint parseDigits (acc : Z) (text : string) : Z :=
  match text with
  | String c rest => parseDigits (acc * 10 + digitValue c) rest
  | EmptyString => acc
  end.

(** The optional group [(?:(\d+)U)?] at the start of [s], for the unit
    letter [U]: the digits it captures, if it takes part in the match, and
    the input that is left.  The run of digits is the longest one: a
    shorter run is followed by a digit, not by the unit. *)
Definition component (unit : ascii) (s : string) : option string * string :=
  let n := Regex.span isDigit s in
  match Regex.drop n s with
  | String c rest =>
      if (0 <? n)%nat && Ascii.eqb c unit
      then (Some (Regex.take n s), rest)
      else (None, s)
  | EmptyString => (None, s)
  end.

(** A match of [/PT(?:(\d+)H)?(?:(\d+)M)?(?:(\d+)S)?/] at the start of [s]:
    the groups 1 to 3. *)
Definition matchHere (s : string)
    : option (option string * option string * option string) :=
  if String.prefix "PT" s then
    let '(hours, afterHours) := component "H" (Regex.drop 2 s) in
    let '(minutes, afterMinutes) := component "M" afterHours in
    let '(seconds, _) := component "S" afterMinutes in
    Some (hours, minutes, seconds)
  else None.

(** [duration.match(regex)]: the leftmost match. *)
Fixpoint matchDuration (s : string)
    : option (option string * option string * option string) :=
  match matchHere s with
  | Some groups => Some groups
  | None =>
      match s with
      | String _ rest => matchDuration rest
      | EmptyString => None
      end
  end.

(** [parseInt(group || '0', 10)] *)
Definition parseGroup (group : option string) : Z :=
  match group with
  | Some digits =>
      if Js.truthy_string digits then parseDigits 0 digits else parseDigits 0 "0"
  | None => parseDigits 0 "0"
  end.

(** [parseISO8601Duration] *)
Definition parseISO8601Duration (duration : string) : Z :=
  match matchDuration duration with
  | None => 0
  | Some (h, m, s) =>
      let hours := parseGroup h in
      let minutes := parseGroup m in
      let seconds := parseGroup s in
      hours * 3600 + minutes * 60 + seconds
  end.

(** What the request to the YouTube Data API yields: the request fails,
    the answer is not OK, its body is no JSON, or its body has the field
    [items] ([None] when it is missing); an item is the text of
    [contentDetails.duration], [None] when the item has no such text. *)
Inductive Videos : Type :=
| RequestFails
| NotOk (status : Z)
| NoJson
| Items (items : option (list (option string))).

(** The environment variable [YOUTUBE_API_KEY] and the API behind it. *)
Record YouTube : Type := mkYouTube {
  apiKey : option string;
  videos : string -> string -> Videos
}.

(** [getVideoDuration]: [null] without a key and whenever the request or
    the reading of its answer fails. *)
Definition getVideoDuration (youtube : YouTube) (videoId : string) : option Z :=
  match apiKey youtube with
  | None => None
  | Some key =>
      if negb (Js.truthy_string key) then None
      else
        match videos youtube videoId key with
        | RequestFails => None
        | NotOk _ => None
        | NoJson => None
        | Items None => None
        | Items (Some []) => None
        | Items (Some (None :: _)) => None
        | Items (Some (Some duration :: _)) => Some (parseISO8601Duration duration)
        end
  end.

(** The edge function as it is wired: [serve] asks [getVideoDuration],
    which asks the YouTube API. *)
Definition edgeEnv (youtube : YouTube) (formatSecondsForDisplay : Z -> string)
    (courseUpdateError segmentsError updateSegmentCountError : option string)
    (orchestrator : InitSegmentedProcessing.Fetched) : InitSegmentedProcessing.Env :=
  InitSegmentedProcessing.mkEnv (getVideoDuration youtube) formatSecondsForDisplay
    courseUpdateError segmentsError updateSegmentCountError orchestrator.

End Duration.

(** ** The preview page: its own [extractVideoId] *)

Module Create.

Local Open Scope string_scope.

(** The loop over [patterns] of [extractVideoId]: the text of group 1 of
    the first pattern that matches, the empty string when none does.
    (Group 1 takes part in every match of the two patterns.) *)
Fixpoint firstCapture (patterns : list Regex.re) (url : string) : string :=
  match patterns with
  | [] => ""
  | pattern :: rest =>
      match Regex.search pattern url with
      | Some (Some id) => id
      | Some None => ""
      | None => firstCapture rest url
      end
  end.

Definition extractVideoId (url : string) : string :=
  firstCapture [Regex.videoIdPattern; Regex.watchQueryPattern] url.

End Create.

(** * Notions used to state the properties *)

Module Spec.

Import Db.
Local Open Scope Z_scope.

(** [m] is the least integer with [a <= m * b]: the ceiling of [a / b]. *)
Definition isCeiling (a b m : Z) : Prop := (m - 1) * b < a <= m * b.

(** [Tiles a l b]: the segments of [l] are not empty and lie end to end
    from [a] to [b]. *)
Inductive Tiles : Z -> list Planning.RawSegment -> Z -> Prop :=
| tiles_nil (a : Z) : Tiles a [] a
| tiles_cons (a b : Z) (r : Planning.RawSegment) (l : list Planning.RawSegment) :
    Planning.startTime r = a -> a < Planning.endTime r -> Tiles (Planning.endTime r) l b ->
    Tiles a (r :: l) b.

(** The time span of a stored segment. *)
Definition spanOf (s : Segment.t) : Planning.RawSegment :=
  Planning.mkRaw (Segment.start_time s) (Segment.end_time s).




(** The number of requests sent to the edge function. *)
Fixpoint initRequests (calls : list Call) : nat :=
  match calls with
  | [] => O
  | CallInit _ _ :: rest => S (initRequests rest)
  | _ :: rest => initRequests rest
  end.

(** The row of a write to [quiz_generation_progress]. *)
Definition progressWrite (c : Call) : option Progress.t :=
  match c with
  | InsertProgress row => Some row
  | UpsertProgress row => Some row
  | _ => None
  end.

(** The call marks the progress row as failed. *)
Definition marksFailed (c : Call) : bool :=
  match progressWrite c with
  | Some row => String.eqb (Progress.stage row) "failed"
  | None => false
  end.

(** The call is a write to [quiz_generation_progress] that names no
    conflict target. *)
Definition plainProgressInsert (c : Call) : bool :=
  match c with
  | InsertProgress _ => true
  | _ => false
  end.

(** No two rows of a table have the same key. *)
Definition uniqueKeys {A K : Type} (key : A -> K) (rows : list A) : Prop :=
  NoDup (map key rows).

(** The calls [new] are neither requests to the edge function nor writes
    that mark the progress as failed or that name no conflict target. *)
Definition quietCalls (new : list Call) : Prop :=
  initRequests new = O /\
  Forall (fun c => marksFailed c = false) new /\
  Forall (fun c => plainProgressInsert c = false) new.

(** The world after the [try] block around the request to the edge
    function answered: one request was sent, then one row was upserted. *)
Definition handedOff (w w2 : World) (row : Progress.t) : Prop :=
  (exists body, calls w2 = calls w ++ [CallInit 0 body; UpsertProgress row]) /\
  progress_unique_index w2 = progress_unique_index w /\
  quiz_generation_progress w2 =
    fst (upsertRows (progress_unique_index w) Progress.sameKey row
           (quiz_generation_progress w)).

(** The request to the edge function was sent again. *)
Definition retried (calls : list Call) : Prop := (2 <= initRequests calls)%nat.

(** The submitted rating is the integer [n], between 1 and 5. *)
Definition integerOneToFive (rating : option Json) (n : Z) : Prop :=
  1 <= n <= 5 /\ exists q, rating = Some (JNum q) /\ Qeq q (inject_Z n).

End Spec.

(** * Sample requests and environments *)

Module Sample.

Import Db Handler.
Local Open Scope string_scope.
Local Open Scope list_scope.
Local Open Scope Z_scope.

(** A database without rows whose tables declare their unique indexes. *)
Definition emptyWorld : World := mkWorld [] [] [] true [] [] true [].

(** The edge function with a YouTube API that reports [duration], a
    database without errors and an orchestrator that answers. *)
Definition serveEnv (duration : option Z) : InitSegmentedProcessing.Env :=
  InitSegmentedProcessing.mkEnv (fun _ => duration) (fun z => pretty z)
    None None None
    (InitSegmentedProcessing.FetchOk (JObj [("status", JStr "started")])).

Definition serveRequest : InitSegmentedProcessing.Request :=
  InitSegmentedProcessing.mkRequest "POST" "course-1" "https://youtu.be/abc"
    None None (Some "session-1").

(** The analyze route with a database without errors, no signed-in user
    and an edge function that yields [fetched n] at the [n]-th request. *)
Definition analyzeEnv (fetched : nat -> AnalyzeVideoSmart.InitFetched)
    : AnalyzeVideoSmart.Env :=
  AnalyzeVideoSmart.mkEnv (fun _ => None) extractVideoId (fun _ => None)
    (fun _ => "YouTube Video") false (fun _ => false) None "course-1" 0
    "2025-01-01T00:00:00.000Z" fetched false (fun _ => "?").

Definition analyzeRequest : AnalyzeVideoSmart.Request :=
  AnalyzeVideoSmart.mkRequest "POST" None None (Some "https://youtu.be/abc")
    (Some "session-1") None None None None None.

(** The first request to the edge function times out; a second one would
    be answered. *)
Definition timeoutThenOk (n : nat) : AnalyzeVideoSmart.InitFetched :=
  match n with
  | O => AnalyzeVideoSmart.timedOut
  | S _ => AnalyzeVideoSmart.InitOk (JObj [("segmented", JBool false)])
  end.

(** The edge function answers every request with a status that is not OK. *)
Definition alwaysNotOk (n : nat) : AnalyzeVideoSmart.InitFetched :=
  AnalyzeVideoSmart.InitNotOk "Invalid YouTube URL".

(** A database that holds a course for the sample URL, with a question. *)
Definition cachedCourse : Course.t :=
  Course.mk "course-0" "Stored title" "Stored description"
    "https://www.youtube.com/watch?v=abc" true None 0 None None None None.

Definition cachedWorld : World :=
  mkWorld [cachedCourse] [] [] true [Question.mk "question-0" "course-0"] [] true [].

(** A URL with a parameter before [v=]. *)
Definition sharedUrl : string :=
  "https://www.youtube.com/watch?feature=share&v=dQw4w9WgXcQ".

Definition sharedRequest : InitSegmentedProcessing.Request :=
  InitSegmentedProcessing.mkRequest "POST" "course-1" sharedUrl
    None None (Some "session-1").

Definition sharedAnalyzeRequest : AnalyzeVideoSmart.Request :=
  AnalyzeVideoSmart.mkRequest "POST" None None (Some sharedUrl)
    (Some "session-1") None None None None None.

(** A database whose progress table declares no unique index. *)
Definition worldWithoutIndex : World := mkWorld [] [] [] false [] [] true [].

(** The rating route with a user behind every token and a database
    without errors. *)
Definition ratingEnv : CourseRating.Env :=
  CourseRating.mkEnv (fun token => Some ("user-of-" +:+ token))
    (fun _ => None) (fun _ => None) false false false (fun _ => None) false
    (fun row => JObj [("rating", JInt (Rating.rating row))]).

Definition ratingRequest (rating : option Json) : CourseRating.Request :=
  CourseRating.mkRequest "POST" (Some "Bearer token-1")
    (CourseRating.QString "course-0") rating None None.

(** A database where the user has rated the course with 2 stars. *)
Definition ratedWorld : World :=
  mkWorld [cachedCourse] [] [] true []
    [Rating.mk "user-of-token-1" "course-0" 2 "manual" 0 0 0] true [].

End Sample.

(** * Notions used to state further properties *)

From Stdlib Require DecimalString DecimalNat.
From Stdlib Require Import Sorted.

Module Written.

Import Db.
Local Open Scope string_scope.
Local Open Scope list_scope.
Local Open Scope Z_scope.





(** [pattern] occurs in [text]. *)
Definition occurs (pattern text : string) : Prop :=
  exists before after, text = before +:+ pattern +:+ after.

(** Every character of [text] satisfies [cls]. *)
Fixpoint allOf (cls : ascii -> bool) (text : string) : bool :=
  match text with
  | String c rest => cls c && allOf cls rest
  | EmptyString => true
  end.

(** The canonical URL of a video. *)
Definition canonicalUrl (id : string) : string :=
  "https://www.youtube.com/watch?v=" +:+ id.

(** The rows [segs] are numbered from 0 in their order, belong to
    [course] and are pending. *)
Definition numbered (course : string) (segs : list Segment.t) : Prop :=
  forall i seg, segs !! i = Some seg ->
    Segment.segment_index seg = Z.of_nat i /\
    Segment.course_id seg = course /\
    Segment.status seg = "pending".

(** A YouTube API that reports the duration text [duration] for every
    video. *)
Definition youtubeReporting (duration : string) : Duration.YouTube :=
  Duration.mkYouTube (Some "key") (fun _ _ => Duration.Items (Some [Some duration])).

(** The answer of the [catch] block of the edge function. *)
Definition serverError (text : string) : Handler.Response :=
  Handler.mkResponse 500 (JObj [("error", JStr text); ("success", JBool false)]).

(** The number of requests sent to the orchestrator. *)
Fixpoint orchestratorRequests (calls : list Call) : nat :=
  match calls with
  | [] => O
  | CallOrchestrator _ :: rest => S (orchestratorRequests rest)
  | _ :: rest => orchestratorRequests rest
  end.

(** The edge function with a YouTube API that reports a video of 10
    minutes and 10 seconds. *)
Definition edgeSample (courseUpdateError segmentsError : option string)
    (orchestrator : InitSegmentedProcessing.Fetched) : InitSegmentedProcessing.Env :=
  Duration.edgeEnv (youtubeReporting "PT10M10S") (fun z => pretty z)
    courseUpdateError segmentsError None orchestrator.

(** A request for the stored course of the samples. *)
Definition courseRequest (url : string) : InitSegmentedProcessing.Request :=
  InitSegmentedProcessing.mkRequest "POST" "course-0" url None None (Some "session-1").

(** The response of a run that answers. *)
Definition answered (r : Handler.Res Handler.Response * World) : Handler.Response :=
  match Handler.answer r with
  | Some resp => resp
  | None => Handler.mkResponse 0 JNull
  end.

(** The heads of the pattern of [extractVideoId]. *)
Definition heads : list string :=
  ["youtube.com/watch?v="; "youtu.be/"; "youtube.com/embed/"].

(** The user behind the bearer token of a request to the rating route. *)
Definition bearerUser (env : CourseRating.Env) (req : CourseRating.Request)
    : option string :=
  match CourseRating.authorization req with
  | Some authHeader =>
      if Js.truthy_string authHeader && String.prefix "Bearer " authHeader
      then CourseRating.getUser env (Regex.drop 7 authHeader)
      else None
  | None => None
  end.

(** The status of the answer of a run; 0 when it does not answer. *)
Definition statusOf (r : Handler.Res Handler.Response * World) : Z :=
  match Handler.answer r with
  | Some resp => Handler.status resp
  | None => 0
  end.

(** The row a POST to the rating route writes ([ratingData]). *)
Definition ratingData (req : CourseRating.Request) (userId courseId : string)
    : Rating.t :=
  Rating.mk userId courseId (CourseRating.ratingValue (CourseRating.rating req))
    (match CourseRating.context req with Some c => c | None => "manual" end)
    (CourseRating.orZero (CourseRating.engagementData req) CourseRating.timeSpentMinutes)
    (CourseRating.orZero (CourseRating.engagementData req) CourseRating.questionsAnswered)
    (CourseRating.orZero (CourseRating.engagementData req)
       CourseRating.completionPercentage).

(** Requests to the rating route: the removal of the rating of the
    sample user, and a rating without a sign-in. *)
Definition deleteRequest : CourseRating.Request :=
  CourseRating.mkRequest "DELETE" (Some "Bearer token-1")
    (CourseRating.QString "course-0") None None None.

Definition anonymousRequest : CourseRating.Request :=
  CourseRating.mkRequest "POST" None (CourseRating.QString "course-0")
    (Some (JInt 5)) None None.

(** A rating of the sample course by another user. *)
Definition otherRating : Rating.t :=
  Rating.mk "user-2" "course-0" 5 "manual" 0 0 0.

(** A database where the sample user and another user have rated the
    sample course. *)
Definition twoRatingsWorld : World :=
  mkWorld [Sample.cachedCourse] [] [] true []
    [Rating.mk "user-of-token-1" "course-0" 2 "manual" 0 0 0; otherRating] true [].

(** The rows of the inserts into [courses] among the calls. *)
Fixpoint courseInserts (calls : list Call) : list Course.t :=
  match calls with
  | [] => []
  | InsertCourse row :: rest => row :: courseInserts rest
  | _ :: rest => courseInserts rest
  end.

(** [a] is listed before [b] when courses are ordered by [created_at],
    newest first. *)
Definition notOlder (a b : Course.t) : Prop :=
  Course.created_at b <= Course.created_at a.

(** A request to the analyze route with another method than POST. *)
Definition analyzeGet : AnalyzeVideoSmart.Request :=
  AnalyzeVideoSmart.mkRequest "GET" None None (Some "https://youtu.be/abc")
    (Some "session-1") None None None None None.

(** A newer course of the sample video, and a database that holds it
    after the stored one, each with a question. *)
Definition newerCourse : Course.t :=
  Course.mk "course-9" "Newer title" "Newer description"
    "https://www.youtube.com/watch?v=abc" true None 5 None None None None.

Definition twoCoursesWorld : World :=
  mkWorld [Sample.cachedCourse; newerCourse] [] [] true
    [Question.mk "question-0" "course-0"; Question.mk "question-9" "course-9"]
    [] true [].

(** The request to the edge function fails on the network. *)
Definition networkDown (n : nat) : AnalyzeVideoSmart.InitFetched :=
  AnalyzeVideoSmart.InitThrows (Handler.mkError "TypeError" "fetch failed").

End Written.
(** * Properties *)

Import Spec.

(** ** Ceiling of a quotient *)

Section Ceiling.

Local Open Scope Z_scope.


Lemma isCeiling_unique (a b m n : Z) :
  0 < b -> isCeiling a b m -> isCeiling a b n -> m = n.
Proof. unfold isCeiling. intros Hb Hm Hn. nia. Qed.



Lemma ceil_div_finite (a b : Z) : b <> 0 -> Js.ceil_div a b = Js.Finite (Js.ceil_quot a b).
Proof.
  intros Hb. unfold Js.ceil_div. destruct (Z.eqb_spec b 0); [lia | reflexivity].
Qed.

End Ceiling.

(** ** The raw segments *)

Section RawSegments.

Import Planning.
Local Open Scope Z_scope.


Lemma tiles_le (a b : Z) (l : list RawSegment) : Tiles a l b -> a <= b.
Proof. induction 1; lia. Qed.





Lemma rawSegments_some (t s : Z) :
  s <> 0 ->
  rawSegments t s =
    Some (rawSegmentsLoop (Z.to_nat (Js.ceil_quot t s)) 0 s t []).
Proof.
  intros Hs. unfold rawSegments, totalSegments.
  now rewrite ceil_div_finite.
Qed.




End RawSegments.

(** ** The decision to segment *)



(** ** The merge of a short last segment *)

Section Merge.

Import Planning.
Local Open Scope Z_scope.

Lemma mergeShortLast_short (totalDuration : Z) (front : list RawSegment)
    (prev final : RawSegment) :
  endTime final - startTime final < 20 ->
  mergeShortLast totalDuration (front ++ [prev; final]) =
  front ++ [mkRaw (startTime prev) totalDuration].
Proof.
  intros Hshort. unfold mergeShortLast, pop.
  rewrite length_app. simpl length.
  replace (1 <? length front + 2)%nat with true
    by (symmetry; apply Nat.ltb_lt; lia).
  replace (length front + 2 - 1)%nat with (length front + 1)%nat by lia.
  rewrite lookup_app_r by lia.
  replace (length front + 1 - length front)%nat with 1%nat by lia. simpl.
  replace (endTime final - startTime final <? 20) with true
    by (symmetry; apply Z.ltb_lt; lia).
  change (front ++ [prev; final]) with (front ++ [prev] ++ [final]).
  rewrite app_assoc, removelast_last, length_app. simpl length.
  replace (length front + 1 - 1)%nat with (length front + 0)%nat by lia.
  now rewrite alter_app_r.
Qed.

Lemma mergeShortLast_long (totalDuration : Z) (front : list RawSegment)
    (final : RawSegment) :
  ~ endTime final - startTime final < 20 ->
  mergeShortLast totalDuration (front ++ [final]) = front ++ [final].
Proof.
  intros Hlong. unfold mergeShortLast.
  destruct (1 <? length (front ++ [final]))%nat; [| reflexivity].
  rewrite length_app. simpl length.
  replace (length front + 1 - 1)%nat with (length front + 0)%nat by lia.
  rewrite lookup_app_r by lia.
  replace (length front + 0 - length front)%nat with 0%nat by lia. simpl.
  destruct (Z.ltb_spec (endTime final - startTime final) 20); [lia | reflexivity].
Qed.

Lemma mergeShortLast_few (totalDuration : Z) (raw : list RawSegment) :
  (length raw <= 1)%nat -> mergeShortLast totalDuration raw = raw.
Proof.
  intros Hlen. unfold mergeShortLast.
  destruct (Nat.ltb_spec 1 (length raw)); [lia | reflexivity].
Qed.

(** Whether the merge applies to [raw]. *)
Lemma mergeShortLast_cases (totalDuration : Z) (raw : list RawSegment) :
  (exists front prev final,
      raw = front ++ [prev; final] /\ endTime final - startTime final < 20 /\
      mergeShortLast totalDuration raw = front ++ [mkRaw (startTime prev) totalDuration])
  \/ ((~ exists front prev final,
          raw = front ++ [prev; final] /\ endTime final - startTime final < 20)
      /\ mergeShortLast totalDuration raw = raw).
Proof.
  destruct raw as [| r raw'] using rev_ind.
  - right. split; [| reflexivity].
    intros (front & prev & final & H & _). now destruct front.
  - clear IHraw'. destruct (Z.lt_ge_cases (endTime r - startTime r) 20) as [Hs | Hl].
    + destruct raw' as [| p front] using rev_ind.
      * right. split; [| reflexivity].
        intros (front & prev & final & H & _).
        apply (f_equal (@length _)) in H. rewrite !length_app in H. simpl in H. lia.
      * clear IHfront. left. exists front, p, r.
        rewrite <- app_assoc. simpl. split; [reflexivity |]. split; [exact Hs |].
        now apply mergeShortLast_short.
    + right. split; [| apply mergeShortLast_long; lia].
      intros (front & prev & final & H & Hshort).
      change (front ++ [prev; final]) with (front ++ [prev] ++ [final]) in H.
      rewrite app_assoc in H. apply app_inj_tail in H as [_ ->]. lia.
Qed.


Lemma mergeShortLast_nonempty (totalDuration : Z) (raw : list RawSegment) :
  raw <> [] -> mergeShortLast totalDuration raw <> [].
Proof.
  intros Hne.
  destruct (mergeShortLast_cases totalDuration raw)
    as [(front & prev & final & _ & _ & ->) | [_ ->]]; [| exact Hne].
  now destruct front.
Qed.

End Merge.



Example merge_610 :
  option_map (Planning.mergeShortLast 610) (Planning.rawSegments 610 300) =
  Some [Planning.mkRaw 0 300; Planning.mkRaw 300 610].
Proof. reflexivity. Qed.

Example keep_620 :
  option_map (Planning.mergeShortLast 620) (Planning.rawSegments 620 300) =
  Some [Planning.mkRaw 0 300; Planning.mkRaw 300 600; Planning.mkRaw 600 620].
Proof. reflexivity. Qed.

(** ** Segments that partition the timeline *)

Section Partition.

Import Planning Db.
Local Open Scope Z_scope.









End Partition.

(** ** The loop that creates the segment objects *)

Section SegmentObjects.

Import Planning Db InitSegmentedProcessing.
Local Open Scope Z_scope.

Variable env : Env.
Variable course : string.
Variable max_questions : Z.



Lemma plannedSegments_some (segment_duration totalDuration : Z) :
  segment_duration <> 0 ->
  exists raw,
    rawSegments totalDuration segment_duration = Some raw /\
    plannedSegments env course max_questions segment_duration totalDuration =
    Some (segmentObjectsLoop env course max_questions
            (mergeShortLast totalDuration raw) 0 [] 0).
Proof.
  intros Hs. unfold plannedSegments.
  rewrite rawSegments_some by exact Hs. eexists. split; reflexivity.
Qed.



End SegmentObjects.

(** ** What [serve] stores in [course_segments] *)

Section ServeSegments.

Import Planning Db Handler InitSegmentedProcessing.
Local Open Scope Z_scope.



(** What a request that the edge function answers with 200 has done: the
    answer tells whether the video was segmented, and when a session is
    given one write of progress was sent, a plain insert of the stage
    [planning] for the course and session of the request. *)
Lemma serve_success (env : Env) (req : Request) (w : World) (resp : Response) :
  String.eqb (method req) "OPTIONS" = false ->
  answer (serve env req w) = Some resp -> status resp = 200 ->
  exists videoId,
    extractVideoId (youtube_url req) = Some videoId /\
    get "segmented" (body resp) =
      Some (JBool (shouldSegment (getVideoDuration env videoId)
                     (withDefault (segment_duration req) 300))) /\
    (sessionGiven (session_id req) = true ->
     exists row before,
       calls (snd (serve env req w)) =
         calls w ++ before ++ [InsertProgress row; CallOrchestrator (course_id req)] /\
       Progress.course_id row = course_id req /\
       Progress.session_id row = sessionText (session_id req) /\
       Progress.stage row = "planning"%string).
Proof.
  intros Hm. unfold serve. rewrite Hm. unfold tryCatch, process.
  destruct (extractVideoId (youtube_url req)) as [videoId |] eqn:Hid;
    [| simpl; intros [= <-]; discriminate].
  set (t := totalDuration (getVideoDuration env videoId)).
  set (s := withDefault (segment_duration req) 300).
  unfold bind at 1, updateCourse.
  destruct (courseUpdateError env) as [msg |];
    [simpl; intros [= <-]; discriminate |].
  unfold bind at 1, modify, ret.
  destruct (shouldSegment (getVideoDuration env videoId) s) eqn:Hseg; cbv beta iota.
  - unfold negb. cbv iota. unfold manySegments.
    destruct (plannedSegments env (course_id req) _ s t) as [[segs q] |];
      [| simpl; discriminate].
    unfold bind at 1, insertSegments, bind at 1, modify.
    destruct (segmentsError env) as [msg |];
      [simpl; intros [= <-]; discriminate |].
    unfold bind, modify, ret, updateCourse, bind, modify, ret, when,
      insertProgress, triggerOrchestrator, fetchOrchestrator, bind, modify, ret.
    destruct (updateSegmentCountError env), (sessionGiven (session_id req)),
      (orchestrator env); simpl; intros [= <-]; try discriminate; intros _;
      (exists videoId; split; [reflexivity |]; split; [rewrite Hseg; reflexivity |];
       intros Hgiven; try discriminate;
       eexists _, [_]; rewrite <- !app_assoc; simpl; repeat split; reflexivity).
  - unfold negb. cbv iota. unfold singleSegment.
    unfold bind at 1, insertSegments, bind at 1, modify.
    destruct (segmentsError env) as [msg |];
      [simpl; intros [= <-]; discriminate |].
    unfold bind, modify, ret, when,
      insertProgress, triggerOrchestrator, fetchOrchestrator, bind, modify, ret.
    destruct (sessionGiven (session_id req)), (orchestrator env); simpl;
      intros [= <-]; try discriminate; intros _;
      (exists videoId; split; [reflexivity |]; split; [rewrite Hseg; reflexivity |];
       intros Hgiven; try discriminate;
       eexists _, [_]; rewrite <- !app_assoc; simpl; repeat split; reflexivity).
Qed.

End ServeSegments.


Example serve_610_segments :
  map spanOf
    (Db.course_segments
       (snd (InitSegmentedProcessing.serve (Sample.serveEnv (Some 610))
               Sample.serveRequest Sample.emptyWorld))) =
  [Planning.mkRaw 0 300; Planning.mkRaw 300 610].
Proof. vm_compute. reflexivity. Qed.

Example serve_200_segments :
  map spanOf
    (Db.course_segments
       (snd (InitSegmentedProcessing.serve (Sample.serveEnv (Some 200))
               Sample.serveRequest Sample.emptyWorld))) =
  [Planning.mkRaw 0 200].
Proof. vm_compute. reflexivity. Qed.

(** ** The budget of questions *)

Section Budget.

Import Planning Db InitSegmentedProcessing.
Local Open Scope Z_scope.



End Budget.


Example budget_700 :
  option_map snd
    (InitSegmentedProcessing.plannedSegments (Sample.serveEnv None) "course-1" 5 300 700) =
  Some 12.
Proof. vm_compute. reflexivity. Qed.

(** ** Tables with a conflict target *)

Section Tables.

Import Db.

Lemma initRequests_app (l1 l2 : list Call) :
  initRequests (l1 ++ l2) = (initRequests l1 + initRequests l2)%nat.
Proof.
  induction l1 as [| c l1 IH]; simpl; [reflexivity |].
  destruct c; simpl; rewrite IH; reflexivity.
Qed.

Lemma progress_sameKey_iff (a b : Progress.t) :
  Progress.sameKey a b = true <-> Progress.key a = Progress.key b.
Proof.
  unfold Progress.sameKey, Progress.key.
  rewrite andb_true_iff, !String.eqb_eq. split.
  - intros [-> ->]. reflexivity.
  - intros [= -> ->]. auto.
Qed.

Lemma rating_sameKey_iff (a b : Rating.t) :
  Rating.sameKey a b = true <-> Rating.key a = Rating.key b.
Proof.
  unfold Rating.sameKey, Rating.key.
  rewrite andb_true_iff, !String.eqb_eq. split.
  - intros [-> ->]. reflexivity.
  - intros [= -> ->]. auto.
Qed.

Context {A K : Type} (key : A -> K) (sameKey : A -> A -> bool).
Hypothesis sameKey_iff : forall a b, sameKey a b = true <-> key a = key b.

Lemma replace_keys (r : A) (rows : list A) :
  map key (map (fun x => if sameKey r x then r else x) rows) = map key rows.
Proof.
  induction rows as [| x rows IH]; simpl; [reflexivity |].
  rewrite IH. destruct (sameKey r x) eqn:Hk; [| reflexivity].
  apply sameKey_iff in Hk. now rewrite Hk.
Qed.

Lemma existsb_sameKey_false (r : A) (rows : list A) :
  existsb (sameKey r) rows = false -> ~ In (key r) (map key rows).
Proof.
  intros Hex Hin. apply in_map_iff in Hin as (x & Hk & Hin).
  assert (existsb (sameKey r) rows = true) as Ht.
  { apply existsb_exists. exists x. split; [exact Hin |].
    apply sameKey_iff. now symmetry. }
  congruence.
Qed.

(** An upsert keeps the keys of a table unique. *)
Lemma replaceOrAdd_uniqueKeys (r : A) (rows : list A) :
  uniqueKeys key rows -> uniqueKeys key (replaceOrAdd sameKey r rows).
Proof.
  unfold uniqueKeys, replaceOrAdd. intros Hnd.
  destruct (existsb (sameKey r) rows) eqn:Hex.
  - now rewrite replace_keys.
  - rewrite map_app. simpl. apply NoDup_app. split; [exact Hnd |]. split.
    + intros k Hin Hin'. apply list_elem_of_In in Hin.
      apply list_elem_of_In in Hin'. simpl in Hin'.
      destruct Hin' as [<- | []].
      exact (existsb_sameKey_false r rows Hex Hin).
    + apply NoDup_singleton.
Qed.

(** After an upsert the row is stored, and it is the only row with its key. *)
Lemma replaceOrAdd_stored (r : A) (rows : list A) :
  In r (replaceOrAdd sameKey r rows) /\
  forall x, In x (replaceOrAdd sameKey r rows) -> sameKey r x = true -> x = r.
Proof.
  unfold replaceOrAdd. destruct (existsb (sameKey r) rows) eqn:Hex.
  - split.
    + apply existsb_exists in Hex as (x & Hin & Hk).
      apply in_map_iff. exists x. rewrite Hk. auto.
    + intros x Hin Hk. apply in_map_iff in Hin as (y & Hy & _).
      destruct (sameKey r y) eqn:Hky; [now subst |]. subst. congruence.
  - split.
    + apply in_or_app. right. now left.
    + intros x Hin Hk. apply in_app_or in Hin as [Hin | [<- | []]]; [| reflexivity].
      exfalso. apply (existsb_sameKey_false r rows Hex).
      apply in_map_iff. exists x. split; [| exact Hin].
      symmetry. now apply sameKey_iff.
Qed.

(** Rows with another key are left as they are. *)
Lemma replaceOrAdd_others (r x : A) (rows : list A) :
  sameKey r x = false ->
  (In x (replaceOrAdd sameKey r rows) <-> In x rows).
Proof.
  intros Hk. unfold replaceOrAdd. destruct (existsb (sameKey r) rows).
  - rewrite in_map_iff. split.
    + intros (y & Hy & Hin). destruct (sameKey r y) eqn:Hky; [| now subst].
      rewrite <- Hy in Hk.
      assert (sameKey r r = true) by now apply sameKey_iff. congruence.
    + intros Hin. exists x. rewrite Hk. auto.
  - rewrite in_app_iff. simpl. split; [| auto].
    intros [Hin | [Hr | []]]; [exact Hin |].
    rewrite <- Hr in Hk.
    assert (sameKey r r = true) by now apply sameKey_iff. congruence.
Qed.

Lemma upsertRows_uniqueKeys (unique : bool) (r : A) (rows : list A) :
  uniqueKeys key rows -> uniqueKeys key (fst (upsertRows unique sameKey r rows)).
Proof.
  intros H. unfold upsertRows. destruct unique; simpl; [| exact H].
  now apply replaceOrAdd_uniqueKeys.
Qed.

End Tables.

(** ** The analyze route up to the hand-off *)

Section AnalyzePrepare.

Import Db Handler AnalyzeVideoSmart.

Lemma quietCalls_nil : quietCalls [].
Proof. repeat split; constructor. Qed.

Lemma firstWithQuestions_spec (env : Env) (existingCourses : list Course.t) (w : World) :
  exists hit,
    firstWithQuestions env existingCourses w = (Val hit, w) /\
    match hit with
    | Some c =>
        In c existingCourses /\ questionsError env (Course.id c) = false /\
        exists q, In q (questions w) /\ Question.course_id q = Course.id c
    | None =>
        forall c, In c existingCourses ->
          questionsError env (Course.id c) = true \/
          forall q, In q (questions w) -> Question.course_id q <> Course.id c
    end.
Proof.
  induction existingCourses as [| c rest IH]; simpl.
  - exists None. split; [reflexivity |]. intros c [].
  - unfold bind, selectQuestions, read.
    destruct (questionsError env (Course.id c)) eqn:Herr.
    + destruct IH as (hit & Hrun & Hhit). exists hit. split; [exact Hrun |].
      destruct hit as [c' |].
      * destruct Hhit as (Hin & Hrest). split; [now right | exact Hrest].
      * intros c' [<- | Hin]; [now left | now apply Hhit].
    + destruct (filter (fun q => String.eqb (Question.course_id q) (Course.id c) = true)
                  (questions w)) as [| q found] eqn:Hfound; simpl.
      * destruct IH as (hit & Hrun & Hhit). exists hit. split; [exact Hrun |].
        destruct hit as [c' |].
        -- destruct Hhit as (Hin & Hrest). split; [now right | exact Hrest].
        -- intros c' [<- | Hin]; [| now apply Hhit].
           right. intros q Hq Heq.
           assert (q ∈ filter (fun q => String.eqb (Question.course_id q) (Course.id c) = true)
                     (questions w)) as Hin.
           { apply list_elem_of_filter. split; [now apply String.eqb_eq |].
             now apply list_elem_of_In. }
           rewrite Hfound in Hin. inversion Hin.
      * exists (Some c). split; [reflexivity |]. split; [now left |].
        split; [exact Herr |].
        assert (q ∈ filter (fun q => String.eqb (Question.course_id q) (Course.id c) = true)
                  (questions w)) as Hin by (rewrite Hfound; left).
        apply list_elem_of_filter in Hin as [Heq Hin].
        exists q. split; [now apply list_elem_of_In | now apply String.eqb_eq].
Qed.

Lemma insertByDate_In (c x : Course.t) (sorted : list Course.t) :
  In x (insertByDate c sorted) <-> x = c \/ In x sorted.
Proof.
  induction sorted as [| d rest IH]; simpl.
  - intuition.
  - destruct (Course.created_at d <? Course.created_at c)%Z; simpl.
    + intuition.
    + rewrite IH. intuition.
Qed.

Lemma newestFirst_In (x : Course.t) (rows : list Course.t) :
  In x (newestFirst rows) <-> In x rows.
Proof.
  unfold newestFirst. induction rows as [| c rows IH]; simpl; [reflexivity |].
  rewrite insertByDate_In, IH. intuition.
Qed.

(** The courses the cache look-up selects. *)
Lemma selected_In (url : string) (x : Course.t) (rows : list Course.t) :
  In x (newestFirst (filter (fun c => String.eqb (Course.youtube_url c) url = true) rows))
  <-> In x rows /\ Course.youtube_url x = url.
Proof.
  rewrite newestFirst_In, <- list_elem_of_In, list_elem_of_filter,
    list_elem_of_In, String.eqb_eq.
  intuition.
Qed.

Lemma quietCalls_app (l1 l2 : list Call) :
  quietCalls l1 -> quietCalls l2 -> quietCalls (l1 ++ l2).
Proof.
  intros (H1 & H2 & H3) (H1' & H2' & H3'). repeat split.
  - rewrite initRequests_app. lia.
  - apply Forall_app. auto.
  - apply Forall_app. auto.
Qed.

(** The cache look-up reads the database only; when it answers, it
    answers with a stored course of the same sanitized URL that has a
    question. *)
Lemma checkCache_spec (env : Env) (req : Request) (u s : string) (w : World) :
  snd (checkCache env req u s w) = w /\
  (fst (checkCache env req u s w) = Val tt \/
   exists c resp,
     fst (checkCache env req u s w) = Return resp /\
     In c (courses w) /\
     Course.youtube_url c = sanitizeYouTubeUrl env u /\
     (exists q, In q (questions w) /\ Question.course_id q = Course.id c) /\
     status resp = 200%Z /\
     get "course_id" (body resp) = Some (JStr (Course.id c)) /\
     get "cached" (body resp) = Some (JBool true) /\
     get "segmented" (body resp) = Some (JBool false)).
Proof.
  unfold checkCache.
  destruct (optBool (useCache req) true && negb (given (course_id req)));
    [| split; [reflexivity | now left]].
  unfold bind, selectCourses, read.
  destruct (cacheError env); [split; [reflexivity | now left] |].
  set (rows := newestFirst _).
  assert (forall x, In x rows ->
            In x (courses w) /\ Course.youtube_url x = sanitizeYouTubeUrl env u) as Hrows
    by (intros x; apply selected_In).
  destruct rows as [| c rest]; [split; [reflexivity | now left] |].
  destruct (firstWithQuestions_spec env (c :: rest) w) as (hit & Hrun & Hhit).
  rewrite Hrun. destruct hit as [c' |]; [| split; [reflexivity | now left]].
  split; [reflexivity |]. right.
  destruct Hhit as (Hin & _ & Hq). destruct (Hrows c' Hin) as [Hstored Hurl].
  eexists c', _. split; [reflexivity |]. repeat split; auto.
Qed.

(** The cache look-up answers when a stored course of the same sanitized
    URL has a question. *)
Lemma checkCache_hit (env : Env) (req : Request) (u s : string) (w : World)
    (c : Course.t) (q : Question.t) :
  optBool (useCache req) true = true -> given (course_id req) = false ->
  cacheError env = false ->
  In c (courses w) -> Course.youtube_url c = sanitizeYouTubeUrl env u ->
  questionsError env (Course.id c) = false ->
  In q (questions w) -> Question.course_id q = Course.id c ->
  fst (checkCache env req u s w) <> Val tt.
Proof.
  intros Hcache Hid Herr Hc Hurl Hqerr Hq Hqc. unfold checkCache.
  rewrite Hcache, Hid. cbn [andb negb]. unfold bind, selectCourses, read. rewrite Herr.
  set (rows := newestFirst _).
  assert (In c rows) as Hin by (apply selected_In; auto).
  destruct rows as [| c0 rest]; [contradiction |].
  destruct (firstWithQuestions_spec env (c0 :: rest) w) as (hit & Hrun & Hhit).
  rewrite Hrun. destruct hit as [c' |]; [discriminate |].
  exfalso. destruct (Hhit c Hin) as [Hbad | Hbad]; [congruence |].
  exact (Hbad q Hq Hqc).
Qed.

(** What the route has done when it is about to call the edge function,
    and when it has answered before. *)
Lemma prepare_spec (env : Env) (req : Request) (u s : string) (w : World) :
  match prepare env req u s w with
  | (Val (c, _, _), w1) =>
      exists new row,
        calls w1 = calls w ++ new ++ [UpsertProgress row] /\
        quietCalls new /\
        Progress.course_id row = c /\ Progress.session_id row = s /\
        Progress.stage row = "initialization" /\
        progress_unique_index w1 = progress_unique_index w /\
        quiz_generation_progress w1 =
          fst (upsertRows (progress_unique_index w) Progress.sameKey row
                 (quiz_generation_progress w))
  | (Return resp, w1) =>
      exists new,
        calls w1 = calls w ++ new /\ quietCalls new /\
        quiz_generation_progress w1 = quiz_generation_progress w /\
        progress_unique_index w1 = progress_unique_index w
  | (Throw _, _) => False
  | (Loops, _) => False
  end.
Proof.
  unfold prepare, bind at 1.
  destruct (checkCache_spec env req u s w) as [Hw Hfst].
  destruct (checkCache env req u s w) as [res w0]. simpl in Hw, Hfst. subst w0.
  destruct Hfst as [-> | (c & resp & -> & _)].
  2: { exists []. rewrite app_nil_r. auto using quietCalls_nil. }
  unfold bind at 1.
  destruct (negb (given (course_id req))).
  - unfold createCourse, bind at 1, modify. 
    destruct (courseError env) as [msg |].
    + simpl. eexists [_]. repeat split; auto; repeat constructor.
    + unfold bind, modify, when, ret, upsertProgress.
      destruct (given (userOf env req)); simpl; rewrite <- ?app_assoc; simpl.
      * eexists [_; _], _. simpl. repeat split; auto; repeat constructor.
      * eexists [_], _. simpl. repeat split; auto; repeat constructor.
  - unfold ret, bind, upsertProgress, modify. simpl.
    eexists [], _. simpl. repeat split; auto; repeat constructor.
Qed.

End AnalyzePrepare.

(** ** The hand-off of the analyze route to the edge function *)

Section AnalyzeHandOff.

Import Db Handler AnalyzeVideoSmart.

(** A request that times out: the answer is 200 and the progress stays in
    the stage [initialization]. *)
Lemma initialize_timeout (env : Env) (req : Request) (c u s : string) (w : World)
    (e : Error) :
  initFetch env 0 = InitThrows e -> name e = "AbortError" ->
  exists resp row w2,
    initialize env req c u s w = (Return resp, w2) /\
    handedOff w w2 row /\
    status resp = 200%Z /\
    get "success" (body resp) = Some (JBool true) /\
    get "background_processing" (body resp) = Some (JBool true) /\
    get "course_id" (body resp) = Some (JStr c) /\
    Progress.course_id row = c /\ Progress.session_id row = s /\
    Progress.stage row = "initialization".
Proof.
  intros Hfetch Hname.
  unfold initialize, tryCatch, bind, modify, upsertProgress, bind, modify.
  rewrite Hfetch. unfold throw. rewrite Hname. simpl.
  eexists _, _, _. split; [reflexivity |].
  split.
  { split; [| split; reflexivity]. eexists. simpl. rewrite <- ?app_assoc. reflexivity. }
  repeat split; reflexivity.
Qed.

(** A request answered with a status that is not OK: the progress is
    marked [failed] and the answer is 500. *)
Lemma initialize_not_ok (env : Env) (req : Request) (c u s : string) (w : World)
    (errorText : string) :
  initFetch env 0 = InitNotOk errorText ->
  exists resp row w2,
    initialize env req c u s w = (Return resp, w2) /\
    handedOff w w2 row /\
    status resp = 500%Z /\
    Progress.course_id row = c /\ Progress.session_id row = s /\
    Progress.stage row = "failed".
Proof.
  intros Hfetch.
  unfold initialize, tryCatch, bind, modify, upsertProgress, bind, modify.
  rewrite Hfetch. simpl.
  eexists _, _, _. split; [reflexivity |].
  split.
  { split; [| split; reflexivity]. eexists. simpl. rewrite <- ?app_assoc. reflexivity. }
  repeat split; reflexivity.
Qed.

(** One request is sent to the edge function, whatever it yields. *)
Lemma initialize_calls (env : Env) (req : Request) (c u s : string) (w : World) :
  exists body rest,
    calls (snd (initialize env req c u s w)) = calls w ++ CallInit 0 body :: rest /\
    initRequests rest = O /\
    Forall (fun c => plainProgressInsert c = false) rest.
Proof.
  unfold initialize, tryCatch, bind, modify, upsertProgress, bind, modify.
  destruct (initFetch env 0) as [j | txt | e]; simpl.
  - eexists _, []. repeat split; constructor.
  - eexists _, [_]. rewrite <- app_assoc. repeat split; repeat constructor.
  - unfold throw. destruct (String.eqb (name e) "AbortError"); simpl.
    + eexists _, [_]. rewrite <- app_assoc. repeat split; repeat constructor.
    + eexists _, []. repeat split; constructor.
Qed.

(** The route answers in the world [w] it started in. *)
Ltac answered_at_once h w :=
  left; subst h; eexists _, w, []; rewrite app_nil_r;
  split; [reflexivity | auto using quietCalls_nil].

(** Either the route answers before it calls the edge function, or what
    is left of it after its checks and the preparation of the course is the
    [try] block around the request and the statements after it. *)
Lemma handler_cases (env : Env) (req : Request) (w : World) :
  (exists resp w1 new,
      handler env req w = (Return resp, w1) /\
      calls w1 = calls w ++ new /\ quietCalls new /\
      quiz_generation_progress w1 = quiz_generation_progress w /\
      progress_unique_index w1 = progress_unique_index w)
  \/
  (exists c t d w1,
      prepare env req (text (youtube_url req)) (text (session_id req)) w =
        (Val (c, t, d), w1) /\
      handler env req w =
        tryCatch
          (bind (initialize env req c (text (youtube_url req)) (text (session_id req)))
                (finish env c (text (session_id req)) t d))
          (recover env req) w1).
Proof.
  remember (handler env req w) as h eqn:Hh. unfold handler in Hh.
  destruct (negb (String.eqb (method req) "POST")); [answered_at_once h w |].
  unfold process in Hh.
  destruct (negb (given (youtube_url req)) || negb (given (session_id req)));
    [answered_at_once h w |].
  destruct (negb (isValidYouTubeUrl (text (youtube_url req))));
    [answered_at_once h w |].
  pose proof (prepare_spec env req (text (youtube_url req)) (text (session_id req)) w)
    as Hprep.
  unfold tryCatch, bind in Hh.
  destruct (prepare env req (text (youtube_url req)) (text (session_id req)) w)
    as [[[[c t] d] | resp | e |] w1]; try contradiction.
  - right. exists c, t, d, w1. split; [reflexivity |].
    subst h. unfold tryCatch, bind. reflexivity.
  - left. destruct Hprep as (new & Hcalls & Hquiet & Hrows & Hidx).
    subst h. exists resp, w1, new. auto.
Qed.

Lemma tryCatch_return {A : Type} (m : Prog A) (k : Error -> Prog A) (w w2 : World)
    (resp : Response) :
  m w = (Return resp, w2) -> tryCatch m k w = (Return resp, w2).
Proof. intros H. unfold tryCatch. now rewrite H. Qed.

Lemma bind_return {A B : Type} (m : Prog A) (k : A -> Prog B) (w w2 : World)
    (resp : Response) :
  m w = (Return resp, w2) -> bind m k w = (Return resp, w2).
Proof. intros H. unfold bind. now rewrite H. Qed.

(** The row an upsert stores when the table declares the unique index. *)
Lemma upserted_progress (row : Progress.t) (rows : list Progress.t) :
  let rows' := fst (upsertRows true Progress.sameKey row rows) in
  In row rows' /\
  forall x, In x rows' -> Progress.sameKey row x = true -> x = row.
Proof.
  simpl. apply (replaceOrAdd_stored Progress.key Progress.sameKey progress_sameKey_iff).
Qed.

(** What the route does with a request to the edge function that times
    out, and with one that is answered with a status that is not OK. *)
Lemma hand_off_outcomes (env : Env) (req : Request) (w : World) :
  (initRequests (calls w) < initRequests (calls (snd (handler env req w))))%nat ->
  (forall e, initFetch env 0 = InitThrows e -> name e = "AbortError" ->
     exists resp new row,
       answer (handler env req w) = Some resp /\
       status resp = 200%Z /\
       get "success" (body resp) = Some (JBool true) /\
       get "background_processing" (body resp) = Some (JBool true) /\
       get "course_id" (body resp) = Some (JStr (Progress.course_id row)) /\
       calls (snd (handler env req w)) = calls w ++ new ++ [UpsertProgress row] /\
       Forall (fun c => marksFailed c = false) new /\
       Progress.session_id row = text (session_id req) /\
       Progress.stage row = "initialization" /\
       (progress_unique_index w = true ->
        In row (quiz_generation_progress (snd (handler env req w))) /\
        forall x, In x (quiz_generation_progress (snd (handler env req w))) ->
                  Progress.sameKey row x = true -> x = row))
  /\
  (forall errorText, initFetch env 0 = InitNotOk errorText ->
     exists resp new row,
       answer (handler env req w) = Some resp /\
       status resp = 500%Z /\
       calls (snd (handler env req w)) = calls w ++ new ++ [UpsertProgress row] /\
       Progress.session_id row = text (session_id req) /\
       Progress.stage row = "failed" /\
       (progress_unique_index w = true ->
        In row (quiz_generation_progress (snd (handler env req w))) /\
        forall x, In x (quiz_generation_progress (snd (handler env req w))) ->
                  Progress.sameKey row x = true -> x = row)).
Proof.
  intros Hsent.
  destruct (handler_cases env req w)
    as [(resp & w1 & new & Hrun & Hcalls & (Hnone & _) & _)
       | (c & t & d & w1 & Hprep & Hrun)].
  { exfalso. rewrite Hrun in Hsent. simpl in Hsent.
    rewrite Hcalls, initRequests_app in Hsent. lia. }
  pose proof (prepare_spec env req (text (youtube_url req)) (text (session_id req)) w)
    as Hspec.
  rewrite Hprep in Hspec.
  destruct Hspec as (new & row1 & Hcalls1 & (_ & Hquiet & _) & _ & _ & Hstage1 & Hidx1 & _).
  split.
  - intros e Hfetch Hname.
    destruct (initialize_timeout env req c (text (youtube_url req))
                (text (session_id req)) w1 e Hfetch Hname)
      as (resp & row & w2 & Hinit & ((body & Hcalls2) & _ & Hrows2)
          & Hstatus & Hsuccess & Hbg & Hcourse & Hrc & Hrs & Hstage).
    rewrite Hrun.
    rewrite (tryCatch_return _ _ _ _ _ (bind_return _ _ _ _ _ Hinit)).
    exists resp, (new ++ [UpsertProgress row1; CallInit 0 body]), row.
    simpl. repeat split; auto.
    + now rewrite Hrc.
    + rewrite Hcalls2, Hcalls1, <- !app_assoc. reflexivity.
    + apply Forall_app. split; [exact Hquiet |].
      repeat constructor. unfold marksFailed. simpl. now rewrite Hstage1.
    + rewrite Hrows2, Hidx1, H. apply upserted_progress.
    + rewrite Hrows2, Hidx1, H. apply upserted_progress.
  - intros errorText Hfetch.
    destruct (initialize_not_ok env req c (text (youtube_url req))
                (text (session_id req)) w1 errorText Hfetch)
      as (resp & row & w2 & Hinit & ((body & Hcalls2) & _ & Hrows2)
          & Hstatus & Hrc & Hrs & Hstage).
    rewrite Hrun.
    rewrite (tryCatch_return _ _ _ _ _ (bind_return _ _ _ _ _ Hinit)).
    exists resp, (new ++ [UpsertProgress row1; CallInit 0 body]), row.
    simpl. repeat split; auto.
    + rewrite Hcalls2, Hcalls1, <- !app_assoc. reflexivity.
    + rewrite Hrows2, Hidx1, H. apply upserted_progress.
    + rewrite Hrows2, Hidx1, H. apply upserted_progress.
Qed.

(** C5: when the request to the edge function is aborted by the 30 second
    timer, the route answers 200 with [success: true] and
    [background_processing: true] and upserts the progress row of the
    course and session with the stage [initialization], and no write of
    this run marks the progress as failed; when the request is answered
    with a status that is not OK, the route upserts the progress row with
    the stage [failed] and answers 500. *)
Theorem C5_init_timeout_and_failure (env : Env) (req : Request) (w : World) :
  (initRequests (calls w) < initRequests (calls (snd (handler env req w))))%nat ->
  (forall e, initFetch env 0 = InitThrows e -> name e = "AbortError" ->
     exists resp new row,
       answer (handler env req w) = Some resp /\
       status resp = 200%Z /\
       get "success" (body resp) = Some (JBool true) /\
       get "background_processing" (body resp) = Some (JBool true) /\
       get "course_id" (body resp) = Some (JStr (Progress.course_id row)) /\
       calls (snd (handler env req w)) = calls w ++ new ++ [UpsertProgress row] /\
       Forall (fun c => marksFailed c = false) new /\
       Progress.session_id row = text (session_id req) /\
       Progress.stage row = "initialization" /\
       (progress_unique_index w = true ->
        In row (quiz_generation_progress (snd (handler env req w))) /\
        forall x, In x (quiz_generation_progress (snd (handler env req w))) ->
                  Progress.sameKey row x = true -> x = row))
  /\
  (forall errorText, initFetch env 0 = InitNotOk errorText ->
     exists resp new row,
       answer (handler env req w) = Some resp /\
       status resp = 500%Z /\
       calls (snd (handler env req w)) = calls w ++ new ++ [UpsertProgress row] /\
       Progress.session_id row = text (session_id req) /\
       Progress.stage row = "failed" /\
       (progress_unique_index w = true ->
        In row (quiz_generation_progress (snd (handler env req w))) /\
        forall x, In x (quiz_generation_progress (snd (handler env req w))) ->
                  Progress.sameKey row x = true -> x = row)).
Proof. exact (hand_off_outcomes env req w). Qed.

End AnalyzeHandOff.

Lemma C5_init_timeout_and_failure_witness :
  (exists resp,
      Handler.answer
        (AnalyzeVideoSmart.handler (Sample.analyzeEnv Sample.timeoutThenOk)
           Sample.analyzeRequest Sample.emptyWorld) = Some resp /\
      Handler.status resp = 200%Z) /\
  (exists resp,
      Handler.answer
        (AnalyzeVideoSmart.handler (Sample.analyzeEnv Sample.alwaysNotOk)
           Sample.analyzeRequest Sample.emptyWorld) = Some resp /\
      Handler.status resp = 500%Z).
Proof.
  split.
  - destruct (C5_init_timeout_and_failure (Sample.analyzeEnv Sample.timeoutThenOk)
                Sample.analyzeRequest Sample.emptyWorld
                ltac:(vm_compute; lia)) as [Htimeout _].
    destruct (Htimeout _ eq_refl eq_refl) as (resp & _ & _ & Hanswer & Hstatus & _).
    exists resp. split; [exact Hanswer | exact Hstatus].
  - destruct (C5_init_timeout_and_failure (Sample.analyzeEnv Sample.alwaysNotOk)
                Sample.analyzeRequest Sample.emptyWorld
                ltac:(vm_compute; lia)) as [_ Hfailure].
    destruct (Hfailure _ eq_refl) as (resp & _ & _ & Hanswer & Hstatus & _).
    exists resp. split; [exact Hanswer | exact Hstatus].
Defined.

(** ** Everything the analyze route sends *)

Section AnalyzeCalls.

Import Db Handler AnalyzeVideoSmart.

Lemma progress_upsert_uniqueKeys (unique : bool) (row : Progress.t)
    (rows : list Progress.t) :
  uniqueKeys Progress.key rows ->
  uniqueKeys Progress.key (fst (upsertRows unique Progress.sameKey row rows)).
Proof. apply (upsertRows_uniqueKeys Progress.key Progress.sameKey progress_sameKey_iff). Qed.

(** From the request to the edge function to the answer of the route: one
    request is sent, and every write of progress after it is an upsert. *)
Lemma hand_off_effects (env : Env) (req : Request) (c t d u s : string) (w1 : World) :
  let w2 :=
    snd (tryCatch (bind (initialize env req c u s) (finish env c s t d))
           (recover env req) w1) in
  exists body rest,
    calls w2 = calls w1 ++ CallInit 0 body :: rest /\
    initRequests rest = O /\
    Forall (fun c => plainProgressInsert c = false) rest /\
    progress_unique_index w2 = progress_unique_index w1 /\
    (uniqueKeys Progress.key (quiz_generation_progress w1) ->
     uniqueKeys Progress.key (quiz_generation_progress w2)).
Proof.
  unfold tryCatch at 1, bind at 1, initialize, tryCatch, bind, modify,
    upsertProgress, bind, modify, throw.
  destruct (initFetch env 0) as [initResult | errorText | e]; simpl.
  - unfold finish.
    destruct (truthyJson (get "segmented" initResult)).
    + unfold segmentedAnswer, bind, upsertProgress, bind, modify. simpl.
      rewrite <- !app_assoc. simpl.
      eexists _, [_; _]. repeat split; repeat constructor.
      apply progress_upsert_uniqueKeys.
    + unfold plainAnswer, bind, fetchCourse, read, modify.
      destruct (truthyJson (videoSummary initResult)); simpl;
        (eexists _, []; repeat split; [constructor | auto]).
  - rewrite <- !app_assoc. simpl.
    eexists _, [_]. repeat split; repeat constructor.
    apply progress_upsert_uniqueKeys.
  - destruct (String.eqb (name e) "AbortError"); simpl.
    + rewrite <- !app_assoc. simpl.
      eexists _, [_]. repeat split; repeat constructor.
      apply progress_upsert_uniqueKeys.
    + unfold recover, bind, when, upsertProgress, bind, modify, ret.
      destruct (given (session_id req) && given (course_id req)); simpl.
      * rewrite <- !app_assoc. simpl.
        eexists _, [_]. repeat split; repeat constructor.
        apply progress_upsert_uniqueKeys.
      * eexists _, []. repeat split; [constructor | auto].
Qed.

(** Whatever the request and the outside world: the route sends at most
    one request to the edge function, its first attempt, and every write of
    progress it sends is an upsert on (course_id, session_id) that keeps
    the keys of the table unique. *)
Lemma handler_effects (env : Env) (req : Request) (w : World) :
  let w' := snd (handler env req w) in
  exists new,
    calls w' = calls w ++ new /\
    (initRequests new <= 1)%nat /\
    (forall n body, In (CallInit n body) new -> n = O) /\
    Forall (fun c => plainProgressInsert c = false) new /\
    progress_unique_index w' = progress_unique_index w /\
    (uniqueKeys Progress.key (quiz_generation_progress w) ->
     uniqueKeys Progress.key (quiz_generation_progress w')).
Proof.
  assert (forall l : list Call, initRequests l = O ->
            forall n body, ~ In (CallInit n body) l) as Hnone.
  { induction l as [| x l IH]; intros H0 n body; simpl; [tauto |].
    intros [-> | Hin]; [discriminate |].
    destruct x; simpl in H0; try discriminate; exact (IH H0 n body Hin). }
  destruct (handler_cases env req w)
    as [(resp & w1 & new & Hrun & Hcalls & (Hzero & _ & Hplain) & Hrows & Hidx)
       | (c & t & d & w1 & Hprep & Hrun)].
  - rewrite Hrun. simpl. exists new. repeat split; auto.
    + lia.
    + intros n body Hin. now apply Hnone in Hin.
    + now rewrite Hrows.
  - pose proof (prepare_spec env req (text (youtube_url req)) (text (session_id req)) w)
      as Hspec.
    rewrite Hprep in Hspec.
    destruct Hspec as (new & row & Hcalls1 & (Hzero & _ & Hplain) & _ & _ & _ & Hidx1 & Hrows1).
    destruct (hand_off_effects env req c t d (text (youtube_url req))
                (text (session_id req)) w1)
      as (body & rest & Hcalls2 & Hzero2 & Hplain2 & Hidx2 & Hrows2).
    rewrite <- Hrun in Hcalls2, Hidx2, Hrows2. cbv zeta.
    exists (new ++ [UpsertProgress row] ++ CallInit 0 body :: rest).
    repeat split.
    + rewrite Hcalls2, Hcalls1, <- !app_assoc. reflexivity.
    + rewrite !initRequests_app. simpl. lia.
    + intros n body' Hin.
      apply in_app_or in Hin as [Hin | Hin]; [now apply Hnone in Hin |].
      simpl in Hin. destruct Hin as [Hin | [Hin | Hin]];
        [discriminate | congruence | now apply Hnone in Hin].
    + apply Forall_app. split; [exact Hplain |]. repeat constructor. exact Hplain2.
    + congruence.
    + intros Huniq. apply Hrows2. rewrite Hrows1.
      now apply progress_upsert_uniqueKeys.
Qed.

End AnalyzeCalls.

(** ** No retry of the hand-off *)

Section NoRetry.

Import Db Handler AnalyzeVideoSmart.

(** C6, as the code has it: when the request to the edge function times
    out, the route does not send it again.  In every run it sends at most
    one request, its first attempt; when that request times out the route
    answers 200 with [background_processing: true]. *)
Theorem C6_timeout_is_not_retried (env : Env) (req : Request) (w : World) :
  exists new,
    calls (snd (handler env req w)) = calls w ++ new /\
    (initRequests new <= 1)%nat /\
    (forall n body, In (CallInit n body) new -> n = O) /\
    (forall e, initFetch env 0 = InitThrows e -> name e = "AbortError" ->
       initRequests new = 1%nat ->
       exists resp,
         answer (handler env req w) = Some resp /\
         status resp = 200%Z /\
         get "background_processing" (body resp) = Some (JBool true)).
Proof.
  destruct (handler_effects env req w) as (new & Hcalls & Hle & Hfirst & _).
  exists new. repeat split; auto.
  intros e Hfetch Hname Hone.
  assert (initRequests (calls w) < initRequests (calls (snd (handler env req w))))%nat
    as Hsent by (rewrite Hcalls, initRequests_app; lia).
  destruct (hand_off_outcomes env req w Hsent) as [Htimeout _].
  destruct (Htimeout e Hfetch Hname) as (resp & _ & _ & Ha & Hs & _ & Hbg & _).
  exists resp. auto.
Qed.

End NoRetry.

(** C6 does not hold as stated: the first request times out, a second one
    would be answered, and the route has sent one request only. *)
Lemma C6_retry_counterexample :
  AnalyzeVideoSmart.initFetch (Sample.analyzeEnv Sample.timeoutThenOk) 0 =
    AnalyzeVideoSmart.timedOut /\
  initRequests
    (Db.calls
       (snd (AnalyzeVideoSmart.handler (Sample.analyzeEnv Sample.timeoutThenOk)
               Sample.analyzeRequest Sample.emptyWorld))) = 1%nat /\
  ~ retried
      (Db.calls
         (snd (AnalyzeVideoSmart.handler (Sample.analyzeEnv Sample.timeoutThenOk)
                 Sample.analyzeRequest Sample.emptyWorld))).
Proof.
  split; [reflexivity |]. split; [vm_compute; reflexivity |].
  unfold retried. vm_compute. lia.
Qed.

Lemma C6_timeout_is_not_retried_witness :
  exists resp,
    Handler.answer
      (AnalyzeVideoSmart.handler (Sample.analyzeEnv Sample.timeoutThenOk)
         Sample.analyzeRequest Sample.emptyWorld) = Some resp /\
    Handler.status resp = 200%Z /\
    Db.get "background_processing" (Handler.body resp) = Some (Db.JBool true).
Proof.
  destruct (C6_timeout_is_not_retried (Sample.analyzeEnv Sample.timeoutThenOk)
              Sample.analyzeRequest Sample.emptyWorld)
    as (new & Hcalls & _ & _ & Htimeout).
  apply (Htimeout _ eq_refl eq_refl).
  apply (f_equal initRequests) in Hcalls.
  rewrite initRequests_app in Hcalls. simpl plus in Hcalls.
  rewrite <- Hcalls. vm_compute. reflexivity.
Defined.

(** ** Writes of progress that name no conflict target *)

(** C7 fails on the edge function: its write of progress is a plain
    insert.  Called for the course and session whose row the analyze route
    has upserted, it sends an insert for the same key; a table with the
    unique index refuses it, so that the stage [planning] is not recorded,
    and a table without the index holds two rows for the key after two
    calls. *)
Theorem C7_edge_function_inserts_progress :
  let w1 :=
    snd (AnalyzeVideoSmart.handler (Sample.analyzeEnv Sample.timeoutThenOk)
           Sample.analyzeRequest Sample.emptyWorld) in
  let w2 :=
    snd (InitSegmentedProcessing.serve (Sample.serveEnv (Some 610))
           Sample.serveRequest w1) in
  let w3 :=
    snd (InitSegmentedProcessing.serve (Sample.serveEnv (Some 610))
           Sample.serveRequest
           (snd (InitSegmentedProcessing.serve (Sample.serveEnv (Some 610))
                   Sample.serveRequest Sample.worldWithoutIndex))) in
  map Db.Progress.key (Db.quiz_generation_progress w1) = [("course-1", "session-1")] /\
  map (fun c => option_map Db.Progress.key (progressWrite c))
      (filter (fun c => plainProgressInsert c = true) (Db.calls w2)) =
    [Some ("course-1", "session-1")] /\
  map (fun row => (Db.Progress.key row, Db.Progress.stage row))
      (Db.quiz_generation_progress w2) =
    [(("course-1", "session-1"), "initialization")] /\
  map Db.Progress.key (Db.quiz_generation_progress w3) =
    [("course-1", "session-1"); ("course-1", "session-1")] /\
  ~ uniqueKeys Db.Progress.key (Db.quiz_generation_progress w3).
Proof.
  cbv zeta. split; [vm_compute; reflexivity |].
  split; [vm_compute; reflexivity |]. split; [vm_compute; reflexivity |].
  assert (map Db.Progress.key
            (Db.quiz_generation_progress
               (snd (InitSegmentedProcessing.serve (Sample.serveEnv (Some 610))
                       Sample.serveRequest
                       (snd (InitSegmentedProcessing.serve (Sample.serveEnv (Some 610))
                               Sample.serveRequest Sample.worldWithoutIndex))))) =
          [("course-1", "session-1"); ("course-1", "session-1")]) as Hkeys
    by (vm_compute; reflexivity).
  split; [exact Hkeys |].
  unfold uniqueKeys. rewrite Hkeys. intros Hnd.
  apply NoDup_cons_1_1 in Hnd. apply Hnd. left.
Qed.

(** ** URLs the route accepts and the edge function rejects *)

Section Patterns.

Import Regex.

Context {R : Type} (P : R -> Prop).

Lemma giveBack_post (extra atLeast : nat) (s : string) (k : string -> option R) (x : R) :
  (forall s' y, k s' = Some y -> P y) ->
  giveBack extra atLeast s k = Some x -> P x.
Proof.
  intros Hk. induction extra as [| extra IH]; simpl.
  - destruct (k (drop (atLeast + 0) s)) as [y |] eqn:Hy; [| discriminate].
    intros [= <-]. eauto.
  - destruct (k (drop (atLeast + S extra) s)) as [y |] eqn:Hy.
    + intros [= <-]. eauto.
    + exact IH.
Qed.

(** What a match yields is something its continuation yields. *)
Lemma run_post (r : re) (s : string) (cap : option string)
    (k : string -> option string -> option R) (x : R) :
  (forall s' cap' y, k s' cap' = Some y -> P y) ->
  run r s cap k = Some x -> P x.
Proof.
  revert s cap k x. induction r as [l | a IHa b IHb | a IHa b IHb | n cls | g IHg];
    intros s cap k x Hk; simpl.
  - destruct (String.prefix l s); [eauto | discriminate].
  - destruct (run a s cap k) as [y |] eqn:Hy.
    + intros [= <-]. eapply IHa; eauto.
    + apply IHb. exact Hk.
  - apply IHa. intros s' cap' y. apply IHb. exact Hk.
  - destruct (span cls s <? n)%nat; [discriminate |].
    apply giveBack_post. eauto.
  - apply IHg. eauto.
Qed.

End Patterns.

(** A match of a pattern that ends with its capturing group has a text
    for the group. *)
Lemma search_group (a g : Regex.re) (url : string) (cap : option string) :
  Regex.search (Regex.Seq a (Regex.Group g)) url = Some cap -> exists id, cap = Some id.
Proof.
  induction url as [| c url IH]; simpl.
  - destruct (Regex.run a "" None _) as [y |] eqn:Hy; [| discriminate].
    intros [= <-].
    apply (run_post (fun y => exists id, y = Some id)) in Hy; [exact Hy |].
    intros s' cap' y0 H.
    apply (run_post (fun y => exists id, y = Some id)) in H; [exact H |].
    intros s'' cap'' y1 [= <-]. eauto.
  - destruct (Regex.run a (String c url) None _) as [y |] eqn:Hy; [| exact IH].
    intros [= <-].
    apply (run_post (fun y => exists id, y = Some id)) in Hy; [exact Hy |].
    intros s' cap' y0 H.
    apply (run_post (fun y => exists id, y = Some id)) in H; [exact H |].
    intros s'' cap'' y1 [= <-]. eauto.
Qed.

(** The edge function finds a video id in every URL that the first
    pattern of the route matches. *)
Lemma first_pattern_has_video_id (url : string) :
  Regex.search Regex.videoIdPattern url <> None <-> extractVideoId url <> None.
Proof.
  unfold extractVideoId.
  destruct (Regex.search Regex.videoIdPattern url) as [cap |] eqn:Hs; [| tauto].
  destruct (search_group _ _ _ _ Hs) as [id ->].
  split; intros _; discriminate.
Qed.

(** The URLs the route accepts and the edge function rejects are those
    that only the second pattern of the route matches. *)
Lemma accepted_and_rejected (url : string) :
  isValidYouTubeUrl url = true /\ extractVideoId url = None <->
  Regex.search Regex.videoIdPattern url = None /\
  Regex.search Regex.watchQueryPattern url <> None.
Proof.
  pose proof (first_pattern_has_video_id url) as Hfirst.
  unfold isValidYouTubeUrl, anyMatches.
  destruct (Regex.search Regex.videoIdPattern url) as [cap |] eqn:H1.
  - assert (extractVideoId url <> None) by (apply Hfirst; discriminate).
    split; [intros [_ Hnone]; contradiction | intros [Hnone _]; discriminate].
  - destruct (Regex.search Regex.watchQueryPattern url) as [cap |] eqn:H2.
    + assert (extractVideoId url = None) as Hnone.
      { destruct (extractVideoId url) eqn:He; [| reflexivity].
        exfalso. assert (@None (option string) <> None) as Hbad
          by (apply Hfirst; discriminate). now apply Hbad. }
      split; [intros _; split; [reflexivity | discriminate] | intros _; auto].
    + split; [intros [Hv _]; discriminate | intros [_ Hbad]; contradiction].
Qed.

(** C10 fails: the route accepts a URL whose [v=] parameter is not the
    first one, through its second pattern, and the edge function, which
    has the first pattern only, finds no video id in it and answers 500
    with [Invalid YouTube URL]. *)
Theorem C10_accepted_url_without_video_id :
  isValidYouTubeUrl Sample.sharedUrl = true /\
  extractVideoId Sample.sharedUrl = None /\
  Handler.answer
    (InitSegmentedProcessing.serve (Sample.serveEnv (Some 610))
       Sample.sharedRequest Sample.emptyWorld) =
  Some (Handler.mkResponse 500
          (Db.JObj [("error", Db.JStr "Invalid YouTube URL");
                    ("success", Db.JBool false)])) /\
  filter (fun c => initRequests [c] = 1%nat)
    (Db.calls
       (snd (AnalyzeVideoSmart.handler (Sample.analyzeEnv Sample.alwaysNotOk)
               Sample.sharedAnalyzeRequest Sample.emptyWorld))) =
  [Db.CallInit 0
     (Db.JObj [("course_id", Db.JStr "course-1");
               ("youtube_url", Db.JStr Sample.sharedUrl);
               ("session_id", Db.JStr "session-1");
               ("max_questions_per_segment", Db.JInt 5);
               ("segment_duration", Db.JInt 300);
               ("use_enhanced", Db.JBool false)])].
Proof. repeat split; vm_compute; reflexivity. Qed.

Example extract_watch :
  extractVideoId "https://www.youtube.com/watch?v=dQw4w9WgXcQ&t=42s" = Some "dQw4w9WgXcQ".
Proof. vm_compute. reflexivity. Qed.

Example extract_short : extractVideoId "https://youtu.be/abc?x=1" = Some "abc".
Proof. vm_compute. reflexivity. Qed.

Example extract_embed :
  extractVideoId "https://www.youtube.com/embed/abc#t=1" = Some "abc".
Proof. vm_compute. reflexivity. Qed.

Example extract_other : extractVideoId "https://example.com/watch?v=abc" = None.
Proof. vm_compute. reflexivity. Qed.

Example invalid_other : isValidYouTubeUrl "https://example.com/watch?v=abc" = false.
Proof. vm_compute. reflexivity. Qed.

Example empty_first_parameter :
  isValidYouTubeUrl "https://www.youtube.com/watch?v=&v=abc" = true /\
  extractVideoId "https://www.youtube.com/watch?v=&v=abc" = None.
Proof. split; vm_compute; reflexivity. Qed.

(** ** The cache of analyzed videos *)

Section Cache.

Import Db Handler AnalyzeVideoSmart.

(** C8: a POST with [useCache] true (as it is by default) and without
    [course_id], whose required fields are given and whose URL is accepted,
    is answered from the cache when a stored course with the same sanitized
    URL has a question and the look-ups succeed: the answer is 200 with the
    id of such a stored course, [cached: true] and [segmented: false], and
    the route writes nothing, so that no course row is inserted. *)
Theorem C8_cached_course_is_reused (env : Env) (req : Request) (w : World)
    (c : Course.t) (q : Question.t) :
  method req = "POST" ->
  given (youtube_url req) = true -> given (session_id req) = true ->
  isValidYouTubeUrl (text (youtube_url req)) = true ->
  optBool (useCache req) true = true -> given (course_id req) = false ->
  cacheError env = false -> questionsError env (Course.id c) = false ->
  In c (courses w) ->
  Course.youtube_url c = sanitizeYouTubeUrl env (text (youtube_url req)) ->
  In q (questions w) -> Question.course_id q = Course.id c ->
  exists resp existing,
    handler env req w = (Return resp, w) /\
    status resp = 200%Z /\
    In existing (courses w) /\
    Course.youtube_url existing = sanitizeYouTubeUrl env (text (youtube_url req)) /\
    (exists q', In q' (questions w) /\ Question.course_id q' = Course.id existing) /\
    get "course_id" (body resp) = Some (JStr (Course.id existing)) /\
    get "cached" (body resp) = Some (JBool true) /\
    get "segmented" (body resp) = Some (JBool false).
Proof.
  intros Hpost Hurl Hsession Hvalid Hcache Hnoid Hcerr Hqerr Hc Hcu Hq Hqc.
  pose proof (checkCache_hit env req (text (youtube_url req)) (text (session_id req))
                w c q Hcache Hnoid Hcerr Hc Hcu Hqerr Hq Hqc) as Hhit.
  destruct (checkCache_spec env req (text (youtube_url req)) (text (session_id req)) w)
    as [Hw [Hmiss | (c' & resp & Hret & Hin & Hsame & Hhas & Hstatus & Hid & Hcached & Hseg)]];
    [contradiction |].
  exists resp, c'. split; [| auto 10].
  assert (checkCache env req (text (youtube_url req)) (text (session_id req)) w =
          (Return resp, w)) as Hrun.
  { destruct (checkCache env req (text (youtube_url req)) (text (session_id req)) w)
      as [res w0]. simpl in Hw, Hret. now subst. }
  unfold handler. rewrite Hpost.
  change (negb (String.eqb "POST" "POST")) with false. cbv iota.
  unfold process. rewrite Hurl, Hsession, Hvalid.
  change (negb true) with false. change (false || false) with false. cbv iota.
  unfold tryCatch, bind, prepare, bind. rewrite Hrun. reflexivity.
Qed.

End Cache.

Lemma C8_cached_course_is_reused_witness :
  exists resp,
    AnalyzeVideoSmart.handler (Sample.analyzeEnv Sample.timeoutThenOk)
      Sample.analyzeRequest Sample.cachedWorld = (Handler.Return resp, Sample.cachedWorld) /\
    Handler.status resp = 200%Z /\
    Db.get "course_id" (Handler.body resp) = Some (Db.JStr "course-0") /\
    Db.get "cached" (Handler.body resp) = Some (Db.JBool true).
Proof.
  destruct (C8_cached_course_is_reused (Sample.analyzeEnv Sample.timeoutThenOk)
              Sample.analyzeRequest Sample.cachedWorld Sample.cachedCourse
              (Db.Question.mk "question-0" "course-0")
              eq_refl eq_refl eq_refl eq_refl eq_refl eq_refl eq_refl eq_refl
              (or_introl eq_refl) eq_refl (or_introl eq_refl) eq_refl)
    as (resp & existing & Hrun & Hstatus & Hin & _ & _ & Hid & Hcached & _).
  exists resp. split; [exact Hrun |]. split; [exact Hstatus |].
  split; [| exact Hcached].
  destruct Hin as [<- | []]. exact Hid.
Defined.

(** ** Ratings *)

Section Ratings.

Import Db Handler CourseRating.
Local Open Scope Z_scope.

Lemma inject_Z_le_inv (a b : Z) : (inject_Z a <= inject_Z b)%Q -> a <= b.
Proof. intros H. now rewrite Zle_Qle. Qed.

(** The check "Validate rating value" lets through the integers from 1 to
    5 and nothing else. *)
Lemma invalidRating_false (env : Env) (rating : option Json) :
  invalidRating env rating = false <->
  exists n, integerOneToFive rating n /\ ratingValue rating = n.
Proof.
  unfold invalidRating, integerOneToFive. split.
  - intros H. repeat (apply orb_false_iff in H; destruct H as [H ?]).
    match goal with Hchk : negb (isInteger rating) = false |- _ =>
      apply negb_false_iff in Hchk; rename Hchk into Hinteger end.
    destruct rating as [[| b | q | s | items | fields] |]; simpl in Hinteger;
      try discriminate.
    match goal with Hlt : lessThan env _ _ = false |- _ =>
      unfold lessThan in Hlt; simpl in Hlt;
      apply negb_false_iff, Qle_bool_iff in Hlt; rename Hlt into Hlow end.
    match goal with Hgt : greaterThan env _ _ = false |- _ =>
      unfold greaterThan in Hgt; simpl in Hgt;
      apply negb_false_iff, Qle_bool_iff in Hgt; rename Hgt into Hhigh end.
    apply Qeq_bool_iff in Hinteger.
    exists (Qfloor q). split; [| reflexivity]. split.
    + rewrite Hinteger in Hlow, Hhigh.
      split; apply inject_Z_le_inv; assumption.
    + exists q. split; [reflexivity | exact Hinteger].
  - intros (n & ((Hlow & Hhigh) & q & -> & Hq) & _).
    assert (Qfloor q = n) as Hfloor by (rewrite Hq; apply Qfloor_Z).
    unfold lessThan, greaterThan. simpl. rewrite Hfloor.
    assert (Qeq_bool q 0 = false) as ->.
    { destruct (Qeq_bool q 0) eqn:Hzero; [| reflexivity].
      apply Qeq_bool_iff in Hzero. rewrite Hq in Hzero.
      assert (inject_Z n <= inject_Z 0)%Q as Hle by (rewrite Hzero; apply Qle_refl).
      apply inject_Z_le_inv in Hle. lia. }
    assert (Qle_bool 1 q = true) as ->.
    { apply Qle_bool_iff. rewrite Hq. change 1%Q with (inject_Z 1).
      rewrite <- Zle_Qle. lia. }
    assert (Qle_bool q 5 = true) as ->.
    { apply Qle_bool_iff. rewrite Hq. change 5%Q with (inject_Z 5).
      rewrite <- Zle_Qle. lia. }
    assert (Qeq_bool q (inject_Z n) = true) as -> by now apply Qeq_bool_iff.
    reflexivity.
Qed.

Lemma rating_upserted (row : Rating.t) (rows : list Rating.t) :
  In row (replaceOrAdd Rating.sameKey row rows) /\
  (forall x, In x (replaceOrAdd Rating.sameKey row rows) ->
             Rating.sameKey row x = true -> x = row) /\
  (uniqueKeys Rating.key rows ->
   uniqueKeys Rating.key (replaceOrAdd Rating.sameKey row rows)).
Proof.
  destruct (replaceOrAdd_stored Rating.key Rating.sameKey rating_sameKey_iff row rows)
    as [Hin Honly].
  split; [exact Hin |]. split; [exact Honly |].
  apply (replaceOrAdd_uniqueKeys Rating.key Rating.sameKey rating_sameKey_iff).
Qed.

(** C9: a POST whose rating is not an integer between 1 and 5 is answered
    400 and writes nothing.  A POST with such a rating from a signed-in
    user for a course that is found is upserted on (user_id, course_id):
    the row of this user and course holds the new rating, it is the only
    row with its key, and the keys of the table stay unique. *)
Theorem C9_rating_validated_and_upserted (env : Env) (req : Request) (w : World) :
  method req = "POST"%string ->
  ((~ exists n, integerOneToFive (rating req) n) ->
   exists resp, handler env req w = (Return resp, w) /\ status resp = 400) /\
  (forall n courseId userId,
     integerOneToFive (rating req) n ->
     id req = QString courseId -> Js.truthy_string courseId = true ->
     userOf env req = Some userId ->
     fst (courseExists env courseId w) = Val true ->
     insertError env = false -> ratings_unique_index w = true ->
     exists resp row w',
       handler env req w = (Return resp, w') /\
       status resp = 200 /\
       Rating.user_id row = userId /\ Rating.course_id row = courseId /\
       Rating.rating row = n /\
       calls w' = (calls w ++ [UpsertRating row])%list /\
       user_course_ratings w' =
         replaceOrAdd Rating.sameKey row (user_course_ratings w) /\
       In row (user_course_ratings w') /\
       (forall x, In x (user_course_ratings w') ->
                  Rating.sameKey row x = true -> x = row) /\
       (uniqueKeys Rating.key (user_course_ratings w) ->
        uniqueKeys Rating.key (user_course_ratings w'))).
Proof.
  intros Hpost. split.
  - intros Hbad.
    assert (invalidRating env (rating req) = true) as Hinvalid.
    { destruct (invalidRating env (rating req)) eqn:Hcheck; [reflexivity |].
      apply invalidRating_false in Hcheck as (n & Hn & _).
      exfalso. apply Hbad. now exists n. }
    unfold handler.
    destruct (id req) as [| courseId | values];
      [eexists; split; reflexivity | | eexists; split; reflexivity].
    destruct (negb (Js.truthy_string courseId)); [eexists; split; reflexivity |].
    rewrite Hpost. change (String.eqb "POST" "POST") with true. cbv iota.
    unfold submit. rewrite Hinvalid. eexists. split; reflexivity.
  - intros n courseId userId Hn Hid Hcourse Huser Hfound Hins Hidx.
    assert (invalidRating env (rating req) = false /\ ratingValue (rating req) = n)
      as [Hvalid Hvalue].
    { destruct (invalidRating_false env (rating req)) as [Hto Hfrom].
      destruct (invalidRating env (rating req)) eqn:Hcheck.
      - assert (true = false) by (apply Hfrom; destruct Hn as (Hr & q & Hq & Heq);
          exists n; split; [split; [exact Hr | now exists q] |];
          rewrite Hq; simpl; rewrite Heq; apply Qfloor_Z).
        discriminate.
      - split; [reflexivity |].
        destruct (Hto eq_refl) as (m & (_ & q' & Hq' & Heq') & Hm).
        destruct Hn as (_ & q & Hq & Heq).
        rewrite Hq in Hq' |- *. injection Hq' as <-. simpl. rewrite Heq.
        apply Qfloor_Z. }
    destruct (rating_upserted
                (Rating.mk userId courseId n
                   (match context req with Some c => c | None => "manual"%string end)
                   (orZero (engagementData req) timeSpentMinutes)
                   (orZero (engagementData req) questionsAnswered)
                   (orZero (engagementData req) completionPercentage))
                (user_course_ratings w)) as (Hin & Honly & Huniq).
    assert (courseExists env courseId w = (Val true, w)) as Hce.
    { unfold courseExists, read in Hfound |- *. simpl in Hfound.
      injection Hfound as Hb. now rewrite Hb. }
    eexists _, _, _. split.
    + unfold handler. rewrite Hid, Hcourse.
      change (negb true) with false. cbv beta iota.
      rewrite Hpost. change (String.eqb "POST" "POST") with true. cbv iota.
      unfold submit. rewrite Hvalid, Huser. cbv beta iota. unfold bind at 1.
      cbv beta. rewrite Hce. change (negb true) with false. cbv beta iota.
      unfold bind, upsertRating, bind, modify, read. rewrite Hins, Hvalue.
      simpl. rewrite Hidx. simpl. reflexivity.
    + simpl. repeat split; auto.
Qed.

End Ratings.

Lemma C9_rating_validated_and_upserted_witness :
  (exists resp,
      CourseRating.handler Sample.ratingEnv
        (Sample.ratingRequest (Some (Db.JNum 6))) Sample.ratedWorld =
        (Handler.Return resp, Sample.ratedWorld) /\
      Handler.status resp = 400%Z) /\
  (exists w',
      snd (CourseRating.handler Sample.ratingEnv
             (Sample.ratingRequest (Some (Db.JNum 4))) Sample.ratedWorld) = w' /\
      map Db.Rating.rating (Db.user_course_ratings w') = [4%Z]).
Proof.
  split.
  - destruct (C9_rating_validated_and_upserted Sample.ratingEnv
                (Sample.ratingRequest (Some (Db.JNum 6))) Sample.ratedWorld eq_refl)
      as [Hbad _].
    apply Hbad. intros (n & (Hlow & Hhigh) & q & [= <-] & Heq).
    assert (inject_Z 6 <= inject_Z n)%Q as Hle
      by (change (inject_Z 6) with 6%Q; rewrite Heq; apply Qle_refl).
    rewrite <- Zle_Qle in Hle. lia.
  - destruct (C9_rating_validated_and_upserted Sample.ratingEnv
                (Sample.ratingRequest (Some (Db.JNum 4))) Sample.ratedWorld eq_refl)
      as [_ Hgood].
    destruct (Hgood 4%Z "course-0"%string "user-of-token-1"%string) as
      (resp & row & w' & Hrun & _); try reflexivity.
    + split; [lia |]. exists 4%Q. split; reflexivity.
    + eexists. split; [reflexivity |]. vm_compute. reflexivity.
Defined.

(** * Further properties *)

Import Written.

(** ** Durations *)

Section Durations.

Import Duration.
Local Open Scope Z_scope.

Lemma isDigit_of_digit (c : ascii) :
  isDigit c = true -> 0 <= digitValue c <= 9.
Proof.
  unfold isDigit, digitValue. rewrite andb_true_iff, !Nat.leb_le. lia.
Qed.

Lemma parseDigits_nonneg (text : string) (acc : Z) :
  0 <= acc -> allOf isDigit text = true -> acc <= parseDigits acc text.
Proof.
  revert acc. induction text as [| c text IH]; intros acc Hacc Hall; simpl in *.
  - lia.
  - apply andb_true_iff in Hall as [Hc Hall].
    pose proof (isDigit_of_digit c Hc).
    specialize (IH (acc * 10 + digitValue c) ltac:(lia) Hall). lia.
Qed.

Lemma span_all (cls : ascii -> bool) (s : string) :
  allOf cls (Regex.take (Regex.span cls s) s) = true.
Proof.
  induction s as [| c s IH]; simpl; [reflexivity |].
  destruct (cls c) eqn:Hc; simpl; [now rewrite Hc | reflexivity].
Qed.

Lemma component_digits (unit : ascii) (s rest : string) (digits : string) :
  component unit s = (Some digits, rest) -> allOf isDigit digits = true.
Proof.
  unfold component.
  destruct (Regex.drop (Regex.span isDigit s) s) as [| c after]; [discriminate |].
  destruct ((0 <? Regex.span isDigit s)%nat && Ascii.eqb c unit); [| discriminate].
  intros [= <- _]. apply span_all.
Qed.

Lemma parseGroup_missing : parseGroup None = 0.
Proof. reflexivity. Qed.

Lemma parseGroup_nonneg (unit : ascii) (s rest : string) (group : option string) :
  component unit s = (group, rest) -> 0 <= parseGroup group.
Proof.
  intros H. destruct group as [digits |]; [| now rewrite parseGroup_missing].
  apply component_digits in H. unfold parseGroup.
  destruct (Js.truthy_string digits); [| now vm_compute].
  now apply parseDigits_nonneg.
Qed.

Lemma matchHere_nonneg (s : string) (h m sec : option string) :
  matchHere s = Some (h, m, sec) ->
  0 <= parseGroup h /\ 0 <= parseGroup m /\ 0 <= parseGroup sec.
Proof.
  unfold matchHere. destruct (String.prefix "PT" s); [| discriminate].
  destruct (component "H" (Regex.drop 2 s)) as [h' afterHours] eqn:Hh.
  destruct (component "M" afterHours) as [m' afterMinutes] eqn:Hm.
  destruct (component "S" afterMinutes) as [s' afterSeconds] eqn:Hs.
  intros [= <- <- <-].
  split; [| split]; eapply parseGroup_nonneg; eassumption.
Qed.

(** A match somewhere is a match at the start of a suffix. *)
Lemma matchDuration_suffix (s : string)
    (groups : option string * option string * option string) :
  matchDuration s = Some groups ->
  exists before after, s = before +:+ after /\ matchHere after = Some groups.
Proof.
  induction s as [| c rest IH]; intros H.
  - now vm_compute in H.
  - change (matchDuration (String c rest))
      with (match matchHere (String c rest) with
            | Some g => Some g
            | None => matchDuration rest
            end) in H.
    destruct (matchHere (String c rest)) as [g |] eqn:Hhere.
    + injection H as ->. now exists "", (String c rest).
    + destruct (IH H) as (before & after & -> & Hafter).
      now exists (String c before), after.
Qed.

Lemma parseISO8601Duration_nonneg (duration : string) :
  0 <= parseISO8601Duration duration.
Proof.
  unfold parseISO8601Duration.
  destruct (matchDuration duration) as [[[h m] sec] |] eqn:Hmatch; [| lia].
  destruct (matchDuration_suffix _ _ Hmatch) as (before & after & _ & Hs).
  destruct (matchHere_nonneg after h m sec Hs) as (Hh & Hm & Hsec). lia.
Qed.

(** *** Numerals *)








(** *** Runs of characters *)



Lemma drop_run (run rest : string) : Regex.drop (String.length run) (run +:+ rest) = rest.
Proof. induction run as [| x run IH]; simpl; auto. Qed.



(** *** The texts the parser reads *)




Lemma prefix_PT (s : string) :
  String.prefix "PT" s = true -> exists rest, s = "PT" +:+ rest.
Proof.
  intros H. apply String.prefix_correct in H.
  destruct s as [| a [| b rest]]; simpl in H; try discriminate H.
  assert (a = "P"%char /\ b = "T"%char) as [-> ->]
    by (destruct rest; injection H; auto).
  now exists rest.
Qed.

(** A text in which [PT] does not occur is read as 0. *)
Lemma parseISO8601Duration_without_PT (duration : string) :
  ~ occurs "PT" duration -> parseISO8601Duration duration = 0.
Proof.
  intros Hnone. unfold parseISO8601Duration.
  destruct (matchDuration duration) as [groups |] eqn:Hmatch; [| reflexivity].
  exfalso. apply Hnone.
  destruct (matchDuration_suffix _ _ Hmatch) as (before & after & -> & Hhere).
  unfold matchHere in Hhere.
  destruct (String.prefix "PT" after) eqn:Hp; [| discriminate].
  destruct (prefix_PT _ Hp) as [rest ->].
  now exists before, rest.
Qed.

Example duration_hours_minutes : parseISO8601Duration "PT1H30M" = 5400.
Proof. reflexivity. Qed.

Example duration_seconds : parseISO8601Duration "PT45S" = 45.
Proof. reflexivity. Qed.

Example duration_live : parseISO8601Duration "P0D" = 0.
Proof. reflexivity. Qed.

Example duration_day : parseISO8601Duration "P1DT2H3M4S" = 0.
Proof. reflexivity. Qed.

Example duration_wrong_order : parseISO8601Duration "PT5M1H" = 300.
Proof. reflexivity. Qed.

(** X2: [getVideoDuration] yields a number only when the key is set and
    the API answers with an item that has a duration text, and that number
    is never negative: it is the parsed text of the first item. *)
Theorem X2_video_duration_is_not_negative (youtube : YouTube) (videoId : string) (d : Z) :
  getVideoDuration youtube videoId = Some d ->
  0 <= d /\
  exists key duration others,
    apiKey youtube = Some key /\ Js.truthy_string key = true /\
    videos youtube videoId key = Items (Some (Some duration :: others)) /\
    d = parseISO8601Duration duration.
Proof.
  unfold getVideoDuration.
  destruct (apiKey youtube) as [key |]; [| discriminate].
  destruct (Js.truthy_string key) eqn:Hkey; [| discriminate]. simpl.
  destruct (videos youtube videoId key) as [| status | | [[| [duration |] others] |]] eqn:Hv;
    try discriminate.
  intros [= <-]. split; [apply parseISO8601Duration_nonneg |].
  now exists key, duration, others.
Qed.

(** X3: a duration text in which [PT] does not occur, such as [P0D] for
    a live stream or [P1DT2H] for a video of a day or more, is read as 0,
    and the edge function then takes the duration for unknown: it assumes
    1800 seconds and segments the video. *)
Theorem X3_unreadable_duration_counts_as_unknown (youtube : YouTube)
    (videoId key duration : string) (others : list (option string))
    (segment_duration : Z) :
  apiKey youtube = Some key -> Js.truthy_string key = true ->
  videos youtube videoId key = Items (Some (Some duration :: others)) ->
  ~ occurs "PT" duration ->
  getVideoDuration youtube videoId = Some 0 /\
  Planning.totalDuration (getVideoDuration youtube videoId) = 1800 /\
  Planning.shouldSegment (getVideoDuration youtube videoId) segment_duration = true.
Proof.
  intros Hkey Htruthy Hvideos Hnone.
  assert (getVideoDuration youtube videoId = Some 0) as ->.
  { unfold getVideoDuration. rewrite Hkey, Htruthy, Hvideos. simpl.
    now rewrite parseISO8601Duration_without_PT. }
  repeat split.
Qed.

End Durations.

Lemma no_PT_in_P0D : ~ occurs "PT" "P0D".
Proof.
  intros (before & after & H).
  destruct before as [| a [| b [| c [| d before]]]]; simpl in H; discriminate H.
Qed.

Lemma X2_video_duration_is_not_negative_witness :
  (0 <= 5400)%Z /\
  exists key duration others,
    Duration.apiKey (youtubeReporting "PT1H30M") = Some key /\
    Js.truthy_string key = true /\
    Duration.videos (youtubeReporting "PT1H30M") "abc" key =
      Duration.Items (Some (Some duration :: others)) /\
    5400%Z = Duration.parseISO8601Duration duration.
Proof.
  apply (X2_video_duration_is_not_negative (youtubeReporting "PT1H30M") "abc" 5400).
  reflexivity.
Defined.

Lemma X3_unreadable_duration_counts_as_unknown_witness :
  Duration.getVideoDuration (youtubeReporting "P0D") "abc" = Some 0%Z /\
  Planning.totalDuration (Duration.getVideoDuration (youtubeReporting "P0D") "abc") = 1800%Z /\
  Planning.shouldSegment (Duration.getVideoDuration (youtubeReporting "P0D") "abc") 300 = true.
Proof.
  apply (X3_unreadable_duration_counts_as_unknown (youtubeReporting "P0D")
           "abc" "key" "P0D" [] 300 eq_refl eq_refl eq_refl no_PT_in_P0D).
Defined.

(** ** The rows the edge function stores *)

Section ServeRows.

Import Planning Db Handler InitSegmentedProcessing.
Local Open Scope Z_scope.

Lemma segmentObjectsLoop_acc (env : Env) (course : string) (cap : Z)
    (rest : list RawSegment) (i : Z) (acc : list Segment.t) (q : Z) :
  fst (segmentObjectsLoop env course cap rest i acc q) =
  acc ++ fst (segmentObjectsLoop env course cap rest i [] 0).
Proof.
  revert i acc q. induction rest as [| r rest IH]; intros i acc q; simpl.
  - now rewrite app_nil_r.
  - rewrite (IH (i + 1) (acc ++ _)), (IH (i + 1) [_]). now rewrite <- app_assoc.
Qed.

Lemma segmentObjectsLoop_numbered (env : Env) (course : string) (cap : Z)
    (rest : list RawSegment) (i : Z) (k : nat) (seg : Segment.t) :
  fst (segmentObjectsLoop env course cap rest i [] 0) !! k = Some seg ->
  Segment.segment_index seg = i + Z.of_nat k /\
  Segment.course_id seg = course /\
  Segment.status seg = "pending"%string.
Proof.
  revert i k. induction rest as [| r rest IH]; intros i k; simpl.
  - discriminate.
  - rewrite segmentObjectsLoop_acc. destruct k as [| k]; simpl.
    + intros [= <-]. simpl. repeat split. lia.
    + intros H. destruct (IH _ _ H) as (Hi & Hc & Hs). repeat split; auto. lia.
Qed.

Lemma plannedSegments_numbered (env : Env) (course : string) (cap s t : Z)
    (segs : list Segment.t) (q : Z) :
  plannedSegments env course cap s t = Some (segs, q) -> numbered course segs.
Proof.
  unfold plannedSegments.
  destruct (rawSegments t s) as [raw |]; [| discriminate].
  intros [= H]. intros k seg Hk.
  assert (segs = fst (segmentObjectsLoop env course cap (mergeShortLast t raw) 0 [] 0))
    as -> by now rewrite H.
  destruct (segmentObjectsLoop_numbered _ _ _ _ _ _ _ Hk) as (Hi & Hc & Hs).
  repeat split; auto.
Qed.

(** What a request has done that the edge function processes up to the
    hand-off: the update of the course and the insert of the segments are
    not refused. *)
Lemma serve_processed (env : Env) (req : Request) (w : World) (videoId : string) :
  String.eqb (method req) "OPTIONS" = false ->
  extractVideoId (youtube_url req) = Some videoId ->
  courseUpdateError env = None -> segmentsError env = None ->
  withDefault (segment_duration req) 300 <> 0 ->
  let t := totalDuration (getVideoDuration env videoId) in
  let s := withDefault (segment_duration req) 300 in
  let segmented := shouldSegment (getVideoDuration env videoId) s in
  let w' := snd (serve env req w) in
  exists created progress,
    (if segmented
     then exists q,
       plannedSegments env (course_id req)
         (withDefault (max_questions_per_segment req) 5) s t = Some (created, q)
     else exists title,
       created = [Segment.mk (course_id req) 0 0 t title "pending"]) /\
    course_segments w' = course_segments w ++ created /\
    calls w' =
      calls w ++ InsertSegments created :: progress ++ [CallOrchestrator (course_id req)] /\
    (if sessionGiven (session_id req)
     then exists row,
       progress = [InsertProgress row] /\
       Progress.course_id row = course_id req /\
       Progress.session_id row = sessionText (session_id req) /\
       Progress.stage row = "planning"%string
     else progress = []) /\
    courses w' =
      (if segmented
       then match updateSegmentCountError env with
            | None => map (segmentCount (course_id req) (Z.of_nat (length created)))
            | Some _ => fun rows => rows
            end
       else fun rows => rows)
        (map (segmentationInfo (course_id req) segmented
                (if segmented then Js.ceil_div t s else Js.Finite 1)
                s (Z.max 1 t))
             (courses w)) /\
    match orchestrator env with
    | FetchOk _ =>
        exists resp,
          answer (serve env req w) = Some resp /\ status resp = 200 /\
          get "segmented" (body resp) = Some (JBool segmented) /\
          get "total_segments" (body resp) = Some (JInt (Z.of_nat (length created)))
    | FetchNotOk errorText =>
        answer (serve env req w) =
        Some (mkResponse 500
                (JObj [("error",
                        JStr ("Failed to trigger orchestrator: " +:+ errorText));
                       ("success", JBool false)]))
    | FetchFails e =>
        answer (serve env req w) =
        Some (mkResponse 500
                (JObj [("error", JStr (message e)); ("success", JBool false)]))
    end.
Proof.
  intros Hm Hid Hcu Hse Hs. cbv zeta.
  unfold serve. rewrite Hm. unfold tryCatch, process. rewrite Hid.
  set (t := totalDuration (getVideoDuration env videoId)).
  set (s := withDefault (segment_duration req) 300) in *.
  unfold bind at 1, updateCourse. rewrite Hcu.
  unfold bind at 1, modify, ret.
  destruct (shouldSegment (getVideoDuration env videoId) s) eqn:Hseg; cbv beta iota.
  - unfold negb. cbv iota. unfold manySegments.
    destruct (plannedSegments_some env (course_id req)
                (withDefault (max_questions_per_segment req) 5) s t Hs)
      as (raw & _ & Hplan).
    rewrite Hplan.
    destruct (segmentObjectsLoop env (course_id req)
                (withDefault (max_questions_per_segment req) 5)
                (mergeShortLast t raw) 0 [] 0) as [segs q] eqn:Hloop.
    unfold bind at 1, insertSegments, bind at 1, modify. rewrite Hse.
    unfold bind, modify, ret, updateCourse, bind, modify, ret, when,
      insertProgress, triggerOrchestrator, fetchOrchestrator, bind, modify, ret.
    exists segs.
    destruct (sessionGiven (session_id req));
      [eexists [_] | exists []];
      (split; [now exists q |]);
      destruct (updateSegmentCountError env), (orchestrator env);
      (split; [reflexivity |]); simpl;
      (split; [rewrite <- ?app_assoc; reflexivity |]);
      (split; [first [reflexivity | eexists; repeat split; reflexivity] |]);
      (split; [reflexivity |]);
      first [reflexivity | eexists; repeat split; reflexivity].
  - unfold negb. cbv iota. unfold singleSegment.
    unfold bind at 1, insertSegments, bind at 1, modify. rewrite Hse.
    unfold bind, modify, ret, when,
      insertProgress, triggerOrchestrator, fetchOrchestrator, bind, modify, ret.
    eexists.
    destruct (sessionGiven (session_id req));
      [eexists [_] | exists []];
      (split; [eexists; reflexivity |]);
      destruct (orchestrator env);
      (split; [reflexivity |]); simpl;
      (split; [rewrite <- ?app_assoc; reflexivity |]);
      (split; [first [reflexivity | eexists; repeat split; reflexivity] |]);
      (split; [reflexivity |]);
      first [reflexivity | eexists; repeat split; reflexivity].
Qed.

End ServeRows.

Section ServeErrors.
Import Planning Db Handler InitSegmentedProcessing.
Local Open Scope Z_scope.


Lemma serve_preflight (env : Env) (req : Request) (w : World) :
  String.eqb (method req) "OPTIONS" = true ->
  serve env req w = (Return (mkResponse 200 (JStr "ok")), w).
Proof. intros Hm. unfold serve. now rewrite Hm. Qed.

Lemma serve_invalid_url (env : Env) (req : Request) (w : World) :
  String.eqb (method req) "OPTIONS" = false ->
  extractVideoId (youtube_url req) = None ->
  serve env req w = (Return (serverError "Invalid YouTube URL"), w).
Proof.
  intros Hm Hid. unfold serve. rewrite Hm. unfold tryCatch, process.
  now rewrite Hid.
Qed.

Lemma serve_course_update_refused (env : Env) (req : Request) (w : World)
    (videoId msg : string) :
  String.eqb (method req) "OPTIONS" = false ->
  extractVideoId (youtube_url req) = Some videoId ->
  courseUpdateError env = Some msg ->
  serve env req w = (Return (serverError ("Failed to update course: " +:+ msg)), w).
Proof.
  intros Hm Hid Hcu. unfold serve. rewrite Hm. unfold tryCatch, process.
  rewrite Hid. unfold bind at 1, updateCourse. rewrite Hcu. reflexivity.
Qed.

Lemma serve_segments_refused (env : Env) (req : Request) (w : World)
    (videoId msg : string) :
  String.eqb (method req) "OPTIONS" = false ->
  extractVideoId (youtube_url req) = Some videoId ->
  courseUpdateError env = None -> segmentsError env = Some msg ->
  withDefault (segment_duration req) 300 <> 0 ->
  let t := totalDuration (getVideoDuration env videoId) in
  let s := withDefault (segment_duration req) 300 in
  let segmented := shouldSegment (getVideoDuration env videoId) s in
  exists attempted,
    serve env req w =
    (Return (serverError ((if segmented then "Failed to create segments: "
                       else "Failed to create segment: ") +:+ msg)),
     addCall (InsertSegments attempted)
       (setCourses
          (map (segmentationInfo (course_id req) segmented
                  (if segmented then Js.ceil_div t s else Js.Finite 1)
                  s (Z.max 1 t)))
          w)).
Proof.
  intros Hm Hid Hcu Hse Hs. cbv zeta.
  unfold serve. rewrite Hm. unfold tryCatch, process. rewrite Hid.
  set (t := totalDuration (getVideoDuration env videoId)).
  set (s := withDefault (segment_duration req) 300) in *.
  unfold bind at 1, updateCourse. rewrite Hcu.
  unfold bind at 1, modify, ret.
  destruct (shouldSegment (getVideoDuration env videoId) s) eqn:Hseg; cbv beta iota.
  - unfold negb. cbv iota. unfold manySegments.
    destruct (plannedSegments_some env (course_id req)
                (withDefault (max_questions_per_segment req) 5) s t Hs)
      as (raw & _ & Hplan).
    rewrite Hplan.
    destruct (segmentObjectsLoop env (course_id req)
                (withDefault (max_questions_per_segment req) 5)
                (mergeShortLast t raw) 0 [] 0) as [segs q].
    unfold bind at 1, insertSegments, bind at 1, modify. rewrite Hse.
    eexists. reflexivity.
  - unfold negb. cbv iota. unfold singleSegment.
    unfold bind at 1, insertSegments, bind at 1, modify. rewrite Hse.
    eexists. reflexivity.
Qed.

Lemma orchestratorRequests_app (a b : list Call) :
  orchestratorRequests (a ++ b) = (orchestratorRequests a + orchestratorRequests b)%nat.
Proof.
  induction a as [| c a IH]; simpl; [reflexivity |].
  destruct c; simpl; now rewrite IH.
Qed.


Lemma created_numbered (env : Env) (course : string) (cap s t : Z)
    (segmented : bool) (created : list Segment.t) :
  (if segmented
   then exists q, plannedSegments env course cap s t = Some (created, q)
   else exists title, created = [Segment.mk course 0 0 t title "pending"]) ->
  numbered course created.
Proof.
  intros H. destruct segmented.
  - destruct H as [q H]. exact (plannedSegments_numbered _ _ _ _ _ _ _ H).
  - destruct H as [title ->]. intros [| [| i]] seg; simpl; intros [= <-].
    now simpl.
Qed.

(** X4: a request that the edge function refuses before its first write
    (the URL has no video id, or the database refuses the update of the
    course) is answered with status 500 and leaves the database and the
    log of requests as they were. *)
Theorem X4_refused_request_changes_nothing (env : Env) (req : Request) (w : World) :
  String.eqb (method req) "OPTIONS" = false ->
  extractVideoId (youtube_url req) = None \/ courseUpdateError env <> None ->
  exists text, serve env req w = (Return (serverError text), w).
Proof.
  intros Hm H.
  destruct (extractVideoId (youtube_url req)) as [videoId |] eqn:Hid.
  - destruct H as [H | H]; [discriminate |].
    destruct (courseUpdateError env) as [msg |] eqn:Hcu; [| congruence].
    eexists. eapply serve_course_update_refused; eassumption.
  - eexists. now apply serve_invalid_url.
Qed.

(** X5: when the database refuses the insert of the segments, the request
    is answered with status 500; no segment and no progress row is
    stored and the orchestrator is not called, but the update of the
    course that preceded the insert is not undone: the course stays
    marked with the decision. *)
Theorem X5_refused_segments_leave_course_marked (env : Env) (req : Request)
    (w : World) (videoId msg : string) :
  String.eqb (method req) "OPTIONS" = false ->
  extractVideoId (youtube_url req) = Some videoId ->
  courseUpdateError env = None -> segmentsError env = Some msg ->
  withDefault (segment_duration req) 300 <> 0 ->
  let w' := snd (serve env req w) in
  (exists text, answer (serve env req w) = Some (serverError text)) /\
  course_segments w' = course_segments w /\
  quiz_generation_progress w' = quiz_generation_progress w /\
  (exists attempted, calls w' = calls w ++ [InsertSegments attempted]) /\
  length (courses w') = length (courses w) /\
  (forall i c, courses w !! i = Some c -> Course.id c = course_id req ->
     exists c', courses w' !! i = Some c' /\
       Course.id c' = course_id req /\
       Course.is_segmented c' =
         Some (shouldSegment (getVideoDuration env videoId)
                 (withDefault (segment_duration req) 300))).
Proof.
  intros Hm Hid Hcu Hse Hs. cbv zeta.
  destruct (serve_segments_refused env req w videoId msg Hm Hid Hcu Hse Hs)
    as (attempted & ->).
  simpl. split; [eauto |]. split; [reflexivity |]. split; [reflexivity |].
  split; [eauto |]. split; [apply length_map |].
  intros i c Hc Hidc. rewrite list_lookup_fmap, Hc. simpl.
  eexists. split; [reflexivity |].
  unfold segmentationInfo. rewrite Hidc, String.eqb_refl. simpl. auto.
Qed.


(** X7: whatever the outcome of a request, the rows it adds to
    [course_segments] are numbered from 0 in the order of the timeline,
    carry the course id of the request and are pending. *)
Theorem X7_created_segments_are_numbered (env : Env) (req : Request) (w : World) :
  withDefault (segment_duration req) 300 <> 0 ->
  exists created,
    course_segments (snd (serve env req w)) = course_segments w ++ created /\
    numbered (course_id req) created.
Proof.
  intros Hs.
  assert (numbered (course_id req) []) as Hnil by (intros i seg; discriminate).
  destruct (String.eqb (method req) "OPTIONS") eqn:Hm.
  { rewrite serve_preflight by exact Hm. exists []. now rewrite app_nil_r. }
  destruct (extractVideoId (youtube_url req)) as [videoId |] eqn:Hid.
  2: { rewrite serve_invalid_url by assumption. exists []. now rewrite app_nil_r. }
  destruct (courseUpdateError env) as [msg |] eqn:Hcu.
  { rewrite (serve_course_update_refused env req w videoId msg) by assumption.
    exists []. now rewrite app_nil_r. }
  destruct (segmentsError env) as [msg |] eqn:Hse.
  { destruct (serve_segments_refused env req w videoId msg Hm Hid Hcu Hse Hs)
      as (attempted & ->).
    exists []. now rewrite app_nil_r. }
  destruct (serve_processed env req w videoId Hm Hid Hcu Hse Hs)
    as (created & progress & Hcreated & Hsegs & _).
  exists created. split; [exact Hsegs |].
  eapply created_numbered. exact Hcreated.
Qed.


(** X9: a run of the edge function sends at most one request to the
    orchestrator, and none unless the database has accepted the segments:
    then the rows of the acknowledged insert are stored. *)
Theorem X9_orchestrator_called_once_after_insert (env : Env) (req : Request)
    (w : World) :
  withDefault (segment_duration req) 300 <> 0 ->
  exists new,
    calls (snd (serve env req w)) = calls w ++ new /\
    (orchestratorRequests new <= 1)%nat /\
    (orchestratorRequests new = 1%nat ->
     segmentsError env = None /\
     exists created after,
       new = InsertSegments created :: after /\
       course_segments (snd (serve env req w)) = course_segments w ++ created).
Proof.
  intros Hs.
  destruct (String.eqb (method req) "OPTIONS") eqn:Hm.
  { rewrite serve_preflight by exact Hm. exists []. rewrite app_nil_r.
    simpl. split; [reflexivity |]. split; [lia | discriminate]. }
  destruct (extractVideoId (youtube_url req)) as [videoId |] eqn:Hid.
  2: { rewrite serve_invalid_url by assumption. exists []. rewrite app_nil_r.
       simpl. split; [reflexivity |]. split; [lia | discriminate]. }
  destruct (courseUpdateError env) as [msg |] eqn:Hcu.
  { rewrite (serve_course_update_refused env req w videoId msg) by assumption.
    exists []. rewrite app_nil_r.
    simpl. split; [reflexivity |]. split; [lia | discriminate]. }
  destruct (segmentsError env) as [msg |] eqn:Hse.
  { destruct (serve_segments_refused env req w videoId msg Hm Hid Hcu Hse Hs)
      as (attempted & ->).
    exists [InsertSegments attempted].
    simpl. split; [reflexivity |]. split; [lia | discriminate]. }
  destruct (serve_processed env req w videoId Hm Hid Hcu Hse Hs)
    as (created & progress & _ & Hsegs & Hcalls & Hprogress & _).
  exists (InsertSegments created :: progress ++ [CallOrchestrator (course_id req)]).
  split; [exact Hcalls |].
  assert (orchestratorRequests progress = 0%nat) as Hnone.
  { destruct (sessionGiven (session_id req)).
    - destruct Hprogress as (row & -> & _). reflexivity.
    - now rewrite Hprogress. }
  simpl. rewrite orchestratorRequests_app, Hnone. simpl.
  split; [lia |]. intros _. split; [reflexivity |]. eauto.
Qed.

End ServeErrors.

Lemma X4_refused_request_changes_nothing_witness :
  exists text,
    InitSegmentedProcessing.serve
      (edgeSample None None (InitSegmentedProcessing.FetchNotOk "busy"))
      (courseRequest "https://example.com/watch") Sample.cachedWorld =
    (Handler.Return (serverError text), Sample.cachedWorld).
Proof.
  apply (X4_refused_request_changes_nothing
           (edgeSample None None (InitSegmentedProcessing.FetchNotOk "busy"))
           (courseRequest "https://example.com/watch") Sample.cachedWorld).
  - reflexivity.
  - left. reflexivity.
Defined.

Lemma X5_refused_segments_leave_course_marked_witness :
  (exists text,
     Handler.answer
       (InitSegmentedProcessing.serve
          (edgeSample None (Some "duplicate key") (InitSegmentedProcessing.FetchNotOk "busy"))
          (courseRequest "https://youtu.be/abc") Sample.cachedWorld) =
     Some (serverError text)) /\
  Db.course_segments
    (snd (InitSegmentedProcessing.serve
            (edgeSample None (Some "duplicate key") (InitSegmentedProcessing.FetchNotOk "busy"))
            (courseRequest "https://youtu.be/abc") Sample.cachedWorld)) =
  Db.course_segments Sample.cachedWorld /\
  Db.quiz_generation_progress
    (snd (InitSegmentedProcessing.serve
            (edgeSample None (Some "duplicate key") (InitSegmentedProcessing.FetchNotOk "busy"))
            (courseRequest "https://youtu.be/abc") Sample.cachedWorld)) =
  Db.quiz_generation_progress Sample.cachedWorld /\
  (exists attempted,
     Db.calls
       (snd (InitSegmentedProcessing.serve
               (edgeSample None (Some "duplicate key") (InitSegmentedProcessing.FetchNotOk "busy"))
               (courseRequest "https://youtu.be/abc") Sample.cachedWorld)) =
     Db.calls Sample.cachedWorld ++ [Db.InsertSegments attempted]) /\
  length
    (Db.courses
       (snd (InitSegmentedProcessing.serve
               (edgeSample None (Some "duplicate key") (InitSegmentedProcessing.FetchNotOk "busy"))
               (courseRequest "https://youtu.be/abc") Sample.cachedWorld))) =
  length (Db.courses Sample.cachedWorld) /\
  (forall i c, Db.courses Sample.cachedWorld !! i = Some c ->
     Db.Course.id c =
       InitSegmentedProcessing.course_id (courseRequest "https://youtu.be/abc") ->
     exists c',
       Db.courses
         (snd (InitSegmentedProcessing.serve
                 (edgeSample None (Some "duplicate key") (InitSegmentedProcessing.FetchNotOk "busy"))
                 (courseRequest "https://youtu.be/abc") Sample.cachedWorld)) !! i = Some c' /\
       Db.Course.id c' =
         InitSegmentedProcessing.course_id (courseRequest "https://youtu.be/abc") /\
       Db.Course.is_segmented c' =
         Some (Planning.shouldSegment
                 (InitSegmentedProcessing.getVideoDuration
                    (edgeSample None (Some "duplicate key")
                       (InitSegmentedProcessing.FetchNotOk "busy")) "abc")
                 (InitSegmentedProcessing.withDefault
                    (InitSegmentedProcessing.segment_duration
                       (courseRequest "https://youtu.be/abc")) 300))).
Proof.
  apply (X5_refused_segments_leave_course_marked
           (edgeSample None (Some "duplicate key") (InitSegmentedProcessing.FetchNotOk "busy"))
           (courseRequest "https://youtu.be/abc") Sample.cachedWorld "abc" "duplicate key").
  - reflexivity.
  - reflexivity.
  - reflexivity.
  - reflexivity.
  - simpl. lia.
Defined.


Lemma X7_created_segments_are_numbered_witness :
  exists created,
    Db.course_segments
      (snd (InitSegmentedProcessing.serve
              (edgeSample None None (InitSegmentedProcessing.FetchNotOk "busy"))
              (courseRequest "https://youtu.be/abc") Sample.cachedWorld)) =
    Db.course_segments Sample.cachedWorld ++ created /\
    numbered (InitSegmentedProcessing.course_id (courseRequest "https://youtu.be/abc"))
      created.
Proof.
  apply (X7_created_segments_are_numbered
           (edgeSample None None (InitSegmentedProcessing.FetchNotOk "busy"))
           (courseRequest "https://youtu.be/abc") Sample.cachedWorld).
  simpl. lia.
Defined.


Lemma X9_orchestrator_called_once_after_insert_witness :
  exists new,
    Db.calls
      (snd (InitSegmentedProcessing.serve
              (edgeSample None None (InitSegmentedProcessing.FetchOk Db.JNull))
              (courseRequest "https://youtu.be/abc") Sample.cachedWorld)) =
    Db.calls Sample.cachedWorld ++ new /\
    (orchestratorRequests new <= 1)%nat /\
    (orchestratorRequests new = 1%nat ->
     InitSegmentedProcessing.segmentsError
       (edgeSample None None (InitSegmentedProcessing.FetchOk Db.JNull)) = None /\
     exists created after,
       new = Db.InsertSegments created :: after /\
       Db.course_segments
         (snd (InitSegmentedProcessing.serve
                 (edgeSample None None (InitSegmentedProcessing.FetchOk Db.JNull))
                 (courseRequest "https://youtu.be/abc") Sample.cachedWorld)) =
       Db.course_segments Sample.cachedWorld ++ created).
Proof.
  apply (X9_orchestrator_called_once_after_insert
           (edgeSample None None (InitSegmentedProcessing.FetchOk Db.JNull))
           (courseRequest "https://youtu.be/abc") Sample.cachedWorld).
  simpl. lia.
Defined.

(** ** The checks of a YouTube URL *)

Section Urls.
Import Regex.
Local Open Scope string_scope.
Local Open Scope list_scope.

Lemma giveBack_first {R : Type} (extra atLeast : nat) (s : string)
    (k : string -> option R) (x : R) :
  k (drop (atLeast + extra) s) = Some x -> giveBack extra atLeast s k = Some x.
Proof. intros H. destruct extra; simpl; now rewrite H. Qed.

Lemma span_le (cls : ascii -> bool) (s : string) :
  (span cls s <= String.length s)%nat.
Proof.
  induction s as [| c s IH]; simpl; [lia |]. destruct (cls c); simpl; lia.
Qed.

Lemma length_drop (n : nat) (s : string) :
  String.length (drop n s) = (String.length s - n)%nat.
Proof.
  revert s. induction n as [| n IH]; intros [| c s]; simpl; auto; lia.
Qed.

Lemma take_drop (n : nat) (s : string) : s = take n s +:+ drop n s.
Proof.
  revert s. induction n as [| n IH]; intros [| c s]; simpl; auto.
  change (String c s = String c (take n s +:+ drop n s)).
  f_equal. apply IH.
Qed.

Lemma span_allOf (cls : ascii -> bool) (s : string) :
  allOf cls s = true -> span cls s = String.length s.
Proof.
  induction s as [| c s IH]; simpl; [reflexivity |].
  intros H. apply andb_true_iff in H as [-> H]. now rewrite IH.
Qed.

Lemma take_all (s : string) : take (String.length s) s = s.
Proof. induction s as [| c s IH]; simpl; [reflexivity | now rewrite IH]. Qed.

(** The run of [cls] characters stops at the end of the text or before a
    character that is not in [cls]. *)
Lemma drop_span_stops (cls : ascii -> bool) (s : string) :
  match drop (span cls s) s with
  | String c _ => cls c = false
  | EmptyString => True
  end.
Proof.
  induction s as [| c s IH]; simpl; [exact I |].
  destruct (cls c) eqn:Hc; simpl; [exact IH | exact Hc].
Qed.

(** The capturing group [([cls]+)] at the end of a pattern takes the
    longest run of [cls] characters. *)
Lemma run_captured_run (cls : ascii -> bool) (s : string) (cap : option string) :
  run (Group (Many 1 cls)) s cap (fun _ c => Some c) =
  if (span cls s <? 1)%nat then None else Some (Some (take (span cls s) s)).
Proof.
  simpl. destruct (span cls s <? 1)%nat eqn:Hn; [reflexivity |].
  apply Nat.ltb_ge in Hn. apply giveBack_first.
  replace (1 + (span cls s - 1))%nat with (span cls s) by lia.
  rewrite length_drop. pose proof (span_le cls s).
  now replace (String.length s - (String.length s - span cls s))%nat
    with (span cls s) by lia.
Qed.

Lemma captured_run (cls : ascii -> bool) (s : string) (cap y : option string) :
  run (Group (Many 1 cls)) s cap (fun _ c => Some c) = Some y ->
  exists id after,
    y = Some id /\ s = id +:+ after /\ id <> "" /\ allOf cls id = true /\
    match after with
    | String c _ => cls c = false
    | EmptyString => True
    end.
Proof.
  rewrite run_captured_run.
  destruct (span cls s <? 1)%nat eqn:Hn; [discriminate |].
  apply Nat.ltb_ge in Hn. intros [= <-].
  exists (take (span cls s) s), (drop (span cls s) s).
  split; [reflexivity |]. split; [apply take_drop |]. split.
  - destruct s as [| c s]; simpl in *; [lia |].
    destruct (cls c); simpl in *; [discriminate | lia].
  - split; [apply span_all | apply drop_span_stops].
Qed.

Lemma prefix_split (l s : string) :
  String.prefix l s = true -> s = l +:+ drop (String.length l) s.
Proof.
  revert s. induction l as [| a l IH]; intros s H; [reflexivity |].
  destruct s as [| b s]; [simpl in H; discriminate H |].
  simpl in H. destruct (ascii_dec a b) as [-> |]; [| discriminate H].
  change (String b s = String b (l +:+ drop (String.length l) s)).
  f_equal. now apply IH.
Qed.

Lemma prefix_append (l x : string) : String.prefix l (l +:+ x) = true.
Proof.
  induction l as [| a l IH]; [now destruct x |].
  change (String.prefix (String a l) (String a (l +:+ x)) = true).
  simpl. destruct (ascii_dec a a); [exact IH | contradiction].
Qed.

(** A match of a pattern somewhere in a text is a match at the start of
    one of its suffixes. *)
Lemma search_at (r : re) (url : string) (cap : option string) :
  search r url = Some cap ->
  exists before s,
    url = before +:+ s /\ run r s None (fun _ c => Some c) = Some cap.
Proof.
  induction url as [| c url IH]; simpl.
  - destruct (run r "" None _) as [y |] eqn:Hy; [| discriminate].
    intros [= <-]. now exists "", "".
  - destruct (run r (String c url) None _) as [y |] eqn:Hy.
    + intros [= <-]. now exists "", (String c url).
    + intros H. destruct (IH H) as (before & s & -> & Hrun).
      now exists (String c before), s.
Qed.

Lemma search_none (r : re) (c : ascii) (url : string) :
  run r (String c url) None (fun _ cap => Some cap) = None ->
  search r (String c url) = search r url.
Proof. intros H. simpl. now rewrite H. Qed.

Lemma videoIdPattern_at (s : string) (cap : option string) :
  run videoIdPattern s None (fun _ c => Some c) = Some cap ->
  exists head id after,
    In head heads /\ s = head +:+ id +:+ after /\ cap = Some id /\
    id <> "" /\ allOf idChar id = true /\
    match after with
    | String c _ => idChar c = false
    | EmptyString => True
    end.
Proof.
  unfold videoIdPattern.
  change (run (Seq ?a ?b) s None ?k)
    with (run a s None (fun s' cap' => run b s' cap' k)).
  intros H.
  assert (forall l,
            In l heads ->
            forall y, run (Lit l) s None
                        (fun s' cap' => run (Group (Many 1 idChar)) s' cap'
                                          (fun _ c => Some c)) = Some y ->
            exists head id after,
              In head heads /\ s = head +:+ id +:+ after /\ y = Some id /\
              id <> "" /\ allOf idChar id = true /\
              match after with
              | String c _ => idChar c = false
              | EmptyString => True
              end) as Hlit.
  { intros l Hl y. change (run (Lit l) s None ?k)
      with (if String.prefix l s then k (drop (String.length l) s) None else None).
    destruct (String.prefix l s) eqn:Hp; [| discriminate].
    intros Hy. apply captured_run in Hy as (id & after & -> & Hs & Hne & Hall & Hstop).
    exists l, id, after. split; [exact Hl |]. split; [| auto].
    rewrite <- Hs. now apply prefix_split. }
  change (run (Alt ?a ?b) s None ?k)
    with (match run a s None k with Some x => Some x | None => run b s None k end) in H.
  destruct (run (Lit "youtube.com/watch?v=") s None _) as [y |] eqn:H1.
  { injection H as <-. apply (Hlit _ ltac:(now left) _ H1). }
  change (run (Alt ?a ?b) s None ?k)
    with (match run a s None k with Some x => Some x | None => run b s None k end) in H.
  destruct (run (Lit "youtu.be/") s None _) as [y |] eqn:H2.
  { injection H as <-. apply (Hlit _ ltac:(right; now left) _ H2). }
  apply (Hlit _ ltac:(right; right; now left) _ H).
Qed.

Lemma run_seq {R : Type} (a b : re) (s : string) (cap : option string)
    (k : string -> option string -> option R) :
  run (Seq a b) s cap k = run a s cap (fun s' cap' => run b s' cap' k).
Proof. reflexivity. Qed.

Lemma run_alt {R : Type} (a b : re) (s : string) (cap : option string)
    (k : string -> option string -> option R) :
  run (Alt a b) s cap k =
  match run a s cap k with
  | Some x => Some x
  | None => run b s cap k
  end.
Proof. reflexivity. Qed.

Lemma run_lit {R : Type} (l s : string) (cap : option string)
    (k : string -> option string -> option R) :
  run (Lit l) s cap k =
  if String.prefix l s then k (drop (String.length l) s) cap else None.
Proof. reflexivity. Qed.

Lemma prefix_other_start (a c : ascii) (l s : string) :
  Ascii.eqb c a = false -> String.prefix (String a l) (String c s) = false.
Proof.
  intros H.
  change (String.prefix (String a l) (String c s))
    with (if ascii_dec a c then String.prefix l s else false).
  destruct (ascii_dec a c) as [-> |]; [| reflexivity].
  rewrite Ascii.eqb_refl in H. discriminate H.
Qed.

(** The group of the second pattern of the route takes part in every
    match, with a text that is not empty. *)
Lemma watchQueryPattern_at (s : string) (cap : option string) :
  run watchQueryPattern s None (fun _ c => Some c) = Some cap ->
  exists id, cap = Some id /\ id <> "".
Proof.
  unfold watchQueryPattern. intros H.
  rewrite run_seq in H.
  apply (run_post (fun y => exists id, y = Some id /\ id <> "")) in H; [exact H |].
  clear. intros s cap y H. rewrite run_seq in H.
  apply (run_post (fun y => exists id, y = Some id /\ id <> "")) in H; [exact H |].
  clear. intros s cap y H. rewrite run_seq in H.
  apply (run_post (fun y => exists id, y = Some id /\ id <> "")) in H; [exact H |].
  clear. intros s cap y H.
  apply captured_run in H as (id & after & -> & _ & Hne & _). eauto.
Qed.

Lemma search_videoIdPattern (url : string) (cap : option string) :
  search videoIdPattern url = Some cap -> exists id, cap = Some id /\ id <> "".
Proof.
  intros H. apply search_at in H as (before & s & _ & H).
  apply videoIdPattern_at in H as (head & id & after & _ & _ & -> & Hne & _).
  eauto.
Qed.

Lemma search_watchQueryPattern (url : string) (cap : option string) :
  search watchQueryPattern url = Some cap -> exists id, cap = Some id /\ id <> "".
Proof.
  intros H. apply search_at in H as (before & s & _ & H).
  now apply watchQueryPattern_at in H.
Qed.

(** A text that does not start with [y] does not start with a match of
    the pattern of [extractVideoId]. *)
Lemma videoIdPattern_needs_y {R : Type} (c : ascii) (s : string)
    (k : string -> option string -> option R) :
  Ascii.eqb c "y" = false -> run videoIdPattern (String c s) None k = None.
Proof.
  intros Hc. unfold videoIdPattern.
  rewrite run_seq, !run_alt, !run_lit, !prefix_other_start by exact Hc.
  reflexivity.
Qed.

(** X10: the video id the edge function extracts is the longest run of
    characters other than [&], a line feed, [?] and [#] that follows one
    of the three heads in the URL; it is not empty. *)
Theorem X10_video_id_is_the_run_after_the_head (url id : string) :
  extractVideoId url = Some id ->
  exists before head after,
    url = before +:+ head +:+ id +:+ after /\ In head heads /\
    id <> "" /\ allOf idChar id = true /\
    match after with
    | String c _ => idChar c = false
    | EmptyString => True
    end.
Proof.
  unfold extractVideoId.
  destruct (search videoIdPattern url) as [[found |] |] eqn:H; try discriminate.
  intros [= ->].
  apply search_at in H as (before & s & -> & H).
  apply videoIdPattern_at in H as (head & id' & after & Hhead & -> & [= <-] & Hrest).
  exists before, head, after. auto.
Qed.

(** X11: the URL that [sanitizeYouTubeUrl] builds from a video id is
    accepted by the route, and the edge function extracts the same id
    from it. *)
Theorem X11_canonical_url_gives_the_id_back (id : string) :
  id <> "" -> allOf idChar id = true ->
  isValidYouTubeUrl (canonicalUrl id) = true /\
  extractVideoId (canonicalUrl id) = Some id.
Proof.
  intros Hne Hall.
  assert (search videoIdPattern (canonicalUrl id) = Some (Some id)) as H.
  { unfold canonicalUrl.
    change ("https://www.youtube.com/watch?v=" +:+ id)
      with (String "h" (String "t" (String "t" (String "p" (String "s"
           (String ":" (String "/" (String "/" (String "w" (String "w"
           (String "w" (String "." ("youtube.com/watch?v=" +:+ id))))))))))))).
    do 12 (rewrite search_none by (now apply videoIdPattern_needs_y)).
    assert (run videoIdPattern ("youtube.com/watch?v=" +:+ id) None
              (fun _ cap => Some cap) = Some (Some id)) as Hrun.
    { unfold videoIdPattern.
      change (run (Seq ?a ?b) ?s None ?k)
        with (run a s None (fun s' cap' => run b s' cap' k)).
      change (run (Alt ?a ?b) ?s None ?k)
        with (match run a s None k with Some x => Some x | None => run b s None k end).
      change (run (Lit ?l) ?s None ?k)
        with (if String.prefix l s then k (drop (String.length l) s) None else None)
        at 1.
      rewrite prefix_append, drop_run, run_captured_run, span_allOf by exact Hall.
      destruct id as [| c id]; [contradiction |].
      change (String.length (String c id) <? 1)%nat with false.
      cbv iota. now rewrite take_all. }
    destruct id as [| c id]; [contradiction |].
    change (search videoIdPattern ("youtube.com/watch?v=" +:+ String c id))
      with (match run videoIdPattern ("youtube.com/watch?v=" +:+ String c id) None
                    (fun _ cap => Some cap) with
            | Some cap => Some cap
            | None => search videoIdPattern ("outube.com/watch?v=" +:+ String c id)
            end).
    now rewrite Hrun. }
  unfold isValidYouTubeUrl, extractVideoId, anyMatches. now rewrite H.
Qed.

(** X12: the preview page and the route agree on what a YouTube URL is:
    the page's [extractVideoId] yields a text that is not empty exactly
    for the URLs that [isValidYouTubeUrl] accepts. *)
Theorem X12_page_and_route_accept_the_same_urls (url : string) :
  isValidYouTubeUrl url = negb (String.eqb (Create.extractVideoId url) "").
Proof.
  unfold isValidYouTubeUrl, Create.extractVideoId, anyMatches, Create.firstCapture.
  destruct (search videoIdPattern url) as [cap |] eqn:H1.
  { apply search_videoIdPattern in H1 as (id & -> & Hne).
    apply String.eqb_neq in Hne. now rewrite Hne. }
  destruct (search watchQueryPattern url) as [cap |] eqn:H2.
  { apply search_watchQueryPattern in H2 as (id & -> & Hne).
    apply String.eqb_neq in Hne. now rewrite Hne. }
  reflexivity.
Qed.

(** X13: where the edge function finds a video id, the preview page
    finds the same one. *)
Theorem X13_page_finds_the_id_of_the_edge_function (url id : string) :
  extractVideoId url = Some id -> Create.extractVideoId url = id.
Proof.
  unfold extractVideoId, Create.extractVideoId, Create.firstCapture.
  destruct (search videoIdPattern url) as [[found |] |]; try discriminate.
  now intros [= ->].
Qed.

End Urls.

Lemma X10_video_id_is_the_run_after_the_head_witness :
  exists before head after,
    "https://youtu.be/abc?t=10" = before +:+ head +:+ "abc" +:+ after /\
    In head heads /\ "abc" <> "" /\ allOf Regex.idChar "abc" = true /\
    match after with
    | String c _ => Regex.idChar c = false
    | EmptyString => True
    end.
Proof.
  apply (X10_video_id_is_the_run_after_the_head "https://youtu.be/abc?t=10" "abc").
  reflexivity.
Defined.

Lemma X11_canonical_url_gives_the_id_back_witness :
  isValidYouTubeUrl (canonicalUrl "dQw4w9WgXcQ") = true /\
  extractVideoId (canonicalUrl "dQw4w9WgXcQ") = Some "dQw4w9WgXcQ".
Proof.
  apply (X11_canonical_url_gives_the_id_back "dQw4w9WgXcQ").
  - discriminate.
  - reflexivity.
Defined.

Lemma X13_page_finds_the_id_of_the_edge_function_witness :
  Create.extractVideoId "https://www.youtube.com/embed/abc#top" = "abc".
Proof.
  apply (X13_page_finds_the_id_of_the_edge_function
           "https://www.youtube.com/embed/abc#top" "abc").
  reflexivity.
Defined.

(** ** The rating route: who may write, and what *)

Section Ratings.
Import Db Handler CourseRating.
Local Open Scope string_scope.
Local Open Scope list_scope.
Local Open Scope Z_scope.

Lemma userOf_bearerUser (env : Env) (req : Request) (user : string) :
  userOf env req = Some user -> bearerUser env req = Some user.
Proof.
  unfold userOf, bearerUser.
  destruct (authorization req) as [authHeader |]; [| discriminate].
  destruct (Js.truthy_string authHeader && String.prefix "Bearer " authHeader);
    [| discriminate].
  destruct (getUser env (Regex.drop 7 authHeader)) as [u |]; [| discriminate].
  destruct (Js.truthy_string u); [now intros [= ->] | discriminate].
Qed.

Lemma bearerUser_none (env : Env) (req : Request) :
  bearerUser env req = None -> userOf env req = None.
Proof.
  intros H. destruct (userOf env req) as [user |] eqn:Hu; [| reflexivity].
  apply userOf_bearerUser in Hu. congruence.
Qed.

(** The answer has another status than 200. *)
Ltac wrong_status :=
  let H := fresh in
  intros H; cbv [statusOf answer fst status] in H; discriminate H.

(** The run has left the tables as they were and has not answered 200. *)
Ltac untouched :=
  left; split; [reflexivity |]; split; [reflexivity |];
  split; [wrong_status |];
  first [intros _; reflexivity
        | let H := fresh in intros [H | H]; congruence].

(** What a request to the route does to [user_course_ratings]: nothing,
    the upsert of the caller's rating of the course, or the removal of the
    caller's ratings of the course; the last two when it answers 200 to a
    POST and to a DELETE. *)
Lemma handler_ratings (env : Env) (req : Request) (w : World) :
  let w' := snd (handler env req w) in
  (user_course_ratings w' = user_course_ratings w /\
   courses w' = courses w /\
   (statusOf (handler env req w) = 200 -> method req = "GET") /\
   (bearerUser env req = None \/ method req <> "POST" -> w' = w))
  \/ (exists courseId user,
        method req = "POST" /\ id req = QString courseId /\
        Js.truthy_string courseId = true /\
        bearerUser env req = Some user /\
        statusOf (handler env req w) = 200 /\
        courses w' = courses w /\
        user_course_ratings w' =
          replaceOrAdd Rating.sameKey (ratingData req user courseId)
            (user_course_ratings w))
  \/ (exists courseId user,
        method req = "DELETE" /\ id req = QString courseId /\
        Js.truthy_string courseId = true /\
        bearerUser env req = Some user /\
        handler env req w =
          (Return (mkResponse 200 (JObj [("success", JBool true)])),
           setRatings
             (filter (fun r =>
                negb (String.eqb (Rating.user_id r) user
                      && String.eqb (Rating.course_id r) courseId) = true))
             w)).
Proof.
  cbv zeta. remember (handler env req w) as r eqn:Hr. unfold handler in Hr.
  destruct (id req) as [| courseId | values] eqn:Hid;
    [subst r; untouched | | subst r; untouched].
  destruct (Js.truthy_string courseId) eqn:Hcourse;
    [change (negb true) with false in Hr; cbv beta iota in Hr | subst r; untouched].
  destruct (String.eqb (method req) "POST") eqn:Hpost.
  { apply String.eqb_eq in Hpost. unfold submit in Hr.
    destruct (invalidRating env (rating req)); [subst r; untouched |].
    destruct (userOf env req) as [user |] eqn:Huser; [| subst r; untouched].
    apply userOf_bearerUser in Huser.
    unfold bind at 1, courseExists, read in Hr. cbv beta iota in Hr.
    match type of Hr with
    | context [negb (courseError env) && ?found] =>
        destruct (negb (courseError env) && found)
    end;
      [change (negb true) with false in Hr | change (negb false) with true in Hr];
      cbv beta iota in Hr; [| subst r; untouched].
    unfold bind at 1, upsertRating, bind at 1, modify in Hr.
    destruct (insertError env); [subst r; untouched |].
    unfold bind, read, modify, ret, upsertRows in Hr. simpl in Hr.
    destruct (ratings_unique_index w); simpl in Hr; [| subst r; untouched].
    right. left. exists courseId, user. subst r. repeat split; assumption. }
  destruct (String.eqb (method req) "GET") eqn:Hget.
  { apply String.eqb_eq in Hget. left. unfold retrieve in Hr.
    destruct (statsError env); [| destruct (stats env courseId)];
      subst r; repeat split; auto. }
  destruct (String.eqb (method req) "DELETE") eqn:Hdelete; [| subst r; untouched].
  apply String.eqb_eq in Hdelete. unfold remove in Hr. unfold bearerUser.
  destruct (authorization req) as [authHeader |]; [| subst r; untouched].
  destruct (Js.truthy_string authHeader && String.prefix "Bearer " authHeader);
    [| subst r; untouched].
  destruct (getUser env (Regex.drop 7 authHeader)) as [user |]; [| subst r; untouched].
  destruct (deleteError env); [subst r; untouched |].
  right. right. exists courseId, user. subst r. repeat split; try assumption.
Qed.

Lemma handler_delete (env : Env) (req : Request) (w : World)
    (courseId user : string) :
  method req = "DELETE" -> id req = QString courseId ->
  Js.truthy_string courseId = true ->
  bearerUser env req = Some user -> deleteError env = false ->
  handler env req w =
    (Return (mkResponse 200 (JObj [("success", JBool true)])),
     setRatings
       (filter (fun r =>
          negb (String.eqb (Rating.user_id r) user
                && String.eqb (Rating.course_id r) courseId) = true))
       w).
Proof.
  intros Hm Hid Hcourse Huser Hdel. unfold handler, remove.
  rewrite Hid, Hcourse, Hm. change (negb true) with false. cbv beta iota.
  change (String.eqb "DELETE" "POST") with false.
  change (String.eqb "DELETE" "GET") with false.
  change (String.eqb "DELETE" "DELETE") with true. cbv iota.
  unfold bearerUser in Huser.
  destruct (authorization req) as [authHeader |]; [| discriminate].
  destruct (Js.truthy_string authHeader && String.prefix "Bearer " authHeader);
    [| discriminate].
  rewrite Huser, Hdel. reflexivity.
Qed.

(** The rows a DELETE leaves: those of other users or other courses. *)
Lemma kept_iff (user courseId : string) (rows : list Rating.t) (r : Rating.t) :
  In r (filter (fun r =>
          negb (String.eqb (Rating.user_id r) user
                && String.eqb (Rating.course_id r) courseId) = true) rows) <->
  In r rows /\ Rating.key r <> (user, courseId).
Proof.
  rewrite <- !list_elem_of_In, list_elem_of_filter, negb_true_iff.
  rewrite andb_false_iff, !String.eqb_neq. unfold Rating.key.
  split.
  - intros [Hk Hin]. split; [exact Hin |]. intros [= Hu Hc]. tauto.
  - intros [Hin Hk]. split; [| exact Hin].
    destruct (String.eqb_spec (Rating.user_id r) user) as [Hu |]; [| tauto].
    right. intros Hc. apply Hk. now rewrite Hu, Hc.
Qed.

Lemma kept_all (user courseId : string) (rows : list Rating.t) :
  (forall r, In r rows -> Rating.key r <> (user, courseId)) ->
  filter (fun r =>
    negb (String.eqb (Rating.user_id r) user
          && String.eqb (Rating.course_id r) courseId) = true) rows = rows.
Proof.
  induction rows as [| r rows IH]; intros H; [reflexivity |].
  rewrite filter_cons_True.
  - rewrite IH; [reflexivity |]. intros x Hx. apply H. now right.
  - apply negb_true_iff, andb_false_iff. rewrite !String.eqb_neq.
    specialize (H r ltac:(now left)). unfold Rating.key in H.
    destruct (String.eqb_spec (Rating.user_id r) user) as [Hu |]; [| tauto].
    right. intros Hc. apply H. now rewrite Hu, Hc.
Qed.

Lemma statusOf_delete (w : World) :
  statusOf (Return (mkResponse 200 (JObj [("success", JBool true)])), w) = 200.
Proof. reflexivity. Qed.

(** X14: a DELETE from a signed-in user is answered 200 and removes the
    caller's rating of the course in the URL and nothing else: the rows
    left are those of other users or of other courses; the other tables
    stay as they were. *)
Theorem X14_delete_removes_the_callers_rating (env : Env) (req : Request)
    (w : World) (courseId user : string) :
  method req = "DELETE" -> id req = QString courseId ->
  Js.truthy_string courseId = true ->
  bearerUser env req = Some user -> deleteError env = false ->
  exists w',
    handler env req w =
      (Return (mkResponse 200 (JObj [("success", JBool true)])), w') /\
    (forall r, In r (user_course_ratings w') <->
               In r (user_course_ratings w) /\ Rating.key r <> (user, courseId)) /\
    courses w' = courses w /\ questions w' = questions w /\ calls w' = calls w.
Proof.
  intros Hm Hid Hcourse Huser Hdel.
  rewrite (handler_delete env req w courseId user Hm Hid Hcourse Huser Hdel).
  eexists. split; [reflexivity |]. split; [| now simpl].
  intros r. apply kept_iff.
Qed.

(** X15: a request without a signed-in user, and a request whose method
    is neither POST nor DELETE, leaves the database as it was; without a
    signed-in user only a GET is answered 200. *)
Theorem X15_no_write_without_sign_in (env : Env) (req : Request) (w : World) :
  bearerUser env req = None \/ (method req <> "POST" /\ method req <> "DELETE") ->
  snd (handler env req w) = w /\
  (statusOf (handler env req w) = 200 -> method req = "GET").
Proof.
  intros H.
  destruct (handler_ratings env req w)
    as [(_ & _ & Hstatus & Hsame)
       | [(courseId & user & Hm & _ & _ & Huser & _)
         | (courseId & user & Hm & _ & _ & Huser & _)]].
  - split; [| exact Hstatus]. apply Hsame. tauto.
  - exfalso. destruct H as [H | [H _]]; congruence.
  - exfalso. destruct H as [H | [_ H]]; congruence.
Qed.

(** X16: a rating that a user submits and then deletes leaves no trace in
    [user_course_ratings]: when the user had no rating of the course, the
    table after the POST and the DELETE, both answered 200, is the table
    before. *)
Theorem X16_submit_then_delete_restores_the_table (env : Env)
    (post delete : Request) (w : World) :
  method post = "POST" -> method delete = "DELETE" ->
  id delete = id post -> authorization delete = authorization post ->
  statusOf (handler env post w) = 200 ->
  statusOf (handler env delete (snd (handler env post w))) = 200 ->
  (forall user courseId r,
     bearerUser env post = Some user -> id post = QString courseId ->
     In r (user_course_ratings w) -> Rating.key r <> (user, courseId)) ->
  user_course_ratings (snd (handler env delete (snd (handler env post w)))) =
  user_course_ratings w.
Proof.
  intros Hpost Hdelete Hid Hauth Hs1 Hs2 Hnone.
  assert (bearerUser env delete = bearerUser env post) as Hsame
    by (unfold bearerUser; now rewrite Hauth).
  destruct (handler_ratings env post w)
    as [(_ & _ & Hstatus & _)
       | [(courseId & user & _ & Hidp & _ & Huser & _ & _ & Hrows)
         | (courseId & user & Hm & _)]];
    [specialize (Hstatus Hs1); congruence | | congruence].
  destruct (handler_ratings env delete (snd (handler env post w)))
    as [(_ & _ & Hstatus & _)
       | [(courseId' & user' & Hm & _)
         | (courseId' & user' & _ & Hidd & _ & Huser' & Hrun)]];
    [specialize (Hstatus Hs2); congruence | congruence |].
  assert (courseId' = courseId) as -> by congruence.
  assert (user' = user) as -> by congruence.
  rewrite Hrun. simpl. rewrite Hrows.
  assert (existsb (Rating.sameKey (ratingData post user courseId))
            (user_course_ratings w) = false) as Hex.
  { destruct (existsb _ (user_course_ratings w)) eqn:Hex; [| reflexivity].
    apply existsb_exists in Hex as (r & Hr & Hk).
    apply rating_sameKey_iff in Hk.
    exfalso. apply (Hnone user courseId r Huser Hidp Hr). now rewrite <- Hk. }
  unfold replaceOrAdd. rewrite Hex, filter_app, kept_all.
  - rewrite filter_cons_False, filter_nil; [apply app_nil_r |].
    simpl. rewrite !String.eqb_refl. simpl. discriminate.
  - intros r Hr. exact (Hnone user courseId r Huser Hidp Hr).
Qed.

(** X17: the tables change only with an answer 200: a request that is
    answered with another status leaves [user_course_ratings] and
    [courses] as they were. *)
Theorem X17_refused_request_keeps_the_ratings (env : Env) (req : Request)
    (w : World) :
  statusOf (handler env req w) <> 200 ->
  user_course_ratings (snd (handler env req w)) = user_course_ratings w /\
  courses (snd (handler env req w)) = courses w.
Proof.
  intros Hstatus.
  destruct (handler_ratings env req w)
    as [(Hrows & Hcourses & _)
       | [(courseId & user & _ & _ & _ & _ & H200 & _)
         | (courseId & user & _ & _ & _ & _ & Hrun)]].
  - now split.
  - contradiction.
  - rewrite Hrun in Hstatus. now rewrite statusOf_delete in Hstatus.
Qed.

(** X18: a request touches no rating but the caller's own rating of the
    course in the URL: every other row is in the table after the request
    exactly when it was there before. *)
Theorem X18_other_ratings_are_untouched (env : Env) (req : Request)
    (w : World) (x : Rating.t) :
  (forall user courseId,
     bearerUser env req = Some user -> id req = QString courseId ->
     Rating.key x <> (user, courseId)) ->
  In x (user_course_ratings (snd (handler env req w))) <->
  In x (user_course_ratings w).
Proof.
  intros Hother.
  destruct (handler_ratings env req w)
    as [(Hrows & _)
       | [(courseId & user & _ & Hid & _ & Huser & _ & _ & Hrows)
         | (courseId & user & _ & Hid & _ & Huser & Hrun)]].
  - now rewrite Hrows.
  - rewrite Hrows.
    apply (replaceOrAdd_others Rating.key Rating.sameKey rating_sameKey_iff).
    destruct (Rating.sameKey (ratingData req user courseId) x) eqn:Hk;
      [| reflexivity].
    apply rating_sameKey_iff in Hk.
    exfalso. apply (Hother user courseId Huser Hid). now rewrite <- Hk.
  - rewrite Hrun. simpl. rewrite kept_iff.
    specialize (Hother user courseId Huser Hid). tauto.
Qed.

End Ratings.

Lemma X14_delete_removes_the_callers_rating_witness :
  exists w',
    CourseRating.handler Sample.ratingEnv deleteRequest twoRatingsWorld =
      (Handler.Return (Handler.mkResponse 200 (Db.JObj [("success", Db.JBool true)])),
       w') /\
    (forall r, In r (Db.user_course_ratings w') <->
               In r (Db.user_course_ratings twoRatingsWorld) /\
               Db.Rating.key r <> ("user-of-token-1", "course-0")) /\
    Db.courses w' = Db.courses twoRatingsWorld /\
    Db.questions w' = Db.questions twoRatingsWorld /\
    Db.calls w' = Db.calls twoRatingsWorld.
Proof.
  apply (X14_delete_removes_the_callers_rating Sample.ratingEnv deleteRequest
           twoRatingsWorld "course-0" "user-of-token-1");
    reflexivity.
Defined.

Lemma X15_no_write_without_sign_in_witness :
  snd (CourseRating.handler Sample.ratingEnv anonymousRequest Sample.ratedWorld) =
    Sample.ratedWorld /\
  (statusOf (CourseRating.handler Sample.ratingEnv anonymousRequest Sample.ratedWorld)
     = 200%Z ->
   CourseRating.method anonymousRequest = "GET").
Proof.
  apply (X15_no_write_without_sign_in Sample.ratingEnv anonymousRequest
           Sample.ratedWorld).
  left. reflexivity.
Defined.

Lemma X16_submit_then_delete_restores_the_table_witness :
  Db.user_course_ratings
    (snd (CourseRating.handler Sample.ratingEnv deleteRequest
            (snd (CourseRating.handler Sample.ratingEnv
                    (Sample.ratingRequest (Some (Db.JInt 4))) Sample.cachedWorld)))) =
  Db.user_course_ratings Sample.cachedWorld.
Proof.
  apply (X16_submit_then_delete_restores_the_table Sample.ratingEnv
           (Sample.ratingRequest (Some (Db.JInt 4))) deleteRequest Sample.cachedWorld).
  - reflexivity.
  - reflexivity.
  - reflexivity.
  - reflexivity.
  - reflexivity.
  - reflexivity.
  - intros user courseId r _ _ [].
Defined.

Lemma X17_refused_request_keeps_the_ratings_witness :
  Db.user_course_ratings
    (snd (CourseRating.handler Sample.ratingEnv anonymousRequest Sample.ratedWorld)) =
  Db.user_course_ratings Sample.ratedWorld /\
  Db.courses
    (snd (CourseRating.handler Sample.ratingEnv anonymousRequest Sample.ratedWorld)) =
  Db.courses Sample.ratedWorld.
Proof.
  apply (X17_refused_request_keeps_the_ratings Sample.ratingEnv anonymousRequest
           Sample.ratedWorld).
  vm_compute. discriminate.
Defined.

Lemma X18_other_ratings_are_untouched_witness :
  In otherRating
    (Db.user_course_ratings
       (snd (CourseRating.handler Sample.ratingEnv deleteRequest twoRatingsWorld))) <->
  In otherRating (Db.user_course_ratings twoRatingsWorld).
Proof.
  apply (X18_other_ratings_are_untouched Sample.ratingEnv deleteRequest
           twoRatingsWorld otherRating).
  intros user courseId Huser Hid. vm_compute in Huser.
  injection Huser as <-. injection Hid as <-. discriminate.
Defined.

(** ** The analyze route: checks, cache, course and hand-off *)

Section Analyze.
Import Db Handler AnalyzeVideoSmart.
Local Open Scope string_scope.
Local Open Scope list_scope.
Local Open Scope Z_scope.

(** The route after its checks. *)
Lemma handler_checked (env : Env) (req : Request) (w : World) :
  method req = "POST" ->
  given (youtube_url req) = true -> given (session_id req) = true ->
  isValidYouTubeUrl (text (youtube_url req)) = true ->
  handler env req w =
  tryCatch
    (bind (prepare env req (text (youtube_url req)) (text (session_id req)))
       (fun created =>
          let '(course_id, videoTitle, videoDescription) := created in
          bind (initialize env req course_id (text (youtube_url req))
                  (text (session_id req)))
               (finish env course_id (text (session_id req)) videoTitle
                  videoDescription)))
    (recover env req) w.
Proof.
  intros Hpost Hurl Hsession Hvalid. unfold handler. rewrite Hpost.
  change (negb (String.eqb "POST" "POST")) with false. cbv iota.
  unfold process. rewrite Hurl, Hsession, Hvalid. reflexivity.
Qed.

(** A request that fails the checks of the route is answered at once. *)
Lemma handler_rejected (env : Env) (req : Request) (w : World) :
  method req <> "POST" \/ given (youtube_url req) = false \/
  given (session_id req) = false \/
  isValidYouTubeUrl (text (youtube_url req)) = false ->
  exists resp,
    handler env req w = (Return resp, w) /\
    (status resp = 405 \/ status resp = 400) /\
    (status resp = 405 <-> method req <> "POST").
Proof.
  intros H. unfold handler.
  destruct (String.eqb_spec (method req) "POST") as [Hpost | Hpost]; simpl negb;
    cbv iota.
  2: { eexists. split; [reflexivity |]. split; [now left |]. now split. }
  destruct H as [H | H]; [contradiction |].
  assert (forall resp : Response, status resp = 400 ->
            (status resp = 405 \/ status resp = 400) /\
            (status resp = 405 <-> method req <> "POST")) as Hbad.
  { intros resp H400. split; [now right |]. rewrite H400. split; [discriminate |].
    contradiction. }
  unfold process, tryCatch.
  destruct (given (youtube_url req)); simpl negb; simpl orb; cbv iota.
  2: { eexists. split; [reflexivity |]. now apply Hbad. }
  destruct (given (session_id req)); simpl negb; cbv iota.
  2: { eexists. split; [reflexivity |]. now apply Hbad. }
  destruct (isValidYouTubeUrl (text (youtube_url req))); simpl negb; cbv iota.
  2: { eexists. split; [reflexivity |]. now apply Hbad. }
  destruct H as [H | [H | H]]; discriminate H.
Qed.

(** X19: a request that fails the checks of the route (its method is not
    POST, [youtube_url] or [session_id] is missing, or the URL is not
    accepted) is answered 405 or 400 and has no effect; the answer is 405
    exactly for a method that is not POST. *)
Theorem X19_rejected_request_has_no_effect (env : Env) (req : Request) (w : World) :
  method req <> "POST" \/ given (youtube_url req) = false \/
  given (session_id req) = false \/
  isValidYouTubeUrl (text (youtube_url req)) = false ->
  exists resp,
    handler env req w = (Return resp, w) /\
    (status resp = 405 \/ status resp = 400) /\
    (status resp = 405 <-> method req <> "POST").
Proof. apply handler_rejected. Qed.

Lemma sorted_suffix {A : Type} (R : A -> A -> Prop) (before l : list A) :
  StronglySorted R (before ++ l) -> StronglySorted R l.
Proof.
  induction before as [| x before IH]; simpl; [auto |].
  intros H. apply StronglySorted_inv in H as [H _]. auto.
Qed.

Lemma insertByDate_sorted (c : Course.t) (sorted : list Course.t) :
  StronglySorted notOlder sorted -> StronglySorted notOlder (insertByDate c sorted).
Proof.
  induction sorted as [| d rest IH]; intros Hs; simpl.
  - repeat constructor.
  - apply StronglySorted_inv in Hs as [Hrest Hd].
    destruct (Z.ltb_spec (Course.created_at d) (Course.created_at c)).
    + constructor; [now constructor |]. constructor; [unfold notOlder; lia |].
      eapply Forall_impl; [exact Hd |]. unfold notOlder. intros x Hx. lia.
    + constructor; [now apply IH |].
      apply Forall_forall. intros x Hx. apply list_elem_of_In in Hx.
      apply insertByDate_In in Hx as [-> | Hx]; [unfold notOlder; lia |].
      rewrite Forall_forall in Hd. apply Hd. now apply list_elem_of_In.
Qed.

Lemma newestFirst_sorted (rows : list Course.t) :
  StronglySorted notOlder (newestFirst rows).
Proof.
  unfold newestFirst. induction rows as [| c rows IH]; simpl; [constructor |].
  now apply insertByDate_sorted.
Qed.

(** The loop over the stored courses answers with the first course that
    has a question: the courses before it have none. *)
Lemma firstWithQuestions_first (env : Env) (existingCourses : list Course.t)
    (w : World) (c : Course.t) :
  firstWithQuestions env existingCourses w = (Val (Some c), w) ->
  exists before after,
    existingCourses = before ++ c :: after /\
    forall d, In d before ->
      questionsError env (Course.id d) = true \/
      forall q, In q (questions w) -> Question.course_id q <> Course.id d.
Proof.
  induction existingCourses as [| x rest IH]; simpl; [discriminate |].
  unfold bind, selectQuestions, read.
  assert (firstWithQuestions env rest w = (Val (Some c), w) ->
          (questionsError env (Course.id x) = true \/
           forall q, In q (questions w) -> Question.course_id q <> Course.id x) ->
          exists before after,
            x :: rest = before ++ c :: after /\
            forall d, In d before ->
              questionsError env (Course.id d) = true \/
              forall q, In q (questions w) -> Question.course_id q <> Course.id d)
    as Hnext.
  { intros Hrun Hx. destruct (IH Hrun) as (before & after & -> & Hbefore).
    exists (x :: before), after. split; [reflexivity |].
    intros d [<- | Hd]; [exact Hx | now apply Hbefore]. }
  destruct (questionsError env (Course.id x)) eqn:Herr.
  - intros Hrun. apply Hnext; [exact Hrun | now left].
  - destruct (filter (fun q => String.eqb (Question.course_id q) (Course.id x) = true)
                (questions w)) as [| q found] eqn:Hfound; simpl.
    + intros Hrun. apply Hnext; [exact Hrun |]. right. intros q Hq Heq.
      assert (q ∈ filter (fun q => String.eqb (Question.course_id q) (Course.id x) = true)
                (questions w)) as Hin.
      { apply list_elem_of_filter. split; [now apply String.eqb_eq |].
        now apply list_elem_of_In. }
      rewrite Hfound in Hin. inversion Hin.
    + intros [= <-]. exists [], rest. split; [reflexivity |]. intros d [].
Qed.

(** The course the cache answers with is the newest of the stored courses
    of the same sanitized URL that have a question. *)
Lemma checkCache_newest (env : Env) (req : Request) (u s : string) (w : World)
    (resp : Response) :
  fst (checkCache env req u s w) = Return resp ->
  exists existing,
    get "course_id" (body resp) = Some (JStr (Course.id existing)) /\
    In existing (courses w) /\
    forall d q,
      In d (courses w) -> Course.youtube_url d = sanitizeYouTubeUrl env u ->
      questionsError env (Course.id d) = false ->
      In q (questions w) -> Question.course_id q = Course.id d ->
      Course.created_at d <= Course.created_at existing.
Proof.
  unfold checkCache.
  destruct (optBool (useCache req) true && negb (given (course_id req)));
    [| discriminate].
  unfold bind, selectCourses, read.
  destruct (cacheError env); [discriminate |].
  pose proof (newestFirst_sorted
                (filter (fun c => String.eqb (Course.youtube_url c)
                                    (sanitizeYouTubeUrl env u) = true) (courses w)))
    as Hsorted.
  pose proof (fun x => selected_In (sanitizeYouTubeUrl env u) x (courses w)) as Hrows.
  set (rows := newestFirst _) in *.
  destruct rows as [| c rest] eqn:Hlist; [discriminate |].
  destruct (firstWithQuestions_spec env (c :: rest) w) as (hit & Hrun & Hhit).
  rewrite Hrun. destruct hit as [existing |]; [| discriminate].
  simpl. intros [= <-]. exists existing. split; [reflexivity |].
  destruct Hhit as (Hin & _). split; [now apply Hrows in Hin |].
  intros d q Hd Hurl Herr Hq Hqd.
  apply firstWithQuestions_first in Hrun as (before & after & Hsplit & Hbefore).
  assert (In d (c :: rest)) as Hdin by (apply Hrows; auto).
  rewrite Hsplit in Hdin, Hsorted.
  apply in_app_or in Hdin as [Hdin | [<- | Hdin]].
  - destruct (Hbefore d Hdin) as [Hbad | Hbad]; [congruence |].
    now destruct (Hbad q Hq Hqd).
  - lia.
  - apply sorted_suffix in Hsorted.
    apply StronglySorted_inv in Hsorted as [_ Hall].
    rewrite Forall_forall in Hall. apply Hall. now apply list_elem_of_In.
Qed.

(** X20: the cache answers with the newest course: when several stored
    courses of the sanitized URL have a question, the answer names one
    that is not older than any of them. *)
Theorem X20_cache_answers_with_the_newest_course (env : Env) (req : Request)
    (w : World) (c : Course.t) (q : Question.t) :
  method req = "POST" ->
  given (youtube_url req) = true -> given (session_id req) = true ->
  isValidYouTubeUrl (text (youtube_url req)) = true ->
  optBool (useCache req) true = true -> given (course_id req) = false ->
  cacheError env = false -> questionsError env (Course.id c) = false ->
  In c (courses w) ->
  Course.youtube_url c = sanitizeYouTubeUrl env (text (youtube_url req)) ->
  In q (questions w) -> Question.course_id q = Course.id c ->
  exists resp existing,
    handler env req w = (Return resp, w) /\
    get "course_id" (body resp) = Some (JStr (Course.id existing)) /\
    In existing (courses w) /\
    Course.created_at c <= Course.created_at existing.
Proof.
  intros Hpost Hurl Hsession Hvalid Hcache Hnoid Hcerr Hqerr Hc Hcu Hq Hqc.
  pose proof (checkCache_hit env req (text (youtube_url req)) (text (session_id req))
                w c q Hcache Hnoid Hcerr Hc Hcu Hqerr Hq Hqc) as Hhit.
  destruct (checkCache_spec env req (text (youtube_url req)) (text (session_id req)) w)
    as [Hw [Hmiss | (c' & resp & Hret & _)]]; [contradiction |].
  destruct (checkCache_newest env req _ _ w resp Hret)
    as (existing & Hid & Hin & Hnewest).
  exists resp, existing. split; [| split; [exact Hid | split; [exact Hin |]]].
  - rewrite handler_checked by assumption.
    destruct (checkCache env req (text (youtube_url req)) (text (session_id req)) w)
      as [res w0] eqn:Hrun. simpl in Hw, Hret. subst.
    unfold tryCatch, bind, prepare, bind. now rewrite Hrun.
  - exact (Hnewest c q Hc Hcu Hqerr Hq Hqc).
Qed.

(** The request passes the checks of the route, or it is answered at
    once. *)
Lemma handler_paths (env : Env) (req : Request) (w : World) :
  (exists resp, handler env req w = (Return resp, w) /\
                (status resp = 405 \/ status resp = 400))
  \/ (method req = "POST" /\ given (youtube_url req) = true /\
      given (session_id req) = true /\
      isValidYouTubeUrl (text (youtube_url req)) = true).
Proof.
  destruct (String.eqb_spec (method req) "POST") as [Hpost | Hpost].
  2: { left. destruct (handler_rejected env req w) as (resp & Hrun & Hstatus & _);
         eauto. }
  destruct (given (youtube_url req)) eqn:Hurl.
  2: { left. destruct (handler_rejected env req w) as (resp & Hrun & Hstatus & _);
         eauto. }
  destruct (given (session_id req)) eqn:Hsession.
  2: { left. destruct (handler_rejected env req w) as (resp & Hrun & Hstatus & _);
         eauto. }
  destruct (isValidYouTubeUrl (text (youtube_url req))) eqn:Hvalid.
  2: { left. destruct (handler_rejected env req w) as (resp & Hrun & Hstatus & _);
         eauto 6. }
  right. auto.
Qed.

Lemma tryCatch_bind_val {A B : Type} (m : Prog A) (k : A -> Prog B)
    (h : Error -> Prog B) (w w1 : World) (x : A) :
  m w = (Val x, w1) -> tryCatch (bind m k) h w = tryCatch (k x) h w1.
Proof. intros H. unfold tryCatch, bind. now rewrite H. Qed.

Lemma tryCatch_bind_return {A B : Type} (m : Prog A) (k : A -> Prog B)
    (h : Error -> Prog B) (w w1 : World) (resp : Response) :
  m w = (Return resp, w1) -> tryCatch (bind m k) h w = (Return resp, w1).
Proof. intros H. unfold tryCatch, bind. now rewrite H. Qed.

Lemma courseInserts_app (l1 l2 : list Call) :
  courseInserts (l1 ++ l2) = courseInserts l1 ++ courseInserts l2.
Proof.
  induction l1 as [| c l1 IH]; simpl; [reflexivity |].
  destruct c; simpl; now rewrite IH.
Qed.

(** What the route has done when it is about to call the edge function,
    and when it has answered before: the course it goes on with, the
    course it has inserted, and the row of progress it has written. *)
Lemma prepare_outcome (env : Env) (req : Request) (u s : string) (w : World) :
  match prepare env req u s w with
  | (Val (c, _, _), w1) =>
      c = (if given (course_id req) then text (course_id req) else newCourseId env) /\
      exists inserted row,
        calls w1 = calls w ++ inserted ++ [UpsertProgress row] /\
        initRequests inserted = O /\
        Forall (fun c => marksFailed c = false) inserted /\
        Progress.stage row = "initialization" /\
        Progress.course_id row = c /\ Progress.session_id row = s /\
        courses w1 = courses w ++ courseInserts inserted /\
        (if given (course_id req) then inserted = []
         else courseError env = None /\
              exists course,
                courseInserts inserted = [course] /\
                Course.id course = newCourseId env /\
                Course.youtube_url course = sanitizeYouTubeUrl env u /\
                Course.published course = false)
  | (Return resp, w1) =>
      courses w1 = courses w /\
      quiz_generation_progress w1 = quiz_generation_progress w /\
      exists inserted,
        calls w1 = calls w ++ inserted /\ initRequests inserted = O /\
        ((inserted = [] /\ status resp = 200) \/
         (given (course_id req) = false /\ status resp = 500 /\
          exists msg course,
            courseError env = Some msg /\ inserted = [InsertCourse course] /\
            Course.id course = newCourseId env /\
            Course.youtube_url course = sanitizeYouTubeUrl env u /\
            Course.published course = false))
  | (Throw _, _) => False
  | (Loops, _) => False
  end.
Proof.
  unfold prepare, bind at 1.
  destruct (checkCache_spec env req u s w) as [Hw Hfst].
  destruct (checkCache env req u s w) as [res w0]. simpl in Hw, Hfst. subst w0.
  destruct Hfst as [-> | (c & resp & -> & _ & _ & _ & Hstatus & _)].
  2: { split; [reflexivity |]. split; [reflexivity |].
       exists []. rewrite app_nil_r. auto. }
  unfold bind at 1.
  destruct (given (course_id req)) eqn:Hgiven; simpl negb; cbv iota.
  - unfold ret, bind, upsertProgress, modify. simpl.
    split; [reflexivity |]. eexists [], _. simpl.
    rewrite app_nil_r. repeat split; constructor.
  - unfold createCourse, bind at 1, modify.
    destruct (courseError env) as [msg |].
    + simpl. split; [reflexivity |]. split; [reflexivity |].
      eexists [_]. split; [reflexivity |]. split; [reflexivity |]. right.
      split; [reflexivity |]. split; [reflexivity |].
      eexists _, _. repeat split; reflexivity.
    + unfold bind, modify, when, ret, upsertProgress.
      destruct (given (userOf env req)); simpl; rewrite <- ?app_assoc; simpl.
      * split; [reflexivity |]. eexists [_; _], _. simpl.
        split; [reflexivity |]. repeat split; try reflexivity.
        -- repeat constructor.
        -- eexists. repeat split; reflexivity.
      * split; [reflexivity |]. eexists [_], _. simpl.
        split; [reflexivity |]. repeat split; try reflexivity.
        -- repeat constructor.
        -- eexists. repeat split; reflexivity.
Qed.

Lemma describe_ids (course_id description : string) (rows : list Course.t) :
  map Course.id (map (describe course_id description) rows) = map Course.id rows.
Proof.
  rewrite map_map. apply map_ext. intros c. unfold describe.
  now destruct (String.eqb (Course.id c) course_id).
Qed.

(** What the hand-off does: it sends the request to the edge function
    with the course id the route goes on with, inserts no course and
    keeps the ids of the stored courses; the answers 200 name the course
    and the session of the request sent. *)
Lemma hand_off_outcome (env : Env) (req : Request) (c t d u s : string) (w1 : World) :
  let run :=
    tryCatch (bind (initialize env req c u s) (finish env c s t d))
      (recover env req) w1 in
  exists rest,
    calls (snd run) = calls w1 ++ CallInit 0 (initBody req c u s) :: rest /\
    courseInserts rest = [] /\
    map Course.id (courses (snd run)) = map Course.id (courses w1) /\
    exists resp,
      answer run = Some resp /\
      (status resp = 200 ->
       get "course_id" (body resp) = Some (JStr c) /\
       get "session_id" (body resp) = Some (JStr s)) /\
      (forall e, initFetch env 0 = InitThrows e ->
         String.eqb (name e) "AbortError" = false ->
         resp = mkResponse 500
                  (JObj [("success", JBool false); ("error", JStr (message e))]) /\
         if given (session_id req) && given (course_id req)
         then exists row,
           rest = [UpsertProgress row] /\ Progress.stage row = "failed" /\
           Progress.course_id row = text (course_id req) /\
           Progress.session_id row = text (session_id req)
         else rest = []).
Proof.
  cbv zeta.
  remember (tryCatch (bind (initialize env req c u s) (finish env c s t d))
              (recover env req) w1) as run eqn:Hrun.
  unfold tryCatch at 1, bind at 1, initialize, tryCatch, bind, modify,
    upsertProgress, bind, modify, throw in Hrun.
  destruct (initFetch env 0) as [initResult | errorText | e]; simpl in Hrun.
  - unfold finish in Hrun.
    destruct (truthyJson (get "segmented" initResult)).
    + unfold segmentedAnswer, bind, upsertProgress, bind, modify in Hrun.
      simpl in Hrun. rewrite <- ?app_assoc in Hrun. simpl in Hrun. subst run. simpl. rewrite <- ?app_assoc. simpl.
      eexists [_; _]. split; [reflexivity |]. split; [reflexivity |].
      split; [reflexivity |]. eexists. split; [reflexivity |].
      split; [intros _; split; reflexivity | discriminate].
    + unfold plainAnswer, bind, fetchCourse, read, modify in Hrun.
      destruct (truthyJson (videoSummary initResult)); simpl in Hrun; subst run; simpl; rewrite <- ?app_assoc; simpl;
        (eexists []; split; [reflexivity |]; split; [reflexivity |];
         split; [simpl; rewrite ?describe_ids; reflexivity |];
         eexists; split; [reflexivity |];
         split; [intros _; split; reflexivity | discriminate]).
  - rewrite <- ?app_assoc in Hrun. simpl in Hrun. subst run. simpl. rewrite <- ?app_assoc. simpl.
    eexists [_]. split; [reflexivity |]. split; [reflexivity |].
    split; [reflexivity |]. eexists. split; [reflexivity |].
    split; [discriminate | discriminate].
  - destruct (String.eqb (name e) "AbortError") eqn:Hname; simpl in Hrun.
    + rewrite <- ?app_assoc in Hrun. simpl in Hrun. subst run. simpl. rewrite <- ?app_assoc. simpl.
      eexists [_]. split; [reflexivity |]. split; [reflexivity |].
      split; [reflexivity |]. eexists. split; [reflexivity |].
      split; [intros _; split; reflexivity |].
      intros e' [= <-] Hne. congruence.
    + unfold recover, bind, when, upsertProgress, bind, modify, ret in Hrun.
      destruct (given (session_id req) && given (course_id req)); simpl in Hrun.
      * rewrite <- ?app_assoc in Hrun. simpl in Hrun. subst run. simpl. rewrite <- ?app_assoc. simpl.
        eexists [_]. split; [reflexivity |]. split; [reflexivity |].
        split; [reflexivity |]. eexists. split; [reflexivity |].
        split; [discriminate |].
        intros e' [= <-] _. split; [reflexivity |].
        eexists. repeat split; reflexivity.
      * subst run. simpl. rewrite <- ?app_assoc. simpl.
        eexists []. split; [reflexivity |]. split; [reflexivity |].
        split; [reflexivity |]. eexists. split; [reflexivity |].
        split; [discriminate |].
        intros e' [= <-] _. split; reflexivity.
Qed.

(** The three ways of a run of the route: the request fails the checks;
    it is answered while the course is prepared (from the cache, or
    because the insert of the course is refused); the request is handed
    off to the edge function. *)
Lemma handler_outcome (env : Env) (req : Request) (w : World) :
  (exists resp, handler env req w = (Return resp, w) /\
                (status resp = 405 \/ status resp = 400))
  \/ (exists resp w1,
        prepare env req (text (youtube_url req)) (text (session_id req)) w =
          (Return resp, w1) /\
        handler env req w = (Return resp, w1))
  \/ (exists c t d w1,
        given (session_id req) = true /\
        prepare env req (text (youtube_url req)) (text (session_id req)) w =
          (Val (c, t, d), w1) /\
        handler env req w =
          tryCatch
            (bind (initialize env req c (text (youtube_url req)) (text (session_id req)))
                  (finish env c (text (session_id req)) t d))
            (recover env req) w1).
Proof.
  destruct (handler_paths env req w) as [H | (Hpost & Hurl & Hsession & Hvalid)];
    [now left | right].
  rewrite handler_checked by assumption.
  pose proof (prepare_outcome env req (text (youtube_url req))
                (text (session_id req)) w) as Hprep.
  destruct (prepare env req (text (youtube_url req)) (text (session_id req)) w)
    as [[[[c t] d] | resp | e |] w1] eqn:Hrun; try contradiction.
  - right. exists c, t, d, w1. split; [exact Hsession |]. split; [reflexivity |].
    now rewrite (tryCatch_bind_val _ _ _ _ _ _ Hrun).
  - left. exists resp, w1. split; [reflexivity |].
    now rewrite (tryCatch_bind_return _ _ _ _ _ _ Hrun).
Qed.

(** X21: a request to the edge function that fails for another reason
    than the timeout is answered 500 with the message of the error.  The
    progress is marked as failed only when the body of the request named
    the course: for a course that the route has created itself, no write
    of the run marks the progress as failed. *)
Theorem X21_network_error_is_recorded_for_a_named_course (env : Env)
    (req : Request) (w : World) (e : Error) :
  (initRequests (calls w) < initRequests (calls (snd (handler env req w))))%nat ->
  initFetch env 0 = InitThrows e -> name e <> "AbortError" ->
  exists new,
    answer (handler env req w) =
      Some (mkResponse 500
              (JObj [("success", JBool false); ("error", JStr (message e))])) /\
    calls (snd (handler env req w)) = calls w ++ new /\
    if given (course_id req)
    then exists before row,
      new = before ++ [UpsertProgress row] /\ Progress.stage row = "failed" /\
      Progress.course_id row = text (course_id req) /\
      Progress.session_id row = text (session_id req)
    else Forall (fun c => marksFailed c = false) new.
Proof.
  intros Hsent Hfetch Hname. apply String.eqb_neq in Hname.
  destruct (handler_outcome env req w)
    as [(resp & Hrun & _)
       | [(resp & w1 & Hprep & Hrun) | (c & t & d & w1 & Hsession & Hprep & Hrun)]].
  { exfalso. rewrite Hrun in Hsent. simpl in Hsent. lia. }
  { exfalso. rewrite Hrun in Hsent. simpl in Hsent.
    pose proof (prepare_outcome env req (text (youtube_url req))
                  (text (session_id req)) w) as Hout.
    rewrite Hprep in Hout. destruct Hout as (_ & _ & inserted & Hcalls & Hnone & _).
    rewrite Hcalls, initRequests_app in Hsent. lia. }
  pose proof (prepare_outcome env req (text (youtube_url req))
                (text (session_id req)) w) as Hout.
  rewrite Hprep in Hout.
  destruct Hout as (_ & inserted & row0 & Hcalls1 & _ & Hquiet & Hstage0 & _).
  destruct (hand_off_outcome env req c t d (text (youtube_url req))
              (text (session_id req)) w1)
    as (rest & Hcalls2 & _ & _ & resp & Hanswer & _ & Herror).
  rewrite <- Hrun in Hcalls2, Hanswer.
  destruct (Herror e Hfetch Hname) as [-> Hrest].
  exists (inserted ++ [UpsertProgress row0] ++
          CallInit 0 (initBody req c (text (youtube_url req)) (text (session_id req)))
            :: rest).
  split; [exact Hanswer |]. split.
  { rewrite Hcalls2, Hcalls1, <- !app_assoc. reflexivity. }
  rewrite Hsession in Hrest. simpl in Hrest.
  destruct (given (course_id req)).
  - destruct Hrest as (row & -> & Hstage & Hc & Hs).
    exists (inserted ++ [UpsertProgress row0;
                         CallInit 0 (initBody req c (text (youtube_url req))
                                       (text (session_id req)))]), row.
    split; [| auto]. rewrite <- !app_assoc. reflexivity.
  - subst rest. apply Forall_app. split; [exact Hquiet |].
    repeat constructor. unfold marksFailed. simpl. now rewrite Hstage0.
Qed.

(** X22: a run of the route inserts at most one course, and only when
    the body names none: a course with the sanitized URL that is not
    published.  The stored courses keep their ids and their order; the
    inserted course is the only one added, and none is added when the
    insert is refused. *)
Theorem X22_at_most_one_course_is_inserted (env : Env) (req : Request) (w : World) :
  exists new stored,
    calls (snd (handler env req w)) = calls w ++ new /\
    (length (courseInserts new) <= 1)%nat /\
    (forall course, In course (courseInserts new) ->
       given (course_id req) = false /\
       Course.id course = newCourseId env /\
       Course.youtube_url course =
         sanitizeYouTubeUrl env (text (youtube_url req)) /\
       Course.published course = false) /\
    map Course.id (courses (snd (handler env req w))) =
      map Course.id (courses w) ++ map Course.id stored /\
    (stored = [] \/ (courseError env = None /\ stored = courseInserts new)).
Proof.
  destruct (handler_outcome env req w)
    as [(resp & Hrun & _)
       | [(resp & w1 & Hprep & Hrun) | (c & t & d & w1 & Hsession & Hprep & Hrun)]].
  - rewrite Hrun. exists [], []. simpl. rewrite !app_nil_r.
    split; [reflexivity |]. split; [lia |]. split; [intros course [] |].
    split; [reflexivity | now left].
  - pose proof (prepare_outcome env req (text (youtube_url req))
                  (text (session_id req)) w) as Hout.
    rewrite Hprep in Hout.
    destruct Hout as (Hcourses & _ & inserted & Hcalls & _
                      & [[-> _] | (Hgiven & _ & msg & course & _ & -> & Hcourse)]).
    + rewrite Hrun. exists [], []. simpl. rewrite Hcourses, !app_nil_r.
      split; [rewrite Hcalls; now rewrite app_nil_r |].
      split; [lia |]. split; [intros course [] |].
      split; [reflexivity | now left].
    + rewrite Hrun. exists [InsertCourse course], []. simpl.
      rewrite Hcourses, app_nil_r.
      split; [exact Hcalls |]. split; [lia |]. split; [| auto].
      intros x [<- | []]. tauto.
  - pose proof (prepare_outcome env req (text (youtube_url req))
                  (text (session_id req)) w) as Hout.
    rewrite Hprep in Hout.
    destruct Hout as (_ & inserted & row0 & Hcalls1 & _ & _ & _ & _ & _ & Hcourses1
                      & Hinserted).
    destruct (hand_off_outcome env req c t d (text (youtube_url req))
                (text (session_id req)) w1)
      as (rest & Hcalls2 & Hnone & Hids & _).
    rewrite <- Hrun in Hcalls2, Hids.
    exists (inserted ++ [UpsertProgress row0] ++
            CallInit 0 (initBody req c (text (youtube_url req)) (text (session_id req)))
              :: rest), (courseInserts inserted).
    assert (courseInserts
              (inserted ++ [UpsertProgress row0] ++
               CallInit 0 (initBody req c (text (youtube_url req))
                             (text (session_id req))) :: rest) =
            courseInserts inserted) as Hsame.
    { rewrite courseInserts_app. simpl. rewrite Hnone. apply app_nil_r. }
    rewrite Hsame.
    split; [rewrite Hcalls2, Hcalls1, <- !app_assoc; reflexivity |].
    destruct (given (course_id req)).
    + subst inserted. simpl. split; [lia |]. split; [intros course [] |].
      split; [| now left]. rewrite Hids, Hcourses1. simpl. now rewrite !app_nil_r.
    + destruct Hinserted as (Hnoerr & course & Hone & Hcourse).
      rewrite Hone. simpl. split; [lia |]. split.
      * intros x [<- | []]. tauto.
      * split; [| right; auto].
        rewrite Hids, Hcourses1, Hone, map_app. reflexivity.
Qed.

(** X23: when the route has handed the request off and answers 200, the
    course of the answer is the course sent to the edge function: the
    course of the body when it names one, and the inserted course
    otherwise; the session of the answer is the session of the request. *)
Theorem X23_answer_names_the_course_handed_off (env : Env) (req : Request)
    (w : World) (resp : Response) :
  (initRequests (calls w) < initRequests (calls (snd (handler env req w))))%nat ->
  answer (handler env req w) = Some resp -> status resp = 200 ->
  exists before sent after,
    calls (snd (handler env req w)) = calls w ++ before ++ CallInit 0 sent :: after /\
    get "course_id" sent =
      Some (JStr (if given (course_id req) then text (course_id req)
                  else newCourseId env)) /\
    get "course_id" (body resp) = get "course_id" sent /\
    get "session_id" (body resp) = Some (JStr (text (session_id req))) /\
    get "session_id" sent = Some (JStr (text (session_id req))).
Proof.
  intros Hsent Hanswer Hstatus.
  destruct (handler_outcome env req w)
    as [(resp' & Hrun & _)
       | [(resp' & w1 & Hprep & Hrun) | (c & t & d & w1 & Hsession & Hprep & Hrun)]].
  { exfalso. rewrite Hrun in Hsent. simpl in Hsent. lia. }
  { exfalso. rewrite Hrun in Hsent. simpl in Hsent.
    pose proof (prepare_outcome env req (text (youtube_url req))
                  (text (session_id req)) w) as Hout.
    rewrite Hprep in Hout. destruct Hout as (_ & _ & inserted & Hcalls & Hnone & _).
    rewrite Hcalls, initRequests_app in Hsent. lia. }
  pose proof (prepare_outcome env req (text (youtube_url req))
                (text (session_id req)) w) as Hout.
  rewrite Hprep in Hout.
  destruct Hout as (Hc & inserted & row0 & Hcalls1 & _).
  destruct (hand_off_outcome env req c t d (text (youtube_url req))
              (text (session_id req)) w1)
    as (rest & Hcalls2 & _ & _ & resp' & Hanswer' & Hok & _).
  rewrite <- Hrun in Hcalls2, Hanswer'.
  assert (resp' = resp) as -> by congruence.
  destruct (Hok Hstatus) as [Hcourse Hsess].
  exists (inserted ++ [UpsertProgress row0]),
    (initBody req c (text (youtube_url req)) (text (session_id req))), rest.
  split; [rewrite Hcalls2, Hcalls1, <- !app_assoc; reflexivity |].
  rewrite Hcourse, Hsess, <- Hc. repeat split; reflexivity.
Qed.

(** X24: whatever the request and the outside world, every write of
    progress the route sends names its conflict target, and the keys
    (course_id, session_id) of [quiz_generation_progress] stay unique. *)
Theorem X24_progress_keys_stay_unique (env : Env) (req : Request) (w : World) :
  uniqueKeys Progress.key (quiz_generation_progress w) ->
  uniqueKeys Progress.key (quiz_generation_progress (snd (handler env req w))) /\
  exists new,
    calls (snd (handler env req w)) = calls w ++ new /\
    Forall (fun c => plainProgressInsert c = false) new.
Proof.
  intros Hunique.
  destruct (handler_effects env req w) as (new & Hcalls & _ & _ & Hplain & _ & Hkeys).
  split; [now apply Hkeys |]. now exists new.
Qed.

End Analyze.

Lemma X19_rejected_request_has_no_effect_witness :
  exists resp,
    AnalyzeVideoSmart.handler (Sample.analyzeEnv Sample.timeoutThenOk) analyzeGet
      Sample.cachedWorld = (Handler.Return resp, Sample.cachedWorld) /\
    (Handler.status resp = 405%Z \/ Handler.status resp = 400%Z) /\
    (Handler.status resp = 405%Z <-> AnalyzeVideoSmart.method analyzeGet <> "POST").
Proof.
  apply (X19_rejected_request_has_no_effect (Sample.analyzeEnv Sample.timeoutThenOk)
           analyzeGet Sample.cachedWorld).
  left. discriminate.
Defined.

Lemma X20_cache_answers_with_the_newest_course_witness :
  exists resp existing,
    AnalyzeVideoSmart.handler (Sample.analyzeEnv Sample.timeoutThenOk)
      Sample.analyzeRequest twoCoursesWorld = (Handler.Return resp, twoCoursesWorld) /\
    Db.get "course_id" (Handler.body resp) = Some (Db.JStr (Db.Course.id existing)) /\
    In existing (Db.courses twoCoursesWorld) /\
    (Db.Course.created_at Sample.cachedCourse <= Db.Course.created_at existing)%Z.
Proof.
  apply (X20_cache_answers_with_the_newest_course
           (Sample.analyzeEnv Sample.timeoutThenOk) Sample.analyzeRequest
           twoCoursesWorld Sample.cachedCourse (Db.Question.mk "question-0" "course-0")
           eq_refl eq_refl eq_refl eq_refl eq_refl eq_refl eq_refl eq_refl
           (or_introl eq_refl) eq_refl (or_introl eq_refl) eq_refl).
Defined.

Lemma X21_network_error_is_recorded_for_a_named_course_witness :
  exists new,
    Handler.answer
      (AnalyzeVideoSmart.handler (Sample.analyzeEnv networkDown) Sample.analyzeRequest
         Sample.emptyWorld) =
      Some (Handler.mkResponse 500
              (Db.JObj [("success", Db.JBool false);
                        ("error", Db.JStr "fetch failed")])) /\
    Db.calls
      (snd (AnalyzeVideoSmart.handler (Sample.analyzeEnv networkDown)
              Sample.analyzeRequest Sample.emptyWorld)) =
      Db.calls Sample.emptyWorld ++ new /\
    Forall (fun c => marksFailed c = false) new.
Proof.
  apply (X21_network_error_is_recorded_for_a_named_course
           (Sample.analyzeEnv networkDown) Sample.analyzeRequest Sample.emptyWorld
           (Handler.mkError "TypeError" "fetch failed")).
  - vm_compute. lia.
  - reflexivity.
  - discriminate.
Defined.

Lemma X23_answer_names_the_course_handed_off_witness :
  exists before sent after,
    Db.calls
      (snd (AnalyzeVideoSmart.handler (Sample.analyzeEnv Sample.timeoutThenOk)
              Sample.analyzeRequest Sample.emptyWorld)) =
      Db.calls Sample.emptyWorld ++ before ++ Db.CallInit 0 sent :: after /\
    Db.get "course_id" sent = Some (Db.JStr "course-1") /\
    Db.get "course_id"
      (Handler.body
         (answered
            (AnalyzeVideoSmart.handler (Sample.analyzeEnv Sample.timeoutThenOk)
               Sample.analyzeRequest Sample.emptyWorld))) =
      Db.get "course_id" sent /\
    Db.get "session_id"
      (Handler.body
         (answered
            (AnalyzeVideoSmart.handler (Sample.analyzeEnv Sample.timeoutThenOk)
               Sample.analyzeRequest Sample.emptyWorld))) =
      Some (Db.JStr "session-1") /\
    Db.get "session_id" sent = Some (Db.JStr "session-1").
Proof.
  apply (X23_answer_names_the_course_handed_off
           (Sample.analyzeEnv Sample.timeoutThenOk) Sample.analyzeRequest
           Sample.emptyWorld).
  - vm_compute. lia.
  - reflexivity.
  - reflexivity.
Defined.

Lemma X24_progress_keys_stay_unique_witness :
  uniqueKeys Db.Progress.key
    (Db.quiz_generation_progress
       (snd (AnalyzeVideoSmart.handler (Sample.analyzeEnv Sample.timeoutThenOk)
               Sample.analyzeRequest Sample.emptyWorld))) /\
  exists new,
    Db.calls
      (snd (AnalyzeVideoSmart.handler (Sample.analyzeEnv Sample.timeoutThenOk)
              Sample.analyzeRequest Sample.emptyWorld)) =
      Db.calls Sample.emptyWorld ++ new /\
    Forall (fun c => plainProgressInsert c = false) new.
Proof.
  apply (X24_progress_keys_stay_unique (Sample.analyzeEnv Sample.timeoutThenOk)
           Sample.analyzeRequest Sample.emptyWorld).
  unfold uniqueKeys. simpl. constructor.
Defined.
